(** * Model catalogue, validation and UI selection engine of the
      Perplexity MCP server (src/utils/model-config.ts,
      src/utils/model-selection.ts, src/utils/model-reasoning-toggle.ts)

    JavaScript strings are sequences of UTF-16 code units; they are
    modelled as [list Z].  The built-ins the sources call
    ([trim], [toLowerCase], [includes], [RegExp.prototype.test]) are
    modelled on code units, following ECMA-262. *)

From Stdlib Require Import ZArith List Bool String Ascii Lia.
Import ListNotations.
Local Open Scope Z_scope.
Local Open Scope list_scope.

Set Implicit Arguments.

(* ================================================================== *)
(** ** JavaScript strings *)

Module JS.

Definition jsstring : Type := list Z.

(** Code units of an ASCII literal of the sources. *)
Definition js (s : string) : jsstring :=
  List.map (fun a => Z.of_N (N_of_ascii a)) (list_ascii_of_string s).

(** The double quote, which the templates of the sources put around names. *)
Definition dq : jsstring := [34].

(** [a === b] on strings. *)
Fixpoint str_eqb (a b : jsstring) : bool :=
  match a, b with
  | [], [] => true
  | x :: a', y :: b' => (x =? y) && str_eqb a' b'
  | _, _ => false
  end.

(** A string is truthy when it is not empty. *)
Definition truthy (s : jsstring) : bool :=
  match s with [] => false | _ => true end.

(** WhiteSpace and LineTerminator code units (ECMA-262, 12.2 and 12.3),
    the units [String.prototype.trim] strips. *)
Definition isWhiteSpace (c : Z) : bool :=
  (c =? 9) || (c =? 10) || (c =? 11) || (c =? 12) || (c =? 13) || (c =? 32)
  || (c =? 160) || (c =? 5760)
  || ((8192 <=? c) && (c <=? 8202))
  || (c =? 8232) || (c =? 8233) || (c =? 8239) || (c =? 8287)
  || (c =? 12288) || (c =? 65279).

Fixpoint trimStart (s : jsstring) : jsstring :=
  match s with
  | c :: r => if isWhiteSpace c then trimStart r else s
  | [] => []
  end.

Definition trimEnd (s : jsstring) : jsstring := rev (trimStart (rev s)).

(** [s.trim()] *)
Definition trim (s : jsstring) : jsstring := trimEnd (trimStart s).

Fixpoint startsWith (s p : jsstring) : bool :=
  match p, s with
  | [], _ => true
  | x :: p', y :: s' => (x =? y) && startsWith s' p'
  | _ :: _, [] => false
  end.

(** [s.includes(sub)] *)
Fixpoint includes (s sub : jsstring) : bool :=
  startsWith s sub ||
  match s with
  | [] => false
  | _ :: r => includes r sub
  end.

(** Lower-case mapping of one code unit, as performed by
    [String.prototype.toLowerCase] (Unicode default case conversion).
    The table holds every unit whose image meets the Basic Latin block
    (the letters A-Z, KELVIN SIGN and the dotted capital I), the
    capitals of Latin-1 and the Cyrillic capitals U+0400 to U+042F;
    other units are returned unchanged.  Every string of the catalogue
    is Basic Latin, so a comparison with a catalogue string only depends
    on the units whose image meets Basic Latin. *)
Definition toLowerCaseUnit (c : Z) : jsstring :=
  if (65 <=? c) && (c <=? 90) then [c + 32]
  else if (192 <=? c) && (c <=? 222) && negb (c =? 215) then [c + 32]
  else if c =? 304 then [105; 775]
  else if c =? 8490 then [107]
  else if c =? 8491 then [229]
  else if (1024 <=? c) && (c <=? 1039) then [c + 80]
  else if (1040 <=? c) && (c <=? 1071) then [c + 32]
  else [c].

(** [s.toLowerCase()] *)
Definition toLowerCase (s : jsstring) : jsstring := flat_map toLowerCaseUnit s.

(** Upper-case mapping of the one-unit string [c] ([toUppercase] of
    ECMA-262, 22.2.2.7.3).  The table holds Basic Latin, Latin-1 (with
    the sharp s, which maps to two units), the dotless i and the long s,
    the Cyrillic small letters U+0430 to U+045F and the Cyrillic
    Extended-C letters, which map onto basic Cyrillic capitals; other
    units are returned unchanged.  It holds every unit that maps to a
    unit of a banned pattern, which is what matching them depends on. *)
Definition toUpperCaseUnit (c : Z) : jsstring :=
  if (97 <=? c) && (c <=? 122) then [c - 32]
  else if c =? 181 then [924]
  else if c =? 223 then [83; 83]
  else if (224 <=? c) && (c <=? 254) && negb (c =? 247) then [c - 32]
  else if c =? 255 then [376]
  else if c =? 305 then [73]
  else if c =? 383 then [83]
  else if (1072 <=? c) && (c <=? 1103) then [c - 32]
  else if (1104 <=? c) && (c <=? 1119) then [c - 80]
  else if c =? 7296 then [1042]
  else if c =? 7297 then [1044]
  else if c =? 7298 then [1054]
  else if c =? 7299 then [1057]
  else if (c =? 7300) || (c =? 7301) then [1058]
  else if c =? 7302 then [1066]
  else if c =? 7303 then [1122]
  else if c =? 7304 then [42570]
  else [c].

End JS.
Import JS.

(* ================================================================== *)
(** ** Regular expressions

    The fragment of RegExp the sources use: the assertions [^] and [$]
    (no [m] flag), literal characters, and a group of literal
    alternatives, with or without the [i] flag (never the [u] flag). *)

Module RegExp.

Inductive Node : Type :=
| Bol                                   (* ^ *)
| Eol                                   (* $ *)
| Chr (c : Z)                           (* a literal character *)
| Group (alts : list jsstring).         (* (w1|w2|...) *)

Record t : Type := mk { source : list Node; ignoreCase : bool }.

(** Canonicalize (ECMA-262, 22.2.2.7.3) for a pattern without the [u]
    flag: characters are compared through their upper-case mapping,
    unless it has several units or maps a non-ASCII unit into ASCII. *)
Definition Canonicalize (ic : bool) (ch : Z) : Z :=
  if ic then
    match toUpperCaseUnit ch with
    | [cu] => if (128 <=? ch) && (cu <? 128) then ch else cu
    | _ => ch
    end
  else ch.

Definition chr_eqb (ic : bool) (p x : Z) : bool :=
  Canonicalize ic p =? Canonicalize ic x.

(** Consume the literal [w] at the head of the input. *)
Fixpoint eat (ic : bool) (w input : jsstring) : option jsstring :=
  match w, input with
  | [], _ => Some input
  | p :: w', x :: r => if chr_eqb ic p x then eat ic w' r else None
  | _ :: _, [] => None
  end.

(** Match the nodes at the current position; [bos] tells whether the
    position is the start of the input, [input] is what lies ahead. *)
Fixpoint matchHere (ic : bool) (nodes : list Node) (bos : bool)
         (input : jsstring) : bool :=
  match nodes with
  | [] => true
  | Bol :: ns => bos && matchHere ic ns bos input
  | Eol :: ns =>
      match input with [] => matchHere ic ns bos input | _ :: _ => false end
  | Chr p :: ns =>
      match input with
      | x :: r => chr_eqb ic p x && matchHere ic ns false r
      | [] => false
      end
  | Group alts :: ns =>
      existsb (fun w =>
                 match eat ic w input with
                 | Some r => matchHere ic ns (bos && negb (truthy w)) r
                 | None => false
                 end) alts
  end.

(** Try every start position from the left, as [exec] does with
    [lastIndex = 0] on a pattern that is neither global nor sticky. *)
Fixpoint scan (ic : bool) (nodes : list Node) (bos : bool)
         (input : jsstring) : bool :=
  matchHere ic nodes bos input ||
  match input with
  | [] => false
  | _ :: r => scan ic nodes false r
  end.

(** [re.test(s)] *)
Definition test (re : t) (s : jsstring) : bool :=
  scan (ignoreCase re) (source re) true s.

(** [/^w$/i] *)
Definition wholeWord (w : jsstring) : t :=
  mk (Bol :: List.map Chr w ++ [Eol]) true.

(** [/(w1|w2|...)/] *)
Definition anyOf (ws : list jsstring) : t := mk [Group ws] false.

End RegExp.

(* ================================================================== *)
(** ** src/utils/model-config.ts *)

Record ModelConfig : Type := mkModel {
  name : jsstring;
  displayName : jsstring;
  selectorText : jsstring;
  isDefault : option bool            (* isDefault?: boolean *)
}.

Definition AVAILABLE_MODELS : list ModelConfig :=
  [ mkModel (js "claude-sonnet-4.6") (js "Claude Sonnet 4.6")
            (js "Claude Sonnet 4.6") (Some true);
    mkModel (js "gemini-3.1-pro") (js "Gemini 3.1 Pro")
            (js "Gemini 3.1 Pro") None;
    mkModel (js "gemini-3-flash") (js "Gemini 3 Flash")
            (js "Gemini 3 Flash") None;
    mkModel (js "gpt-5.2") (js "GPT-5.2") (js "GPT-5.2") None;
    mkModel (js "grok-4.1") (js "Grok 4.1") (js "Grok 4.1") None;
    mkModel (js "kimi-k2.5") (js "Kimi K2.5") (js "Kimi K2.5") None;
    mkModel (js "claude-opus-4.6") (js "Claude Opus 4.6")
            (js "Claude Opus 4.6") None;
    mkModel (js "reasoning") (js "Reasoning") (js "Reasoning") None;
    mkModel (js "sonar") (js "Sonar") (js "Sonar") None ].

(** The words of [BANNED_MODEL_PATTERNS]; the third is the Russian and
    the fifth the Japanese word for "model". *)
Definition BANNED_WORDS : list jsstring :=
  [ js "model";
    js "sonar";
    [1084; 1086; 1076; 1077; 1083; 1100];
    js "modelo";
    [12514; 12487; 12523] ].

Definition BANNED_MODEL_PATTERNS : list RegExp.t :=
  List.map RegExp.wholeWord BANNED_WORDS.

(** The loop of [isModelAllowed] over the patterns. *)
Fixpoint isModelAllowed_loop (patterns : list RegExp.t) (modelName : jsstring)
  : bool :=
  match patterns with
  | [] => true
  | pattern :: rest =>
      if RegExp.test pattern (trim modelName) then false
      else isModelAllowed_loop rest modelName
  end.

Definition isModelAllowed (modelName : jsstring) : bool :=
  isModelAllowed_loop BANNED_MODEL_PATTERNS modelName.

Definition getModelConfig (modelName : jsstring) : option ModelConfig :=
  let normalizedName := trim (toLowerCase modelName) in
  let model :=
    find (fun m => str_eqb (toLowerCase (name m)) normalizedName)
         AVAILABLE_MODELS in
  let model :=
    match model with
    | Some _ => model
    | None =>
        find (fun m => str_eqb (toLowerCase (displayName m)) normalizedName)
             AVAILABLE_MODELS
    end in
  let model :=
    match model with
    | Some _ => model
    | None =>
        find (fun m => str_eqb (toLowerCase (selectorText m)) normalizedName)
             AVAILABLE_MODELS
    end in
  model.

(* ================================================================== *)
(** ** Exceptions and the logging sink *)

(** A thrown [Error] with its message. *)
Inductive Exn : Type := JsError (message : jsstring).

Inductive Res (A : Type) : Type :=
| Ok (a : A)
| Throw (e : Exn).
Arguments Ok {A} a.
Arguments Throw {A} e.

Inductive Level : Type := Info | Warn.

(** One call of [logInfo] or [logWarn]: the message and, when the call
    passes a context object, the error it carries. *)
Record LogEntry : Type := mkLog {
  level : Level;
  message : jsstring;
  context : option Exn
}.

Definition getDefaultModel : Res ModelConfig :=
  match find (fun m => match isDefault m with Some b => b | None => false end)
             AVAILABLE_MODELS with
  | Some defaultModel => Ok defaultModel
  | None => Throw (JsError (js "No default model configured"))
  end.

(** [getDefaultModel().name] *)
Definition defaultName : Res jsstring :=
  match getDefaultModel with
  | Ok d => Ok (name d)
  | Throw e => Throw e
  end.

(** [getValidatedModel]: the returned value (or the exception of a
    catalogue without default) and the warnings it logs. *)
Definition getValidatedModel (modelName : option jsstring)
  : Res jsstring * list LogEntry :=
  match modelName with
  | None => (defaultName, [])
  | Some raw =>
      if negb (truthy raw) then (defaultName, [])
      else
        match getModelConfig raw with
        | None =>
            (defaultName,
             [mkLog Warn (js "Model " ++ dq ++ raw ++ dq
                             ++ js " not found, using default") None])
        | Some modelConfig =>
            if negb (isModelAllowed (name modelConfig)) then
              (defaultName,
               [mkLog Warn (js "Model " ++ dq ++ raw ++ dq
                               ++ js " is not allowed, using default") None])
            else (Ok (name modelConfig), [])
        end
  end.

(* ================================================================== *)
(** ** The page controller

    The browser page is an external resource.  Its document is a list
    of elements in document order; the engine reads it through scripts
    and acts on it through clicks and waits.  How the application
    reacts to a click or to time passing, and when a primitive of the
    controller rejects, is left to the page: the engine is defined over
    any [Browser]. *)

Module Page.

Record Element : Type := mkElement {
  tagName : string;                       (* upper case, as the DOM reports it *)
  textContent : jsstring;
  parent : option nat;                    (* index of the parent element *)
  attributes : list (string * jsstring)
}.

Definition getAttribute (el : Element) (a : string) : option jsstring :=
  match find (fun kv => String.eqb (fst kv) a) (attributes el) with
  | Some kv => Some (snd kv)
  | None => None
  end.

(** The selectors of the sources: an optional tag, attribute tests
    [[a="v"]], and the non-standard [:has-text("...")]. *)
Record Selector : Type := mkSelector {
  sel_tag : option string;
  sel_attrs : list (string * jsstring);
  sel_has_text : option jsstring
}.

Definition opt_str_eqb (o : option jsstring) (v : jsstring) : bool :=
  match o with Some x => str_eqb x v | None => false end.

Definition matches (sel : Selector) (el : Element) : bool :=
  match sel_tag sel with
  | Some t => String.eqb (tagName el) t
  | None => true
  end
  && forallb (fun kv => opt_str_eqb (getAttribute el (fst kv)) (snd kv))
             (sel_attrs sel)
  && match sel_has_text sel with
     | Some t => includes (textContent el) t
     | None => true
     end.

(** ['button'] *)
Definition BUTTON : Selector := mkSelector (Some "BUTTON"%string) [] None.
(** ['*'] *)
Definition ANY : Selector := mkSelector None [] None.
(** ['[role="menuitem"]'] *)
Definition MENUITEM : Selector :=
  mkSelector None [("role"%string, js "menuitem")] None.
(** ['button:has-text("More")'].  [:has-text] is not a CSS selector:
    a controller that does not support it rejects the call, which is a
    page whose [rejects] answers for this selector. *)
Definition BUTTON_HAS_TEXT_MORE : Selector :=
  mkSelector (Some "BUTTON"%string) [] (Some (js "More")).

(** [document.querySelectorAll(sel)]: the matching elements with their
    position in the document. *)
Fixpoint querySelectorAll_from (i : nat) (d : list Element) (sel : Selector)
  : list (nat * Element) :=
  match d with
  | [] => []
  | el :: r =>
      if matches sel el then (i, el) :: querySelectorAll_from (S i) r sel
      else querySelectorAll_from (S i) r sel
  end.

Definition querySelectorAll (d : list Element) (sel : Selector)
  : list (nat * Element) := querySelectorAll_from 0 d sel.

Definition querySelector (d : list Element) (sel : Selector)
  : option (nat * Element) := hd_error (querySelectorAll d sel).

(** [el.closest(sel)]: the element itself or its nearest ancestor that
    matches.  Parents precede their children in document order, so the
    length of the document is enough fuel. *)
Fixpoint closest_fuel (fuel : nat) (d : list Element) (sel : Selector)
         (i : nat) : option nat :=
  match fuel with
  | O => None
  | S fuel' =>
      match nth_error d i with
      | None => None
      | Some el =>
          if matches sel el then Some i
          else match parent el with
               | Some p => closest_fuel fuel' d sel p
               | None => None
               end
      end
  end.

Definition closest (d : list Element) (sel : Selector) (i : nat) : option nat :=
  closest_fuel (List.length d) d sel i.

(** The functions the sources pass to [page.evaluate]. *)
Inductive Script : Type :=
| ScTextContent (handle : nat)      (* el => el.textContent?.trim() *)
| ScCurrentModel                    (* getCurrentlySelectedModel *)
| ScHasMore                         (* setModel: is there a "More" button *)
| ScClickButton (label : jsstring)  (* setModel: click the button with the name *)
| ScTimeout (ms : Z)                (* new Promise(r => setTimeout(r, ms)) *)
| ScCurrentText                     (* setModelFinal: current selection *)
| ScClickMore                       (* setModelFinal: click "More" *)
| ScSearchAll (label : jsstring)    (* setModelFinal: search all elements *)
| ScAriaChecked (sel : Selector).   (* enableReasoningMode: toggle state *)

(** The primitives of the page controller. *)
Inductive Call : Type :=
| QueryAll (sel : Selector)         (* page.$$(sel) *)
| QueryOne (sel : Selector)         (* page.$(sel) *)
| Evaluate (s : Script)             (* page.evaluate(...) *)
| ClickSelector (sel : Selector).   (* page.click(sel) *)

(** What the engine does to the page. *)
Inductive Effect : Type :=
| Click (node : nat)
| Wait (ms : Z).

(** The journal of one run, in order of occurrence. *)
Inductive Event : Type :=
| Logged (entry : LogEntry)
| Called (c : Call)
| Did (e : Effect).

Class Browser (W : Type) : Type := {
  dom : W -> list Element;
  (** [Some e]: the promise of the primitive rejects with [e]
      (closed page, destroyed context, selector not supported...). *)
  rejects : W -> Call -> option Exn;
  (** the page after the application has handled the effect *)
  react : W -> Effect -> W
}.

Section Monad.
Context {W : Type} {B : Browser W}.

(** Computations on a page: a result or an exception, the page
    afterwards, and the journal. *)
Definition M (A : Type) : Type := W -> Res A * W * list Event.

Definition ret {A} (a : A) : M A := fun w => (Ok a, w, []).

Definition throw {A} (e : Exn) : M A := fun w => (Throw e, w, []).

Definition bind {A C} (m : M A) (f : A -> M C) : M C :=
  fun w =>
    match m w with
    | (Ok a, w1, j1) =>
        match f a w1 with (r, w2, j2) => (r, w2, j1 ++ j2) end
    | (Throw e, w1, j1) => (Throw e, w1, j1)
    end.

(** [try { m } catch (error) { handler error }] *)
Definition try_catch {A} (m : M A) (handler : Exn -> M A) : M A :=
  fun w =>
    match m w with
    | (Ok a, w1, j1) => (Ok a, w1, j1)
    | (Throw e, w1, j1) =>
        match handler e w1 with (r, w2, j2) => (r, w2, j1 ++ j2) end
    end.

Definition logInfo (msg : jsstring) : M unit :=
  fun w => (Ok tt, w, [Logged (mkLog Info msg None)]).

Definition logWarn (msg : jsstring) (ctx : option Exn) : M unit :=
  fun w => (Ok tt, w, [Logged (mkLog Warn msg ctx)]).

(** A synchronous computation of model-config.ts, run in the flow. *)
Definition lift {A} (p : Res A * list LogEntry) : M A :=
  fun w => (fst p, w, List.map Logged (snd p)).

(** [page.evaluate(f)]: [f] reads the document and returns its value
    together with the elements it clicked, in order. *)
Definition evaluate {A} (s : Script) (f : list Element -> A * list nat)
  : M A :=
  fun w =>
    match rejects w (Evaluate s) with
    | Some e => (Throw e, w, [Called (Evaluate s)])
    | None =>
        let '(a, clicks) := f (dom w) in
        (Ok a,
         fold_left (fun w' i => react w' (Click i)) clicks w,
         Called (Evaluate s) :: List.map (fun i => Did (Click i)) clicks)
    end.

(** [page.evaluate(() => new Promise(r => setTimeout(r, ms)))] *)
Definition sleep (ms : Z) : M unit :=
  fun w =>
    match rejects w (Evaluate (ScTimeout ms)) with
    | Some e => (Throw e, w, [Called (Evaluate (ScTimeout ms))])
    | None =>
        (Ok tt, react w (Wait ms),
         [Called (Evaluate (ScTimeout ms)); Did (Wait ms)])
    end.

(** [page.$$(sel)]: handles of the matching elements. *)
Definition queryAll (sel : Selector) : M (list nat) :=
  fun w =>
    match rejects w (QueryAll sel) with
    | Some e => (Throw e, w, [Called (QueryAll sel)])
    | None =>
        (Ok (List.map fst (querySelectorAll (dom w) sel)), w,
         [Called (QueryAll sel)])
    end.

(** [page.$(sel)]: a handle or [null]. *)
Definition queryOne (sel : Selector) : M (option nat) :=
  fun w =>
    match rejects w (QueryOne sel) with
    | Some e => (Throw e, w, [Called (QueryOne sel)])
    | None =>
        (Ok (option_map fst (querySelector (dom w) sel)), w,
         [Called (QueryOne sel)])
    end.

(** [page.click(sel)]: click the first matching element; an error is
    thrown when there is none. *)
Definition click (sel : Selector) : M unit :=
  fun w =>
    match rejects w (ClickSelector sel) with
    | Some e => (Throw e, w, [Called (ClickSelector sel)])
    | None =>
        match querySelector (dom w) sel with
        | Some (i, _) =>
            (Ok tt, react w (Click i),
             [Called (ClickSelector sel); Did (Click i)])
        | None =>
            (Throw (JsError (js "No element found for selector")), w,
             [Called (ClickSelector sel)])
        end
    end.

End Monad.

Declare Scope page_scope.
Delimit Scope page_scope with page.
Notation "x <- m ;; k" := (bind m (fun x => k))
  (at level 61, m at next level, right associativity) : page_scope.
Notation "m ;; k" := (bind m (fun _ => k))
  (at level 61, right associativity) : page_scope.

(** The effects recorded in a journal. *)
Fixpoint effects (j : list Event) : list Effect :=
  match j with
  | [] => []
  | Did e :: r => e :: effects r
  | _ :: r => effects r
  end.

(** The clicks recorded in a journal. *)
Fixpoint clicks (j : list Event) : list nat :=
  match j with
  | [] => []
  | Did (Click i) :: r => i :: clicks r
  | _ :: r => clicks r
  end.

(** The page operations of a journal: the calls of primitives and the
    effects, without the log lines. *)
Fixpoint operations (j : list Event) : list Event :=
  match j with
  | [] => []
  | Logged _ :: r => operations r
  | ev :: r => ev :: operations r
  end.


End Page.
Import Page.
Local Open Scope page_scope.

Arguments M W A : clear implicits.

(** [text && re.test(text)] for the value of [el.textContent?.trim()]. *)
Definition textMatches (re : RegExp.t) (text : option jsstring) : bool :=
  match text with
  | Some t => truthy t && RegExp.test re t
  | None => false
  end.

(** [/(Claude|Gemini|Sonar|GPT|Grok|More)/] *)
Definition MODEL_OR_MORE : RegExp.t :=
  RegExp.anyOf
    [js "Claude"; js "Gemini"; js "Sonar"; js "GPT"; js "Grok"; js "More"].

(** [/(Claude|Gemini|Sonar|GPT|Grok|Kimi)/] *)
Definition MODEL_FAMILY : RegExp.t :=
  RegExp.anyOf
    [js "Claude"; js "Gemini"; js "Sonar"; js "GPT"; js "Grok"; js "Kimi"].

(** [el => el.textContent?.trim()], applied to the element of a handle. *)
Definition trimmedText (handle : nat) (d : list Element)
  : option jsstring * list nat :=
  (option_map (fun el => trim (textContent el)) (nth_error d handle), []).

(** The Russian label of the reasoning mode. *)
Definition REASONING_LABEL : jsstring :=
  [1056; 1072; 1089; 1089; 1091; 1078; 1076; 1077; 1085; 1080; 1077].

(* ================================================================== *)
(** ** src/utils/model-reasoning-toggle.ts *)

Module ReasoningToggle.

(** ['button[value="on"][role="switch"]'] *)
Definition REASONING_TOGGLE_SELECTOR : Selector :=
  mkSelector (Some "BUTTON"%string)
             [("value"%string, js "on"); ("role"%string, js "switch")] None.

(** [toggle?.getAttribute('aria-checked') === 'true'] *)
Definition ariaChecked (selector : Selector) (d : list Element)
  : bool * list nat :=
  (match querySelector d selector with
   | Some (_, toggle) =>
       opt_str_eqb (getAttribute toggle "aria-checked"%string) (js "true")
   | None => false
   end, []).

Section Toggle.
Context {W : Type} {B : Browser W}.

Definition isReasoningToggleAvailable_try : M W bool :=
  toggle <- queryOne REASONING_TOGGLE_SELECTOR ;;
  ret (match toggle with Some _ => true | None => false end).

Definition isReasoningToggleAvailable_catch (error : Exn) : M W bool :=
  logWarn (js "Error checking reasoning toggle availability:")
          (Some error) ;;
  ret false.

Definition isReasoningToggleAvailable : M W bool :=
  try_catch isReasoningToggleAvailable_try isReasoningToggleAvailable_catch.

Definition enableReasoningMode_try : M W bool :=
  logInfo (js "Enabling reasoning mode (" ++ REASONING_LABEL
              ++ js ")...") ;;
  isEnabled <- evaluate (ScAriaChecked REASONING_TOGGLE_SELECTOR)
                        (ariaChecked REASONING_TOGGLE_SELECTOR) ;;
  if isEnabled : bool then
    logInfo (js "Reasoning mode is already enabled") ;;
    ret true
  else
    click REASONING_TOGGLE_SELECTOR ;;
    logInfo (js "Reasoning mode enabled successfully") ;;
    sleep 500 ;;
    ret true.

Definition enableReasoningMode_catch (error : Exn) : M W bool :=
  logWarn (js "Failed to enable reasoning mode:") (Some error) ;;
  ret false.

Definition enableReasoningMode : M W bool :=
  try_catch enableReasoningMode_try enableReasoningMode_catch.

End Toggle.
End ReasoningToggle.

(* ================================================================== *)
(** ** src/utils/model-selection.ts, enhanced version

    The file holds three versions of the engine.  The first (enhanced)
    and the last (final) are embedded here, each in its module; the
    names of the sources are kept. *)

Module Enhanced.

(** The script of [getCurrentlySelectedModel]. *)
Fixpoint currentModel_loop (buttons : list (nat * Element)) : option jsstring :=
  match buttons with
  | [] => None
  | (_, btn) :: rest =>
      let text := trim (textContent btn) in
      if truthy text && RegExp.test MODEL_FAMILY text
         && negb (str_eqb text (js "More"))
      then Some text
      else currentModel_loop rest
  end.

Definition currentModel (d : list Element) : option jsstring * list nat :=
  (currentModel_loop (querySelectorAll d BUTTON), []).

(** [buttons.some(btn => btn.textContent?.trim() === 'More')] *)
Definition hasMoreButton (d : list Element) : bool * list nat :=
  (existsb (fun b => str_eqb (trim (textContent (snd b))) (js "More"))
           (querySelectorAll d BUTTON), []).

(** The script of [setModel] that clicks the first button whose text
    includes the name. *)
Fixpoint clickButton_loop (label : jsstring) (buttons : list (nat * Element))
  : bool * list nat :=
  match buttons with
  | [] => (false, [])
  | (i, btn) :: rest =>
      let text := trim (textContent btn) in
      if truthy text && includes text label then (true, [i])
      else clickButton_loop label rest
  end.

Definition clickButton (label : jsstring) (d : list Element)
  : bool * list nat :=
  clickButton_loop label (querySelectorAll d BUTTON).

Section Engine.
Context {W : Type} {B : Browser W}.

Fixpoint isModelSelectionAvailable_loop (buttons : list nat) : M W bool :=
  match buttons with
  | [] =>
      logWarn (js "Model selection UI not found") None ;;
      ret false
  | button :: rest =>
      text <- evaluate (ScTextContent button) (trimmedText button) ;;
      if textMatches MODEL_OR_MORE text then
        logInfo (js "Model selection available (found: " ++ dq
                    ++ match text with Some t => t | None => [] end
                    ++ dq ++ js ")") ;;
        ret true
      else isModelSelectionAvailable_loop rest
  end.

Definition isModelSelectionAvailable_try : M W bool :=
  buttons <- queryAll BUTTON ;;
  isModelSelectionAvailable_loop buttons.

Definition isModelSelectionAvailable_catch (error : Exn) : M W bool :=
  logWarn (js "Error checking availability:") (Some error) ;;
  ret false.

Definition isModelSelectionAvailable : M W bool :=
  try_catch isModelSelectionAvailable_try isModelSelectionAvailable_catch.

Definition getCurrentlySelectedModel_try : M W (option jsstring) :=
  modelName <- evaluate ScCurrentModel currentModel ;;
  match modelName with
  | Some n =>
      if truthy n then logInfo (js "Current model: " ++ n) else ret tt
  | None => ret tt
  end ;;
  ret modelName.

Definition getCurrentlySelectedModel_catch (error : Exn)
  : M W (option jsstring) :=
  logWarn (js "Error getting current model:") (Some error) ;;
  ret None.

Definition getCurrentlySelectedModel : M W (option jsstring) :=
  try_catch getCurrentlySelectedModel_try getCurrentlySelectedModel_catch.

(** [current && current.includes(modelDisplayName)] *)
Definition alreadySelected (current : option jsstring)
           (modelDisplayName : jsstring) : bool :=
  match current with
  | Some c => truthy c && includes c modelDisplayName
  | None => false
  end.

Definition setModel_try (modelDisplayName : jsstring) : M W bool :=
  logInfo (js "Setting model to: " ++ modelDisplayName) ;;
  current <- getCurrentlySelectedModel ;;
  if alreadySelected current modelDisplayName then
    logInfo (js "Model " ++ dq ++ modelDisplayName ++ dq
                ++ js " already selected") ;;
    ret true
  else
    hasMore <- evaluate ScHasMore hasMoreButton ;;
    (if hasMore : bool then
       logInfo (js "Found " ++ dq ++ js "More" ++ dq
                   ++ js " button, clicking to expand model list") ;;
       click BUTTON_HAS_TEXT_MORE ;;
       sleep 1000
     else ret tt) ;;
    foundModelButton <- evaluate (ScClickButton modelDisplayName)
                                 (clickButton modelDisplayName) ;;
    if foundModelButton : bool then
      logInfo (js "Successfully clicked model " ++ dq
                  ++ modelDisplayName ++ dq) ;;
      sleep 1000 ;;
      ret true
    else
      logWarn (js "Could not find model " ++ dq ++ modelDisplayName
                  ++ dq ++ js " in UI") None ;;
      ret false.

Definition setModel_catch (modelDisplayName : jsstring) (error : Exn)
  : M W bool :=
  logWarn (js "Failed to set model " ++ dq ++ modelDisplayName ++ dq
              ++ js ":") (Some error) ;;
  ret false.

Definition setModel (modelDisplayName : jsstring) : M W bool :=
  try_catch (setModel_try modelDisplayName) (setModel_catch modelDisplayName).

Definition selectModel (model : jsstring) : M W jsstring :=
  validatedModel <- lift (getValidatedModel (Some model)) ;;
  available <- isModelSelectionAvailable ;;
  if negb available then
    logWarn (js "Model selection not available, using validated model: "
                ++ validatedModel) None ;;
    ret validatedModel
  else
    modelSet <- setModel validatedModel ;;
    (if negb modelSet then
       logWarn (js "Could not set model via UI, falling back to: "
                   ++ validatedModel) None
     else ret tt) ;;
    ret validatedModel.

End Engine.
End Enhanced.

(* ================================================================== *)
(** ** src/utils/model-selection.ts, final version *)

Module Final.
Import ReasoningToggle.

(** The script of [setModelFinal] that reads the current selection. *)
Fixpoint currentText_loop (buttons : list (nat * Element)) : option jsstring :=
  match buttons with
  | [] => None
  | (_, btn) :: rest =>
      let text := trim (textContent btn) in
      if truthy text && RegExp.test MODEL_OR_MORE text then Some text
      else currentText_loop rest
  end.

Definition currentText (d : list Element) : option jsstring * list nat :=
  (currentText_loop (querySelectorAll d BUTTON), []).

(** [buttons.find(btn => btn.textContent?.trim() === 'More')], clicked
    when there is one. *)
Definition clickMore (d : list Element) : unit * list nat :=
  match find (fun b => str_eqb (trim (textContent (snd b))) (js "More"))
             (querySelectorAll d BUTTON) with
  | Some (i, _) => (tt, [i])
  | None => (tt, [])
  end.

(** The search of [setModelFinal] over all elements.  (Its
    [console.log] lines go to the console of the page, not to the
    logging sink, and are left out.) *)
Fixpoint searchAll_loop (d : list Element) (label : jsstring)
         (elements : list (nat * Element)) : bool * list nat :=
  match elements with
  | [] => (false, [])
  | (i, el) :: rest =>
      let text := trim (textContent el) in
      if includes text label then
        (true, [match closest d MENUITEM i with Some m => m | None => i end])
      else searchAll_loop d label rest
  end.

Definition searchAll (label : jsstring) (d : list Element) : bool * list nat :=
  let elements :=
    filter (fun ie =>
              includes (textContent (snd ie)) label
              && negb (String.eqb (tagName (snd ie)) "SCRIPT")
              && negb (String.eqb (tagName (snd ie)) "STYLE"))
           (querySelectorAll d ANY) in
  searchAll_loop d label elements.

(** Code units of the symbols that open the log lines. *)
Definition TARGET_SIGN : jsstring := [55356; 57263].
Definition LENS_SIGN : jsstring := [55357; 56589].
Definition CHECK_SIGN : jsstring := [10003].
Definition BUTTON_SIGN : jsstring := [55357; 56600].
Definition DONE_SIGN : jsstring := [9989].
Definition CROSS_SIGN : jsstring := [10060].

Section Engine.
Context {W : Type} {B : Browser W}.

Fixpoint isModelSelectionAvailable_loop (buttons : list nat) : M W bool :=
  match buttons with
  | [] => ret false
  | button :: rest =>
      text <- evaluate (ScTextContent button) (trimmedText button) ;;
      if textMatches MODEL_OR_MORE text then ret true
      else isModelSelectionAvailable_loop rest
  end.

Definition isModelSelectionAvailable_try : M W bool :=
  buttons <- queryAll BUTTON ;;
  isModelSelectionAvailable_loop buttons.

(** [catch { return false; }] *)
Definition isModelSelectionAvailable_catch (_ : Exn) : M W bool :=
  ret false.

Definition isModelSelectionAvailable : M W bool :=
  try_catch isModelSelectionAvailable_try isModelSelectionAvailable_catch.

(** [currentText?.includes(modelDisplayName)] *)
Definition alreadySelected (current : option jsstring)
           (modelDisplayName : jsstring) : bool :=
  match current with
  | Some c => includes c modelDisplayName
  | None => false
  end.

Definition notSelected (modelDisplayName : jsstring) : M W bool :=
  logWarn (CROSS_SIGN ++ js " Could not select model: "
              ++ modelDisplayName) None ;;
  ret false.

Definition setModelFinal_try (modelDisplayName : jsstring) : M W bool :=
  logInfo (TARGET_SIGN ++ js " Setting model to: " ++ modelDisplayName) ;;
  current <- evaluate ScCurrentText currentText ;;
  logInfo (LENS_SIGN ++ js " Current selection: "
              ++ match current with
                 | Some c => if truthy c then c else js "unknown"
                 | None => js "unknown"
                 end) ;;
  if alreadySelected current modelDisplayName then
    logInfo (CHECK_SIGN ++ js " Model already selected") ;;
    ret true
  else if opt_str_eqb current (js "More") then
    logInfo (BUTTON_SIGN ++ js " Clicking " ++ dq ++ js "More" ++ dq
                ++ js " to expand model list...") ;;
    evaluate ScClickMore clickMore ;;
    sleep 1500 ;;
    found <- evaluate (ScSearchAll modelDisplayName)
                      (searchAll modelDisplayName) ;;
    if found : bool then
      logInfo (DONE_SIGN ++ js " Model selected: " ++ modelDisplayName) ;;
      sleep 1000 ;;
      (if includes modelDisplayName (js "Claude")
          || includes modelDisplayName REASONING_LABEL
       then
         logInfo (LENS_SIGN ++ js " Checking for reasoning toggle...") ;;
         available <- isReasoningToggleAvailable ;;
         if available : bool then
           logInfo (LENS_SIGN ++ js " Found reasoning toggle, enabling...") ;;
           enableReasoningMode ;;
           ret tt
         else ret tt
       else ret tt) ;;
      ret true
    else notSelected modelDisplayName
  else notSelected modelDisplayName.

Definition setModelFinal_catch (error : Exn) : M W bool :=
  logWarn (CROSS_SIGN ++ js " Model selection failed:") (Some error) ;;
  ret false.

Definition setModelFinal (modelDisplayName : jsstring) : M W bool :=
  try_catch (setModelFinal_try modelDisplayName) setModelFinal_catch.

Definition selectModelFinal (model : jsstring) : M W jsstring :=
  validatedModel <- lift (getValidatedModel (Some model)) ;;
  let modelConfig := getModelConfig validatedModel in
  available <- isModelSelectionAvailable ;;
  if negb available then
    logWarn (js "Model selection UI not available") None ;;
    ret validatedModel
  else
    setModelFinal
      (match modelConfig with
       | Some c => if truthy (selectorText c) then selectorText c
                   else validatedModel
       | None => validatedModel
       end) ;;
    ret validatedModel.

End Engine.
End Final.

(* ================================================================== *)
(** ** src/utils/model-selection.ts, dropdown version

    The second of the three versions drives the dropdown of the model
    button.  It uses primitives the other two do not
    ([waitForSelector], [waitForTimeout], [keyboard.press]), selectors
    that test the presence of an attribute and a third log level, so it
    has its own controller interface.  When a wait for a selector is
    fulfilled or times out is left to the controller, as the rejection
    of any other primitive is. *)

Module Legacy.

Inductive Level : Type := Info | Warn | Error.

(** One call of [logInfo], [logWarn] or [logError]: the message and,
    when the call passes [{ error: ... }], the text it carries. *)
Record LogEntry : Type := mkLog {
  level : Level;
  message : jsstring;
  context : option jsstring
}.

(** [error instanceof Error ? error.message : String(error)] *)
Definition errorText (error : Exn) : jsstring :=
  match error with JsError msg => msg end.

(** The selectors of this version: an optional tag, attribute tests
    [[a="v"]] and attribute presence tests [[a]]. *)
Record Selector : Type := mkSelector {
  sel_tag : option string;
  sel_attrs : list (string * jsstring);
  sel_present : list string
}.

Definition matches (sel : Selector) (el : Element) : bool :=
  match sel_tag sel with
  | Some t => String.eqb (tagName el) t
  | None => true
  end
  && forallb (fun kv => opt_str_eqb (getAttribute el (fst kv)) (snd kv))
             (sel_attrs sel)
  && forallb (fun a => match getAttribute el a with
                       | Some _ => true
                       | None => false
                       end)
             (sel_present sel).

(** [document.querySelectorAll(sel)]: the matching elements with their
    position in the document. *)
Definition querySelectorAll (d : list Element) (sel : Selector)
  : list (nat * Element) :=
  filter (fun ie => matches sel (snd ie)) (Page.querySelectorAll d ANY).

Definition querySelector (d : list Element) (sel : Selector)
  : option (nat * Element) := hd_error (querySelectorAll d sel).

(** ['button[aria-haspopup="menu"][data-state="closed"]'] *)
Definition MODEL_BUTTON_SELECTOR : Selector :=
  mkSelector (Some "BUTTON"%string)
             [("aria-haspopup"%string, js "menu");
              ("data-state"%string, js "closed")] [].

(** ['[role="menu"][data-placement]'] *)
Definition MODEL_DROPDOWN_SELECTOR : Selector :=
  mkSelector None [("role"%string, js "menu")] ["data-placement"%string].

(** ['[role="menuitem"]'] *)
Definition MODEL_OPTION_SELECTOR : Selector :=
  mkSelector None [("role"%string, js "menuitem")] [].

Definition MODEL_SELECTION_TIMEOUT : Z := 10000.

(** The functions this version passes to [page.evaluate]. *)
Inductive Script : Type :=
| ScButtonText (sel : Selector)
    (* getCurrentlySelectedModel *)
| ScClickOption (optionSelector : Selector) (targetText : jsstring)
    (* selectModelFromDropdown *)
| ScOptionTexts (optionSelector : Selector).
    (* getAvailableModelsFromDropdown *)

(** The primitives of the page controller. *)
Inductive Call : Type :=
| QueryOne (sel : Selector)                   (* page.$(sel) *)
| Evaluate (s : Script)                       (* page.evaluate(...) *)
| ClickSelector (sel : Selector)              (* page.click(sel) *)
| WaitForSelector (sel : Selector) (hidden : bool) (timeout : Z)
                                              (* page.waitForSelector *)
| WaitForTimeout (ms : Z)                     (* page.waitForTimeout(ms) *)
| KeyboardPress (key : jsstring).             (* page.keyboard.press(key) *)

(** What the engine does to the page. *)
Inductive Effect : Type :=
| Click (node : nat)
| Wait (ms : Z)
| Await (sel : Selector) (hidden : bool)
| Press (key : jsstring).

(** The journal of one run, in order of occurrence. *)
Inductive Event : Type :=
| Logged (entry : LogEntry)
| Called (c : Call)
| Did (e : Effect).

Class Controller (W : Type) : Type := {
  dom : W -> list Element;
  (** [Some e]: the promise of the primitive rejects with [e] (closed
      page, time out of a wait, primitive not supported...). *)
  rejects : W -> Call -> option Exn;
  (** the page after the application has handled the effect *)
  react : W -> Effect -> W
}.

Section Monad.
Context {W : Type} {C : Controller W}.

Definition M (A : Type) : Type := W -> Res A * W * list Event.

Definition ret {A} (a : A) : M A := fun w => (Ok a, w, []).

Definition bind {A D} (m : M A) (f : A -> M D) : M D :=
  fun w =>
    match m w with
    | (Ok a, w1, j1) =>
        match f a w1 with (r, w2, j2) => (r, w2, j1 ++ j2) end
    | (Throw e, w1, j1) => (Throw e, w1, j1)
    end.

(** [try { m } catch (error) { handler error }], and
    [m.catch(handler)] of a promise. *)
Definition try_catch {A} (m : M A) (handler : Exn -> M A) : M A :=
  fun w =>
    match m w with
    | (Ok a, w1, j1) => (Ok a, w1, j1)
    | (Throw e, w1, j1) =>
        match handler e w1 with (r, w2, j2) => (r, w2, j1 ++ j2) end
    end.

Definition log (l : Level) (msg : jsstring) (ctx : option jsstring)
  : M unit :=
  fun w => (Ok tt, w, [Logged (mkLog l msg ctx)]).

Definition logInfo (msg : jsstring) : M unit := log Info msg None.
Definition logWarn (msg : jsstring) (ctx : option jsstring) : M unit :=
  log Warn msg ctx.
Definition logError (msg : jsstring) (ctx : option jsstring) : M unit :=
  log Error msg ctx.

(** [page.$(sel)]: a handle or [null]. *)
Definition queryOne (sel : Selector) : M (option nat) :=
  fun w =>
    match rejects w (QueryOne sel) with
    | Some e => (Throw e, w, [Called (QueryOne sel)])
    | None =>
        (Ok (option_map fst (querySelector (dom w) sel)), w,
         [Called (QueryOne sel)])
    end.

(** [page.evaluate(f, ...)]: [f] reads the document and returns its
    value together with the elements it clicked, in order. *)
Definition evaluate {A} (s : Script) (f : list Element -> A * list nat)
  : M A :=
  fun w =>
    match rejects w (Evaluate s) with
    | Some e => (Throw e, w, [Called (Evaluate s)])
    | None =>
        let '(a, clicks) := f (dom w) in
        (Ok a,
         fold_left (fun w' i => react w' (Click i)) clicks w,
         Called (Evaluate s) :: List.map (fun i => Did (Click i)) clicks)
    end.

(** [page.click(sel)]: click the first matching element; an error is
    thrown when there is none. *)
Definition click (sel : Selector) : M unit :=
  fun w =>
    match rejects w (ClickSelector sel) with
    | Some e => (Throw e, w, [Called (ClickSelector sel)])
    | None =>
        match querySelector (dom w) sel with
        | Some (i, _) =>
            (Ok tt, react w (Click i),
             [Called (ClickSelector sel); Did (Click i)])
        | None =>
            (Throw (JsError (js "No element found for selector")), w,
             [Called (ClickSelector sel)])
        end
    end.

(** [page.waitForSelector(sel, { hidden, timeout })] *)
Definition waitForSelector (sel : Selector) (hidden : bool) (timeout : Z)
  : M unit :=
  fun w =>
    match rejects w (WaitForSelector sel hidden timeout) with
    | Some e => (Throw e, w, [Called (WaitForSelector sel hidden timeout)])
    | None =>
        (Ok tt, react w (Await sel hidden),
         [Called (WaitForSelector sel hidden timeout);
          Did (Await sel hidden)])
    end.

(** [page.waitForTimeout(ms)] *)
Definition waitForTimeout (ms : Z) : M unit :=
  fun w =>
    match rejects w (WaitForTimeout ms) with
    | Some e => (Throw e, w, [Called (WaitForTimeout ms)])
    | None =>
        (Ok tt, react w (Wait ms), [Called (WaitForTimeout ms); Did (Wait ms)])
    end.

(** [page.keyboard.press(key)] *)
Definition keyboardPress (key : jsstring) : M unit :=
  fun w =>
    match rejects w (KeyboardPress key) with
    | Some e => (Throw e, w, [Called (KeyboardPress key)])
    | None =>
        (Ok tt, react w (Press key), [Called (KeyboardPress key); Did (Press key)])
    end.

End Monad.

Arguments M W A : clear implicits.

Declare Scope legacy_scope.
Delimit Scope legacy_scope with legacy.
Notation "x <- m ;; k" := (bind m (fun x => k))
  (at level 61, m at next level, right associativity) : legacy_scope.
Notation "m ;; k" := (bind m (fun _ => k))
  (at level 61, right associativity) : legacy_scope.
Local Open Scope legacy_scope.

(** The script of [getCurrentlySelectedModel]:
    [textContent || ariaLabel || null] of the model button. *)
Definition buttonText (selector : Selector) (d : list Element)
  : option jsstring * list nat :=
  (match querySelector d selector with
   | None => None
   | Some (_, button) =>
       let textContent := trim (textContent button) in
       let ariaLabel := getAttribute button "aria-label"%string in
       if truthy textContent then Some textContent
       else match ariaLabel with
            | Some a => if truthy a then Some a else None
            | None => None
            end
   end, []).

(** The script of [selectModelFromDropdown]: click the first option
    whose trimmed text includes the target. *)
Definition clickOption (optionSelector : Selector) (targetText : jsstring)
           (d : list Element) : bool * list nat :=
  match find (fun option =>
                let text :=
                  let t := trim (textContent (snd option)) in
                  if truthy t then t else [] in
                includes text targetText)
             (querySelectorAll d optionSelector) with
  | Some (i, _) => (true, [i])
  | None => (false, [])
  end.

(** The script of [getAvailableModelsFromDropdown]. *)
Definition optionTexts (optionSelector : Selector) (d : list Element)
  : list jsstring * list nat :=
  (filter (fun text => truthy text && (0 <? Z.of_nat (List.length text)))
          (List.map (fun option => trim (textContent (snd option)))
                    (querySelectorAll d optionSelector)),
   []).

(** [currentModel && currentModel.includes(displayName)] *)
Definition alreadySelected (currentModel : option jsstring)
           (display : jsstring) : bool :=
  match currentModel with
  | Some c => truthy c && includes c display
  | None => false
  end.

Section Engine.
Context {W : Type} {C : Controller W}.

Definition isModelSelectionAvailable_try : M W bool :=
  button <- queryOne MODEL_BUTTON_SELECTOR ;;
  ret (match button with Some _ => true | None => false end).

Definition isModelSelectionAvailable_catch (error : Exn) : M W bool :=
  logWarn (js "Error checking model selection availability:")
          (Some (errorText error)) ;;
  ret false.

Definition isModelSelectionAvailable : M W bool :=
  try_catch isModelSelectionAvailable_try isModelSelectionAvailable_catch.

Definition getCurrentlySelectedModel_try : M W (option jsstring) :=
  modelName <- evaluate (ScButtonText MODEL_BUTTON_SELECTOR)
                        (buttonText MODEL_BUTTON_SELECTOR) ;;
  ret modelName.

Definition getCurrentlySelectedModel_catch (error : Exn)
  : M W (option jsstring) :=
  logWarn (js "Error getting currently selected model:")
          (Some (errorText error)) ;;
  ret None.

Definition getCurrentlySelectedModel : M W (option jsstring) :=
  try_catch getCurrentlySelectedModel_try getCurrentlySelectedModel_catch.

Definition openModelDropdown_try : M W bool :=
  logInfo (js "Opening model selection dropdown...") ;;
  waitForSelector MODEL_BUTTON_SELECTOR false MODEL_SELECTION_TIMEOUT ;;
  click MODEL_BUTTON_SELECTOR ;;
  waitForSelector MODEL_DROPDOWN_SELECTOR false 2000 ;;
  logInfo (js "Model dropdown opened successfully") ;;
  ret true.

Definition openModelDropdown_catch (error : Exn) : M W bool :=
  logError (js "Failed to open model dropdown:") (Some (errorText error)) ;;
  ret false.

Definition openModelDropdown : M W bool :=
  try_catch openModelDropdown_try openModelDropdown_catch.

Definition closeModelDropdown_try : M W bool :=
  keyboardPress (js "Escape") ;;
  try_catch (waitForSelector MODEL_DROPDOWN_SELECTOR true 2000)
            (fun _ => ret tt) ;;
  ret true.

Definition closeModelDropdown_catch (error : Exn) : M W bool :=
  logWarn (js "Error closing model dropdown:") (Some (errorText error)) ;;
  ret false.

Definition closeModelDropdown : M W bool :=
  try_catch closeModelDropdown_try closeModelDropdown_catch.

Definition selectModelFromDropdown_try (modelConfig : ModelConfig)
  : M W bool :=
  logInfo (js "Selecting model: " ++ displayName modelConfig) ;;
  waitForSelector MODEL_DROPDOWN_SELECTOR false MODEL_SELECTION_TIMEOUT ;;
  modelSelected <-
    evaluate (ScClickOption MODEL_OPTION_SELECTOR (selectorText modelConfig))
             (clickOption MODEL_OPTION_SELECTOR (selectorText modelConfig)) ;;
  if negb modelSelected then
    logError (js "Model " ++ dq ++ displayName modelConfig ++ dq
                 ++ js " not found in dropdown") None ;;
    ret false
  else
    waitForTimeout 500 ;;
    logInfo (js "Model " ++ dq ++ displayName modelConfig ++ dq
                ++ js " selected successfully") ;;
    ret true.

Definition selectModelFromDropdown_catch (error : Exn) : M W bool :=
  logError (js "Error selecting model from dropdown:")
           (Some (errorText error)) ;;
  ret false.

Definition selectModelFromDropdown (modelConfig : ModelConfig) : M W bool :=
  try_catch (selectModelFromDropdown_try modelConfig)
            selectModelFromDropdown_catch.

Definition getAvailableModelsFromDropdown_try : M W (list jsstring) :=
  handle <- queryOne MODEL_DROPDOWN_SELECTOR ;;
  let isDropdownOpen :=
    match handle with Some _ => true | None => false end in
  (if negb isDropdownOpen then
     openModelDropdown ;;
     waitForTimeout 500
   else ret tt) ;;
  models <- evaluate (ScOptionTexts MODEL_OPTION_SELECTOR)
                     (optionTexts MODEL_OPTION_SELECTOR) ;;
  (if negb isDropdownOpen then
     closeModelDropdown ;;
     ret tt
   else ret tt) ;;
  ret models.

Definition getAvailableModelsFromDropdown_catch (error : Exn)
  : M W (list jsstring) :=
  logWarn (js "Error getting available models from dropdown:")
          (Some (errorText error)) ;;
  ret [].

Definition getAvailableModelsFromDropdown : M W (list jsstring) :=
  try_catch getAvailableModelsFromDropdown_try
            getAvailableModelsFromDropdown_catch.

Definition setModel_try (modelName : jsstring) : M W bool :=
  logInfo (js "Setting model to: " ++ modelName) ;;
  match getModelConfig modelName with
  | None =>
      logError (js "Model configuration not found for: " ++ modelName) None ;;
      ret false
  | Some modelConfig =>
      currentModel <- getCurrentlySelectedModel ;;
      if alreadySelected currentModel (displayName modelConfig) then
        logInfo (js "Model " ++ dq ++ displayName modelConfig ++ dq
                    ++ js " is already selected") ;;
        ret true
      else
        dropdownOpened <- openModelDropdown ;;
        if negb dropdownOpened then
          logError (js "Failed to open model dropdown") None ;;
          ret false
        else
          modelSelected <- selectModelFromDropdown modelConfig ;;
          closeModelDropdown ;;
          ret modelSelected
  end.

Definition setModel_catch (error : Exn) : M W bool :=
  logError (js "Error setting model:") (Some (errorText error)) ;;
  ret false.

Definition setModel (modelName : jsstring) : M W bool :=
  try_catch (setModel_try modelName) setModel_catch.

End Engine.

(** The effects, the key presses and the clicks of a journal. *)
Fixpoint effects (j : list Event) : list Effect :=
  match j with
  | [] => []
  | Did e :: r => e :: effects r
  | _ :: r => effects r
  end.

Fixpoint calls (j : list Event) : list Call :=
  match j with
  | [] => []
  | Called c :: r => c :: calls r
  | _ :: r => calls r
  end.

End Legacy.

(* ================================================================== *)
(** ** A scripted page, for running the engine on concrete documents *)

Module Sim.

(** The document, the documents the application switches to when a
    node is clicked (clicks on other nodes and waits change nothing),
    and the primitives that reject. *)
Record SimPage : Type := mkPage {
  document : list Element;
  handlers : list (nat * list Element);
  failing : Call -> option Exn
}.

Definition onEffect (w : SimPage) (e : Effect) : SimPage :=
  match e with
  | Click i =>
      match find (fun h => Nat.eqb (fst h) i) (handlers w) with
      | Some h => mkPage (snd h) (handlers w) (failing w)
      | None => w
      end
  | Wait _ => w
  end.

#[global] Instance browser : Browser SimPage :=
  {| dom := document; rejects := failing; react := onEffect |}.

Definition healthy : Call -> option Exn := fun _ => None.

(** A closed page: every primitive rejects. *)
Definition closed : Call -> option Exn :=
  fun _ => Some (JsError (js "Target closed")).

Definition el (tag : string) (text : jsstring) (p : option nat)
           (attrs : list (string * jsstring)) : Element :=
  mkElement tag text p attrs.

Definition menuitem : list (string * jsstring) :=
  [("role"%string, js "menuitem")].

(** The selector shows the active model; the options are buttons. *)
Definition showingClaude : list Element :=
  [ el "HTML" (js "Claude Sonnet 4.6Gemini 3.1 Pro") None [];
    el "BODY" (js "Claude Sonnet 4.6Gemini 3.1 Pro") (Some 0%nat) [];
    el "BUTTON" (js "Claude Sonnet 4.6") (Some 1%nat) [];
    el "DIV" (js "Gemini 3.1 Pro") (Some 1%nat) [("role"%string, js "menu")];
    el "BUTTON" (js "Gemini 3.1 Pro") (Some 3%nat) menuitem ].

Definition showingGemini : list Element :=
  [ el "HTML" (js "Gemini 3.1 ProClaude Sonnet 4.6") None [];
    el "BODY" (js "Gemini 3.1 ProClaude Sonnet 4.6") (Some 0%nat) [];
    el "BUTTON" (js "Gemini 3.1 Pro") (Some 1%nat) [];
    el "DIV" (js "Claude Sonnet 4.6") (Some 1%nat) [("role"%string, js "menu")];
    el "BUTTON" (js "Claude Sonnet 4.6") (Some 3%nat) menuitem ].

(** The model list is collapsed behind "More". *)
Definition collapsed : list Element :=
  [ el "HTML" (js " More ") None [];
    el "BODY" (js " More ") (Some 0%nat) [];
    el "BUTTON" (js " More ") (Some 1%nat) [] ].

(** The list once "More" has been clicked. *)
Definition expanded : list Element :=
  [ el "HTML" (js "MoreClaude Sonnet 4.6Gemini 3.1 Pro") None [];
    el "BODY" (js "MoreClaude Sonnet 4.6Gemini 3.1 Pro") (Some 0%nat) [];
    el "BUTTON" (js "More") (Some 1%nat) [];
    el "DIV" (js "Claude Sonnet 4.6Gemini 3.1 Pro") (Some 1%nat)
       [("role"%string, js "menu")];
    el "DIV" (js "Claude Sonnet 4.6") (Some 3%nat) menuitem;
    el "DIV" (js "Gemini 3.1 Pro") (Some 3%nat) menuitem ].

(** A page that shows Claude and whose options do not respond. *)
Definition inertPage : SimPage := mkPage showingClaude [] healthy.

(** A page that shows Claude and switches when the option is clicked. *)
Definition livePage : SimPage :=
  mkPage showingClaude [(4%nat, showingGemini)] healthy.

(** A page with the collapsed list: "More" expands it, an option of the
    expanded list selects its model. *)
Definition morePage : SimPage :=
  mkPage collapsed
         [(2%nat, expanded); (4%nat, showingClaude); (5%nat, showingGemini)]
         healthy.

Definition geminiPage : SimPage := mkPage showingGemini [] healthy.

(** The selector shows the active model next to a "More" button that
    opens the list of the other models. *)
Definition withMore : list Element :=
  [ el "HTML" (js "Claude Sonnet 4.6More") None [];
    el "BODY" (js "Claude Sonnet 4.6More") (Some 0%nat) [];
    el "BUTTON" (js "Claude Sonnet 4.6") (Some 1%nat) [];
    el "BUTTON" (js "More") (Some 1%nat) [] ].

Definition withMoreOpen : list Element :=
  [ el "HTML" (js "Claude Sonnet 4.6MoreGemini 3.1 Pro") None [];
    el "BODY" (js "Claude Sonnet 4.6MoreGemini 3.1 Pro") (Some 0%nat) [];
    el "BUTTON" (js "Claude Sonnet 4.6") (Some 1%nat) [];
    el "BUTTON" (js "More") (Some 1%nat) [];
    el "BUTTON" (js "Gemini 3.1 Pro") (Some 1%nat) menuitem ].

Definition mixedPage : SimPage :=
  mkPage withMore [(3%nat, withMoreOpen); (4%nat, showingGemini)] healthy.


Definition closedPage : SimPage := mkPage showingClaude [] closed.


(** The reasoning toggle, switched off and on. *)
Definition toggle (checked : jsstring) : list Element :=
  [ el "HTML" [] None [];
    el "BUTTON" [] (Some 0%nat)
       [("value"%string, js "on"); ("role"%string, js "switch");
        ("aria-checked"%string, checked)] ].

Definition toggleOff : SimPage :=
  mkPage (toggle (js "false")) [(1%nat, toggle (js "true"))] healthy.

Definition toggleOn : SimPage := mkPage (toggle (js "true")) [] healthy.

Definition noToggle : SimPage := mkPage collapsed [] healthy.

(** The primitives reject once asked to wait. *)
Definition toggleOffNoWait : SimPage :=
  mkPage (toggle (js "false")) []
         (fun c => match c with
                   | Evaluate (ScTimeout _) => Some (JsError (js "detached"))
                   | _ => None
                   end).

End Sim.

(* ================================================================== *)
(** ** A scripted page with a dropdown, for the dropdown version *)

Module SimLegacy.

Record SimPage : Type := mkPage {
  document : list Element;
  onClick : list (nat * list Element);
  onEscape : option (list Element);
  failing : Legacy.Call -> option Exn
}.

Definition onEffect (w : SimPage) (e : Legacy.Effect) : SimPage :=
  match e with
  | Legacy.Click i =>
      match find (fun h => Nat.eqb (fst h) i) (onClick w) with
      | Some h => mkPage (snd h) (onClick w) (onEscape w) (failing w)
      | None => w
      end
  | Legacy.Press key =>
      if str_eqb key (js "Escape") then
        match Legacy.querySelector (document w) Legacy.MODEL_DROPDOWN_SELECTOR,
              onEscape w with
        | Some _, Some d => mkPage d (onClick w) (onEscape w) (failing w)
        | _, _ => w
        end
      else w
  | _ => w
  end.

#[global] Instance controller : Legacy.Controller SimPage :=
  {| Legacy.dom := document; Legacy.rejects := failing;
     Legacy.react := onEffect |}.

Definition healthy : Legacy.Call -> option Exn := fun _ => None.

Definition modelButton (state : string) (text : jsstring) : Element :=
  Sim.el "BUTTON" text (Some 1%nat)
         [("aria-haspopup"%string, js "menu"); ("data-state"%string, js state)].

(** The dropdown is closed; the button shows the active model. *)
Definition closedOn (text : jsstring) : list Element :=
  [ Sim.el "HTML" text None [];
    Sim.el "BODY" text (Some 0%nat) [];
    modelButton "closed" text ].

(** The dropdown is open, with two models and an empty separator. *)
Definition opened : list Element :=
  [ Sim.el "HTML" (js "Claude Sonnet 4.6 Claude Sonnet 4.6 Gemini 3.1 Pro")
           None [];
    Sim.el "BODY" (js "Claude Sonnet 4.6 Claude Sonnet 4.6 Gemini 3.1 Pro")
           (Some 0%nat) [];
    modelButton "open" (js "Claude Sonnet 4.6");
    Sim.el "DIV" (js " Claude Sonnet 4.6 Gemini 3.1 Pro") (Some 1%nat)
           [("role"%string, js "menu"); ("data-placement"%string, js "bottom")];
    Sim.el "DIV" (js " ") (Some 3%nat) Sim.menuitem;
    Sim.el "DIV" (js " Claude Sonnet 4.6 ") (Some 3%nat) Sim.menuitem;
    Sim.el "DIV" (js "Gemini 3.1 Pro") (Some 3%nat) Sim.menuitem ].

(** The button opens the dropdown, an option selects its model and
    closes the dropdown, Escape closes an open dropdown. *)
Definition claudePage : SimPage :=
  mkPage (closedOn (js "Claude Sonnet 4.6"))
         [(2%nat, opened);
          (5%nat, closedOn (js "Claude Sonnet 4.6"));
          (6%nat, closedOn (js "Gemini 3.1 Pro"))]
         (Some (closedOn (js "Claude Sonnet 4.6")))
         healthy.

Definition openedPage : SimPage :=
  mkPage opened
         [(5%nat, closedOn (js "Claude Sonnet 4.6"));
          (6%nat, closedOn (js "Gemini 3.1 Pro"))]
         (Some (closedOn (js "Claude Sonnet 4.6")))
         healthy.

(** The button has no text, only a label. *)
Definition labelled : list Element :=
  [ Sim.el "HTML" [] None [];
    Sim.el "BODY" [] (Some 0%nat) [];
    Sim.el "BUTTON" (js "  ") (Some 1%nat)
           [("aria-haspopup"%string, js "menu");
            ("data-state"%string, js "closed");
            ("aria-label"%string, js "Choose a model")] ].

Definition labelledPage : SimPage := mkPage labelled [] None healthy.

(** A page without the model button: every wait for it times out. *)
Definition barePage : SimPage :=
  mkPage [ Sim.el "HTML" [] None []; Sim.el "BODY" [] (Some 0%nat) [] ]
         [] None
         (fun c => match c with
                   | Legacy.WaitForSelector _ false _ =>
                       Some (JsError (js "Waiting for selector failed"))
                   | _ => None
                   end).

(** The dropdown opens but does not go away: the wait for its
    disappearance times out. *)
Definition stickyPage : SimPage :=
  mkPage opened [] None
         (fun c => match c with
                   | Legacy.WaitForSelector _ true _ =>
                       Some (JsError (js "Waiting for selector failed"))
                   | _ => None
                   end).

(** Every primitive rejects. *)
Definition closedPage : SimPage :=
  mkPage (closedOn (js "Claude Sonnet 4.6")) [] None
         (fun _ => Some (JsError (js "Target closed"))).

End SimLegacy.

(* ================================================================== *)
(** ** Notions the statements use *)

(** The whole string compared without regard to case, as a pattern
    with the [i] flag compares characters. *)
Definition caseFold (s : jsstring) : jsstring :=
  List.map (RegExp.Canonicalize true) s.

(** [a] is the unit [b] in one of its cases. *)
Definition caseVariantUnit (a b : Z) : Prop :=
  a = b \/ [a] = toUpperCaseUnit b \/ [a] = toLowerCaseUnit b.

(** [v] is [w] with each letter in either case. *)
Definition caseVariant (v w : jsstring) : Prop := Forall2 caseVariantUnit v w.

(** A string of white space only. *)
Definition blank (s : jsstring) : Prop := Forall (fun c => isWhiteSpace c = true) s.

(** The canonical names of the catalogue. *)
Definition catalogNames : list jsstring := List.map name AVAILABLE_MODELS.

(** [m] is the first entry of the catalogue whose field [f], in lower
    case, is [n]. *)
Definition firstWith (f : ModelConfig -> jsstring) (n : jsstring)
           (m : ModelConfig) : Prop :=
  exists before after,
    AVAILABLE_MODELS = before ++ m :: after
    /\ toLowerCase (f m) = n
    /\ forall x, In x before -> toLowerCase (f x) <> n.

(** No entry of the catalogue has the field [f], in lower case, equal to [n]. *)
Definition noneWith (f : ModelConfig -> jsstring) (n : jsstring) : Prop :=
  forall x, In x AVAILABLE_MODELS -> toLowerCase (f x) <> n.

(** The resolution order of the specification: canonical identifier,
    then display label, then selector label; the first hit wins. *)
Inductive Resolves (n : jsstring) : option ModelConfig -> Prop :=
| ByName m :
    firstWith name n m -> Resolves n (Some m)
| ByDisplayName m :
    noneWith name n -> firstWith displayName n m -> Resolves n (Some m)
| BySelectorText m :
    noneWith name n -> noneWith displayName n ->
    firstWith selectorText n m -> Resolves n (Some m)
| NotFound :
    noneWith name n -> noneWith displayName n -> noneWith selectorText n ->
    Resolves n None.

(** Two ASCII letters that differ by case only, or the same unit. *)
Definition sameLetter (a b : Z) : Prop :=
  a = b
  \/ (65 <= a <= 90 /\ b = a + 32)
  \/ (65 <= b <= 90 /\ a = b + 32).

(** A computation that never throws. *)
Definition safe {W A : Type} (m : M W A) : Prop :=
  forall w, exists a w' j, m w = (Ok a, w', j).


(** The reading step of a script succeeded with value [a]. *)
Definition reads {W : Type} {B : Browser W} {A : Type}
           (w : W) (s : Script) (f : list Element -> A * list nat) (a : A)
  : Prop :=
  rejects w (Evaluate s) = None /\ fst (f (dom w)) = a.

(** The time spent in settle delays, in milliseconds. *)
Fixpoint waited (j : list Event) : Z :=
  match j with
  | [] => 0
  | Did (Wait ms) :: r => ms + waited r
  | _ :: r => waited r
  end.

(** A computation that only reads the page: it leaves the page as it
    is and performs no click and no wait. *)
Definition readOnly {W A : Type} (m : M W A) : Prop :=
  forall w, snd (fst (m w)) = w /\ effects (snd (m w)) = [].

(** A computation that performs at most [n] clicks and waits at most
    [ms] milliseconds, on every page. *)
Definition spends {W A : Type} (m : M W A) (n : nat) (ms : Z) : Prop :=
  forall w,
    (List.length (clicks (snd (m w))) <= n)%nat /\ waited (snd (m w)) <= ms.

(** A computation that never calls the primitive [c]. *)
Definition avoids {W A : Type} (m : M W A) (c : Call) : Prop :=
  forall w, ~ In (Called c) (snd (m w)).

(** [x] is the first element of [l] that satisfies [p]. *)
Definition firstSuch {A : Type} (p : A -> bool) (l : list A) (x : A) : Prop :=
  exists before after,
    l = before ++ x :: after /\ p x = true
    /\ forall y, In y before -> p y = false.

(** The text includes one of the words. *)
Definition includesAny (ws : list jsstring) (t : jsstring) : bool :=
  existsb (includes t) ws.

Definition MODEL_OR_MORE_WORDS : list jsstring :=
  [js "Claude"; js "Gemini"; js "Sonar"; js "GPT"; js "Grok"; js "More"].

Definition MODEL_FAMILY_WORDS : list jsstring :=
  [js "Claude"; js "Gemini"; js "Sonar"; js "GPT"; js "Grok"; js "Kimi"].

(** A button whose trimmed text is not empty and includes one of the words. *)
Definition buttonShows (ws : list jsstring) (b : nat * Element) : bool :=
  truthy (trim (textContent (snd b)))
  && includesAny ws (trim (textContent (snd b))).

(** [k] is the element [i] itself or its nearest ancestor that matches
    the selector. *)
Inductive Nearest (d : list Element) (sel : Selector) : nat -> nat -> Prop :=
| NearestHere i e :
    nth_error d i = Some e -> matches sel e = true -> Nearest d sel i i
| NearestUp i e p k :
    nth_error d i = Some e -> matches sel e = false ->
    parent e = Some p -> Nearest d sel p k -> Nearest d sel i k.

(** Parents come before their children in the document. *)
Definition parentsFirst (d : list Element) : Prop :=
  forall i e p, nth_error d i = Some e -> parent e = Some p -> (p < i)%nat.

(** What the search of [setModelFinal] looks for: an element, not a
    script or a style sheet, whose text includes the label before and
    after trimming. *)
Definition searchHit (label : jsstring) (ie : nat * Element) : bool :=
  includes (textContent (snd ie)) label
  && negb (String.eqb (tagName (snd ie)) "SCRIPT")
  && negb (String.eqb (tagName (snd ie)) "STYLE")
  && includes (trim (textContent (snd ie))) label.

(** The calls that reach the reasoning toggle. *)
Definition toggleCalls : list Call :=
  [QueryOne ReasoningToggle.REASONING_TOGGLE_SELECTOR;
   Evaluate (ScAriaChecked ReasoningToggle.REASONING_TOGGLE_SELECTOR);
   ClickSelector ReasoningToggle.REASONING_TOGGLE_SELECTOR].

(** A computation of the dropdown version that never throws. *)
Definition contained {W A : Type} (m : Legacy.M W A) : Prop :=
  forall w, exists a w' j, m w = (Ok a, w', j).

(** A string without white space at either end, and not empty. *)
Definition tidy (s : jsstring) : Prop := s <> [] /\ trim s = s.

(** What the search of [selectModelFromDropdown] looks for. *)
Definition optionShows (target : jsstring) (o : nat * Element) : bool :=
  includes (trim (textContent (snd o))) target.

(* ================================================================== *)
(** ** Strings *)

Lemma str_eqb_eq (a b : jsstring) : str_eqb a b = true <-> a = b.
Proof.
  revert b; induction a as [|x a IH]; intros [|y b]; simpl; split;
    try congruence; try reflexivity.
  - intros H. apply andb_true_iff in H as [Hx Hr].
    apply Z.eqb_eq in Hx. apply IH in Hr. congruence.
  - intros H. injection H as -> ->.
    rewrite Z.eqb_refl. simpl. apply IH. reflexivity.
Qed.


Lemma str_eqb_neq (a b : jsstring) : str_eqb a b = false <-> a <> b.
Proof.
  split.
  - intros H E. apply str_eqb_eq in E. congruence.
  - intros H. destruct (str_eqb a b) eqn:E; [|reflexivity].
    apply str_eqb_eq in E. contradiction.
Qed.

Lemma trimStart_blank (l s : jsstring) :
  blank l -> trimStart (l ++ s) = trimStart s.
Proof.
  induction 1 as [|c l Hc _ IH]; simpl; [reflexivity|].
  rewrite Hc. exact IH.
Qed.

Lemma trimStart_solid (s : jsstring) :
  Forall (fun c => isWhiteSpace c = false) s -> trimStart s = s.
Proof. destruct 1 as [|c s Hc _]; simpl; [reflexivity|]. rewrite Hc. reflexivity. Qed.

Lemma trimStart_all_blank (r : jsstring) : blank r -> trimStart r = [].
Proof. induction 1 as [|x r Hx _ IH]; simpl; [reflexivity|]. rewrite Hx. exact IH. Qed.

Lemma blank_rev (r : jsstring) : blank r -> blank (rev r).
Proof. apply Forall_rev. Qed.

(** Trimming removes the white space around a word without any. *)
Lemma trim_wrapped (l v r : jsstring) :
  blank l -> blank r -> Forall (fun c => isWhiteSpace c = false) v ->
  trim (l ++ v ++ r) = v.
Proof.
  intros Hl Hr Hv. unfold trim, trimEnd.
  rewrite trimStart_blank by assumption.
  destruct Hv as [|c u Hc Hu].
  - simpl. rewrite (trimStart_all_blank Hr). reflexivity.
  - cbn [app trimStart]. rewrite Hc.
    change (c :: u ++ r) with ((c :: u) ++ r).
    rewrite rev_app_distr.
    rewrite trimStart_blank by (apply blank_rev; assumption).
    rewrite trimStart_solid, rev_involutive; [reflexivity|].
    apply Forall_rev. constructor; assumption.
Qed.

Lemma toLowerCaseUnit_not_nil (c : Z) : toLowerCaseUnit c <> [].
Proof.
  unfold toLowerCaseUnit.
  repeat match goal with |- context [if ?b then _ else _] => destruct b end;
    discriminate.
Qed.

Lemma toLowerCase_nil (s : jsstring) : toLowerCase s = [] <-> s = [].
Proof.
  split; [|intros ->; reflexivity].
  destruct s as [|c s]; [reflexivity|]. unfold toLowerCase. simpl.
  intros H. apply app_eq_nil in H as [H _].
  exfalso. exact (toLowerCaseUnit_not_nil c H).
Qed.

(** Settle the comparisons of a goal whose operands are bounded by
    the hypotheses. *)
Ltac settle_comparisons :=
  repeat match goal with
         | |- context [?x <=? ?y] =>
             first [ replace (x <=? y) with true
                       by (symmetry; apply Z.leb_le; lia)
                   | replace (x <=? y) with false
                       by (symmetry; apply Z.leb_gt; lia) ]
         | |- context [?x =? ?y] =>
             first [ replace (x =? y) with true
                       by (symmetry; apply Z.eqb_eq; lia)
                   | replace (x =? y) with false
                       by (symmetry; apply Z.eqb_neq; lia) ]
         end.

Lemma toLowerCaseUnit_capital (a : Z) :
  65 <= a <= 90 -> toLowerCaseUnit a = [a + 32].
Proof. intros H. unfold toLowerCaseUnit. settle_comparisons. reflexivity. Qed.

Lemma toLowerCaseUnit_small (a : Z) :
  97 <= a <= 122 -> toLowerCaseUnit a = [a].
Proof. intros H. unfold toLowerCaseUnit. settle_comparisons. reflexivity. Qed.

Lemma sameLetter_lower (a b : Z) :
  sameLetter a b -> toLowerCaseUnit a = toLowerCaseUnit b.
Proof.
  intros [-> | [[H ->] | [H ->]]].
  - reflexivity.
  - rewrite (@toLowerCaseUnit_capital a), (@toLowerCaseUnit_small (a + 32)) by lia.
    reflexivity.
  - rewrite (@toLowerCaseUnit_capital b), (@toLowerCaseUnit_small (b + 32)) by lia.
    reflexivity.
Qed.

Lemma sameLetters_lower (a b : jsstring) :
  Forall2 sameLetter a b -> toLowerCase a = toLowerCase b.
Proof.
  unfold toLowerCase. induction 1 as [|x y a b Hxy _ IH]; simpl; [reflexivity|].
  rewrite (sameLetter_lower Hxy), IH. reflexivity.
Qed.

(* ================================================================== *)
(** ** Regular expressions *)

Lemma scan_after_start (ic : bool) (ns : list RegExp.Node) (s : jsstring) :
  RegExp.scan ic (RegExp.Bol :: ns) false s = false.
Proof. induction s as [|c s IH]; simpl; [reflexivity|exact IH]. Qed.

Lemma matchHere_literal (w : jsstring) :
  forall bos s,
    RegExp.matchHere true (List.map RegExp.Chr w ++ [RegExp.Eol]) bos s
    = str_eqb (caseFold w) (caseFold s).
Proof.
  induction w as [|p w IH]; intros bos [|x s]; simpl; try reflexivity.
  unfold RegExp.chr_eqb. rewrite IH. reflexivity.
Qed.

(** An anchored literal with the [i] flag matches exactly the strings
    equal to it up to case, as a whole. *)
Lemma test_wholeWord (w s : jsstring) :
  RegExp.test (RegExp.wholeWord w) s = str_eqb (caseFold w) (caseFold s).
Proof.
  unfold RegExp.test, RegExp.wholeWord. simpl RegExp.source. simpl RegExp.ignoreCase.
  destruct s as [|c s].
  - simpl. rewrite matchHere_literal. rewrite orb_false_r. reflexivity.
  - cbn [RegExp.scan]. rewrite scan_after_start, orb_false_r.
    cbn [RegExp.matchHere]. rewrite matchHere_literal. reflexivity.
Qed.

Lemma isModelAllowed_loop_spec (ws : list jsstring) (s : jsstring) :
  isModelAllowed_loop (List.map RegExp.wholeWord ws) s
  = negb (existsb (fun w => str_eqb (caseFold w) (caseFold (trim s))) ws).
Proof.
  induction ws as [|w ws IH]; simpl; [reflexivity|].
  rewrite test_wholeWord.
  destruct (str_eqb (caseFold w) (caseFold (trim s))); simpl; [reflexivity|exact IH].
Qed.

Lemma isModelAllowed_false (s : jsstring) :
  isModelAllowed s = false
  <-> exists w, In w BANNED_WORDS /\ caseFold (trim s) = caseFold w.
Proof.
  unfold isModelAllowed, BANNED_MODEL_PATTERNS.
  rewrite isModelAllowed_loop_spec, negb_false_iff, existsb_exists.
  split; intros [w [Hin H]]; exists w; split; try assumption.
  - apply str_eqb_eq in H. congruence.
  - apply str_eqb_eq. congruence.
Qed.

Lemma isModelAllowed_true (s : jsstring) :
  isModelAllowed s = true
  <-> forall w, In w BANNED_WORDS -> caseFold (trim s) <> caseFold w.
Proof.
  split.
  - intros H w Hin E.
    assert (isModelAllowed s = false) by (apply isModelAllowed_false; eauto).
    congruence.
  - intros H. destruct (isModelAllowed s) eqn:E; [reflexivity|].
    apply isModelAllowed_false in E as [w [Hin E]]. exfalso. exact (H w Hin E).
Qed.

Lemma variant_unit (a b : Z) :
  In b (List.concat BANNED_WORDS) -> caseVariantUnit a b ->
  RegExp.Canonicalize true a = RegExp.Canonicalize true b
  /\ isWhiteSpace a = false.
Proof.
  intros Hin Hv. vm_compute in Hin.
  repeat (destruct Hin as [<- | Hin]);
    try contradiction;
    (destruct Hv as [-> | [Hv | Hv]];
     [ | vm_compute in Hv; injection Hv as -> | vm_compute in Hv; injection Hv as -> ];
     split; vm_compute; reflexivity).
Qed.

Lemma variant_word (v w : jsstring) :
  In w BANNED_WORDS -> caseVariant v w ->
  caseFold v = caseFold w /\ Forall (fun c => isWhiteSpace c = false) v.
Proof.
  intros Hin Hv.
  assert (Hall : Forall (fun b => In b (List.concat BANNED_WORDS)) w).
  { apply Forall_forall. intros b Hb. apply in_concat. eauto. }
  clear Hin. unfold caseVariant in Hv.
  induction Hv as [|a b v w Hab _ IH].
  - split; constructor.
  - inversion Hall as [|? ? Hb Hw]; subst.
    destruct (variant_unit Hb Hab) as [Hc Hs].
    destruct (IH Hw) as [Hf Hn].
    split; [|constructor; assumption].
    unfold caseFold in *. cbn [List.map]. rewrite Hc, Hf. reflexivity.
Qed.

(* ================================================================== *)
(** ** The catalogue and the validator *)

Lemma find_first {A} (f : A -> bool) (l : list A) (m : A) :
  find f l = Some m ->
  exists before after,
    l = before ++ m :: after /\ f m = true
    /\ forall x, In x before -> f x = false.
Proof.
  induction l as [|a l IH]; simpl; [discriminate|].
  destruct (f a) eqn:Ha.
  - intros E. injection E as ->. exists [], l. repeat split; auto.
    intros x [].
  - intros E. destruct (IH E) as (before & after & -> & Hm & Hb).
    exists (a :: before), after. repeat split; auto.
    intros x [<- | Hx]; auto.
Qed.

Lemma find_firstWith (f : ModelConfig -> jsstring) (n : jsstring)
      (m : ModelConfig) :
  find (fun x => str_eqb (toLowerCase (f x)) n) AVAILABLE_MODELS = Some m ->
  firstWith f n m.
Proof.
  intros H. destruct (find_first _ _ H) as (before & after & E & Hm & Hb).
  exists before, after. split; [exact E|]. split.
  - apply str_eqb_eq. exact Hm.
  - intros x Hx. apply str_eqb_neq. apply Hb. exact Hx.
Qed.

Lemma find_noneWith (f : ModelConfig -> jsstring) (n : jsstring) :
  find (fun x => str_eqb (toLowerCase (f x)) n) AVAILABLE_MODELS = None ->
  noneWith f n.
Proof.
  intros H x Hx. apply str_eqb_neq.
  exact (find_none _ _ H x Hx).
Qed.

Lemma getModelConfig_resolves (raw : jsstring) :
  Resolves (trim (toLowerCase raw)) (getModelConfig raw).
Proof.
  unfold getModelConfig. cbv zeta.
  destruct (find (fun m => str_eqb (toLowerCase (name m)) _) _) as [m|] eqn:E1.
  - apply ByName. apply find_firstWith. exact E1.
  - destruct (find (fun m => str_eqb (toLowerCase (displayName m)) _) _)
      as [m|] eqn:E2.
    + apply ByDisplayName; [apply find_noneWith|apply find_firstWith]; assumption.
    + destruct (find (fun m => str_eqb (toLowerCase (selectorText m)) _) _)
        as [m|] eqn:E3.
      * apply BySelectorText;
          [apply find_noneWith|apply find_noneWith|apply find_firstWith];
          assumption.
      * apply NotFound; apply find_noneWith; assumption.
Qed.

Lemma first_unique {A} (P : A -> Prop) (l b1 a1 b2 a2 : list A) (m1 m2 : A) :
  l = b1 ++ m1 :: a1 -> l = b2 ++ m2 :: a2 ->
  P m1 -> P m2 ->
  (forall x, In x b1 -> ~ P x) -> (forall x, In x b2 -> ~ P x) ->
  m1 = m2.
Proof.
  revert l b2. induction b1 as [|x b1 IH]; intros l b2 E1 E2 P1 P2 N1 N2.
  - destruct b2 as [|y b2]; simpl in *; subst l.
    + injection E2 as -> _. reflexivity.
    + injection E2 as -> _. exfalso. apply (N2 y); [left; reflexivity|exact P1].
  - destruct b2 as [|y b2]; simpl in *; subst l.
    + injection E2 as -> _. exfalso. apply (N1 m2); [left; reflexivity|exact P2].
    + injection E2 as -> E2.
      apply (IH (b1 ++ m1 :: a1) b2); auto.
Qed.

Lemma firstWith_unique f n m1 m2 :
  firstWith f n m1 -> firstWith f n m2 -> m1 = m2.
Proof.
  intros (b1 & a1 & E1 & H1 & N1) (b2 & a2 & E2 & H2 & N2).
  exact (@first_unique _ (fun x => toLowerCase (f x) = n) _ _ _ _ _ _ _
                       E1 E2 H1 H2 N1 N2).
Qed.

Lemma firstWith_noneWith f n m : firstWith f n m -> noneWith f n -> False.
Proof.
  intros (b & a & E & H & _) N. apply (N m); [|exact H].
  rewrite E. apply in_or_app. right. left. reflexivity.
Qed.

(** The resolution order determines the result. *)
Lemma Resolves_functional n r1 r2 : Resolves n r1 -> Resolves n r2 -> r1 = r2.
Proof.
  intros R1 R2.
  destruct R1 as [m1 F1 | m1 N1 F1 | m1 N1 D1 F1 | N1 D1 S1];
    destruct R2 as [m2 F2 | m2 N2 F2 | m2 N2 D2 F2 | N2 D2 S2];
    try (f_equal; eapply firstWith_unique; eassumption);
    try reflexivity;
    exfalso; eauto using firstWith_noneWith.
Qed.

Lemma getModelConfig_in (raw : jsstring) (m : ModelConfig) :
  getModelConfig raw = Some m -> In m AVAILABLE_MODELS.
Proof.
  intros H. pose proof (getModelConfig_resolves raw) as R. rewrite H in R.
  inversion R as [? F | ? _ F | ? _ _ F | ]; subst;
    destruct F as (before & after & E & _); rewrite E;
    apply in_or_app; right; left; reflexivity.
Qed.

Lemma getModelConfig_lower (a b : jsstring) :
  toLowerCase a = toLowerCase b -> getModelConfig a = getModelConfig b.
Proof. intros H. unfold getModelConfig. rewrite H. reflexivity. Qed.

Lemma truthy_lower (a b : jsstring) :
  toLowerCase a = toLowerCase b -> truthy a = truthy b.
Proof.
  intros H. destruct a as [|x a], b as [|y b]; try reflexivity; exfalso;
    change (toLowerCase []) with (@nil Z) in H.
  - symmetry in H. apply (proj1 (toLowerCase_nil _)) in H. discriminate.
  - apply (proj1 (toLowerCase_nil _)) in H. discriminate.
Qed.

Lemma getValidatedModel_lower (a b : jsstring) :
  toLowerCase a = toLowerCase b ->
  fst (getValidatedModel (Some a)) = fst (getValidatedModel (Some b)).
Proof.
  intros H. unfold getValidatedModel.
  rewrite (truthy_lower _ _ H), (getModelConfig_lower _ _ H).
  destruct (truthy b); simpl; [|reflexivity].
  destruct (getModelConfig b) as [m|]; [|reflexivity].
  destruct (isModelAllowed (name m)); reflexivity.
Qed.


(** Every value of the validator is a canonical name of the catalogue
    that the ban policy allows. *)
Lemma getValidatedModel_range (x : option jsstring) :
  exists v, fst (getValidatedModel x) = Ok v
            /\ In v catalogNames /\ isModelAllowed v = true.
Proof.
  assert (D : exists v, defaultName = Ok v
                        /\ In v catalogNames /\ isModelAllowed v = true).
  { exists (js "claude-sonnet-4.6").
    split; [reflexivity|]. split; [left|]; reflexivity. }
  unfold getValidatedModel.
  destruct x as [raw|]; [|exact D].
  destruct (truthy raw); simpl; [|exact D].
  destruct (getModelConfig raw) as [m|] eqn:E; [|exact D].
  destruct (isModelAllowed (name m)) eqn:A; simpl; [|exact D].
  exists (name m). split; [reflexivity|]. split; [|exact A].
  change (In (name m) (List.map name AVAILABLE_MODELS)).
  apply in_map. exact (getModelConfig_in _ E).
Qed.

Lemma catalogNames_values (v : jsstring) :
  In v catalogNames ->
  In v [js "claude-sonnet-4.6"; js "gemini-3.1-pro"; js "gemini-3-flash";
        js "gpt-5.2"; js "grok-4.1"; js "kimi-k2.5"; js "claude-opus-4.6";
        js "reasoning"; js "sonar"].
Proof. intros H. exact H. Qed.

(** C4.  The catalogue satisfies its integrity invariants: canonical
    names are pairwise distinct, display labels are pairwise distinct,
    exactly one entry is the default (and [getDefaultModel] returns it
    without throwing), and the selector text of every entry is its
    display label.  The catalogue is a constant: no operation takes or
    returns a catalogue, and what [getModelConfig] returns is one of its
    entries. *)
Theorem catalog_integrity :
  NoDup (List.map name AVAILABLE_MODELS)
  /\ NoDup (List.map displayName AVAILABLE_MODELS)
  /\ (exists before d after,
         AVAILABLE_MODELS = before ++ d :: after
         /\ isDefault d = Some true
         /\ (forall m, In m (before ++ after) -> isDefault m = None)
         /\ getDefaultModel = Ok d)
  /\ Forall (fun m => selectorText m = displayName m) AVAILABLE_MODELS
  /\ (forall raw m, getModelConfig raw = Some m -> In m AVAILABLE_MODELS).
Proof.
  split; [|split; [|split; [|split]]].
  - vm_compute. repeat constructor; simpl; intuition discriminate.
  - vm_compute. repeat constructor; simpl; intuition discriminate.
  - exists [], (mkModel (js "claude-sonnet-4.6") (js "Claude Sonnet 4.6")
                        (js "Claude Sonnet 4.6") (Some true)).
    eexists. split; [reflexivity|]. split; [reflexivity|]. split; [|reflexivity].
    intros m Hm. simpl in Hm.
    repeat (destruct Hm as [<- | Hm]; [reflexivity|]). contradiction.
  - repeat constructor.
  - exact getModelConfig_in.
Qed.

Lemma catalog_integrity_witness :
  In (mkModel (js "gemini-3.1-pro") (js "Gemini 3.1 Pro")
              (js "Gemini 3.1 Pro") None) AVAILABLE_MODELS.
Proof.
  apply (proj2 (proj2 (proj2 (proj2 catalog_integrity)))
               (js " Gemini 3.1 PRO ")).
  vm_compute. reflexivity.
Defined.



(** C3.  [isModelAllowed] rejects exactly the strings that, once
    trimmed, match a banned word as a whole without regard to case:
    every casing variant of a banned word, possibly surrounded by white
    space, is rejected; a string is rejected only when its trimmed form
    is such a whole match; so a string that merely contains a banned
    word, without its trimmed form being a whole match of a banned
    word, is allowed -- "sonnet" and "claude-sonnet-4.6" are allowed
    although "sonar" is banned.  (A banned word may contain another:
    "modelo" contains "model" and is rejected as the whole match of its
    own pattern.) *)
Theorem isModelAllowed_exact_match :
  (forall w v l r,
      In w BANNED_WORDS -> caseVariant v w -> blank l -> blank r ->
      isModelAllowed (l ++ v ++ r) = false)
  /\ (forall s,
         isModelAllowed s = false
         <-> exists w, In w BANNED_WORDS /\ caseFold (trim s) = caseFold w)
  /\ (forall s w,
         In w BANNED_WORDS -> includes s w = true ->
         (forall w', In w' BANNED_WORDS -> caseFold (trim s) <> caseFold w') ->
         isModelAllowed s = true)
  /\ isModelAllowed (js "sonnet") = true
  /\ isModelAllowed (js "claude-sonnet-4.6") = true.
Proof.
  split; [|split; [|split; [|split]]].
  - intros w v l r Hw Hv Hl Hr.
    destruct (variant_word Hw Hv) as [Hf Hs].
    apply isModelAllowed_false. exists w. split; [exact Hw|].
    rewrite trim_wrapped by assumption. exact Hf.
  - exact isModelAllowed_false.
  - intros s w _ _ H. apply isModelAllowed_true. exact H.
  - reflexivity.
  - reflexivity.
Qed.

Ltac variant_units :=
  unfold caseVariant;
  repeat (apply Forall2_cons;
          [ unfold caseVariantUnit;
            first [ left; reflexivity
                  | right; left; reflexivity
                  | right; right; reflexivity ] | ]);
  apply Forall2_nil.

Lemma isModelAllowed_exact_match_witness :
  isModelAllowed (js "  SoNaR ") = false
  /\ isModelAllowed [9; 1052; 1054; 1076; 1045; 1083; 1100; 10] = false
  /\ isModelAllowed (js "my-sonar-model") = true.
Proof.
  destruct isModelAllowed_exact_match as (Hvariant & _ & Hcontains & _).
  split; [|split].
  - apply (Hvariant (js "sonar") (js "SoNaR") (js "  ") (js " ")).
    + right. left. reflexivity.
    + variant_units.
    + repeat constructor.
    + repeat constructor.
  - apply (Hvariant [1084; 1086; 1076; 1077; 1083; 1100]
                    [1052; 1054; 1076; 1045; 1083; 1100] [9] [10]).
    + right. right. left. reflexivity.
    + variant_units.
    + repeat constructor.
    + repeat constructor.
  - apply (Hcontains (js "my-sonar-model") (js "sonar")).
    + right. left. reflexivity.
    + vm_compute. reflexivity.
    + intros w' Hw'. vm_compute in Hw'.
      repeat (destruct Hw' as [<- | Hw']; [vm_compute; discriminate|]).
      contradiction.
Defined.

(** C5.  [getModelConfig] normalises its input (lower case, then trim)
    and resolves it in the fixed order canonical identifier, display
    label, selector label, the first hit winning, and returns
    [undefined] when no step matches: its result is the one the
    relation [Resolves] describes.  Hence the validator does not
    depend on the case of its input: inputs with the same lower-case
    form, in particular inputs that differ in the case of ASCII letters
    only, validate to the same name, and
    [getValidatedModel("GEMINI-3.1-PRO")] is
    [getValidatedModel("gemini-3.1-pro")]. *)
Theorem getModelConfig_resolution_order :
  (forall raw r,
      Resolves (trim (toLowerCase raw)) r <-> getModelConfig raw = r)
  /\ (forall a b, toLowerCase a = toLowerCase b ->
        getModelConfig a = getModelConfig b
        /\ fst (getValidatedModel (Some a)) = fst (getValidatedModel (Some b)))
  /\ (forall a b, Forall2 sameLetter a b ->
        fst (getValidatedModel (Some a)) = fst (getValidatedModel (Some b)))
  /\ fst (getValidatedModel (Some (js "GEMINI-3.1-PRO")))
     = fst (getValidatedModel (Some (js "gemini-3.1-pro")))
  /\ fst (getValidatedModel (Some (js "GEMINI-3.1-PRO")))
     = Ok (js "gemini-3.1-pro").
Proof.
  split.
  { intros raw r. split.
    - intros R. exact (Resolves_functional (getModelConfig_resolves raw) R).
    - intros <-. exact (getModelConfig_resolves raw). }
  split; [|split; [|split; reflexivity]].
  - intros a b H. split.
    + exact (getModelConfig_lower _ _ H).
    + exact (getValidatedModel_lower _ _ H).
  - intros a b H. apply getValidatedModel_lower.
    exact (sameLetters_lower H).
Qed.

Lemma getModelConfig_resolution_order_witness :
  fst (getValidatedModel (Some (js "gPt-5.2")))
  = fst (getValidatedModel (Some (js "GpT-5.2")))
  /\ getModelConfig (js "KIMI K2.5") = getModelConfig (js "kimi k2.5").
Proof.
  destruct getModelConfig_resolution_order as (_ & Hlower & Hletters & _).
  split.
  - apply Hletters. cbn.
    repeat (apply Forall2_cons; [unfold sameLetter; lia|]).
    apply Forall2_nil.
  - apply (Hlower (js "KIMI K2.5") (js "kimi k2.5")).
    vm_compute. reflexivity.
Defined.


(* ================================================================== *)
(** ** The page computations *)

Section Steps.
Context {W : Type} {B : Browser W}.

Lemma safe_ret {A} (a : A) : safe (ret (W := W) a).
Proof. intros w. exists a, w, []. reflexivity. Qed.

Lemma safe_bind {A C} (m : M W A) (f : A -> M W C) :
  safe m -> (forall a, safe (f a)) -> safe (bind m f).
Proof.
  intros Hm Hf w. unfold bind.
  destruct (Hm w) as (a & w1 & j1 & ->).
  destruct (Hf a w1) as (c & w2 & j2 & ->). eauto.
Qed.

Lemma safe_try {A} (m : M W A) (h : Exn -> M W A) :
  (forall e, safe (h e)) -> safe (try_catch m h).
Proof.
  intros Hh w. unfold try_catch.
  destruct (m w) as [[[a|e] w1] j1]; [eauto|].
  destruct (Hh e w1) as (c & w2 & j2 & ->). eauto.
Qed.

Lemma safe_logInfo (msg : jsstring) : safe (logInfo (W := W) msg).
Proof. intros w. exists tt, w. eexists. reflexivity. Qed.

Lemma safe_logWarn (msg : jsstring) (ctx : option Exn) :
  safe (logWarn (W := W) msg ctx).
Proof. intros w. exists tt, w. eexists. reflexivity. Qed.

Lemma try_catch_throw {A} (m : M W A) (h : Exn -> M W A) w e w1 j1 :
  m w = (Throw e, w1, j1) ->
  try_catch m h w
  = match h e w1 with (r, w2, j2) => (r, w2, j1 ++ j2) end.
Proof. intros H. unfold try_catch. rewrite H. reflexivity. Qed.

Lemma try_catch_ok {A} (m : M W A) (h : Exn -> M W A) w a w1 j1 :
  m w = (Ok a, w1, j1) -> try_catch m h w = (Ok a, w1, j1).
Proof. intros H. unfold try_catch. rewrite H. reflexivity. Qed.

Lemma bind_ok {A C} (m : M W A) (f : A -> M W C) w a w1 j1 :
  m w = (Ok a, w1, j1) ->
  bind m f w = match f a w1 with (r, w2, j2) => (r, w2, j1 ++ j2) end.
Proof. intros H. unfold bind. rewrite H. reflexivity. Qed.

Lemma bind_throw {A C} (m : M W A) (f : A -> M W C) w e w1 j1 :
  m w = (Throw e, w1, j1) -> bind m f w = (Throw e, w1, j1).
Proof. intros H. unfold bind. rewrite H. reflexivity. Qed.

End Steps.

(* ================================================================== *)
(** ** The reasoning toggle *)

Section ToggleFacts.
Context {W : Type} {B : Browser W}.
Import ReasoningToggle.


Lemma safe_enableReasoningMode : safe (enableReasoningMode (W := W)).
Proof.
  apply safe_try. intros e.
  apply safe_bind; [apply safe_logWarn|intros _; apply safe_ret].
Qed.

Lemma enableReasoningMode_caught (w : W) e w1 j1 :
  enableReasoningMode_try w = (Throw e, w1, j1) ->
  exists msg,
    enableReasoningMode w
    = (Ok false, w1, j1 ++ [Logged (mkLog Warn msg (Some e))]).
Proof.
  intros H. unfold enableReasoningMode.
  erewrite try_catch_throw by exact H. eexists. reflexivity.
Qed.

Lemma isReasoningToggleAvailable_caught (w : W) e w1 j1 :
  isReasoningToggleAvailable_try w = (Throw e, w1, j1) ->
  exists msg,
    isReasoningToggleAvailable w
    = (Ok false, w1, j1 ++ [Logged (mkLog Warn msg (Some e))]).
Proof.
  intros H. unfold isReasoningToggleAvailable.
  erewrite try_catch_throw by exact H. eexists. reflexivity.
Qed.

(** C9.  [enableReasoningMode] first reads the [aria-checked] state
    of the toggle.  When the toggle is already on it returns [true]
    without clicking.  Otherwise it clicks the toggle, waits the
    settle delay of 500 ms and returns [true].  A failure at any step
    (the reading rejects, the click rejects or finds no toggle, the
    wait rejects) is logged as a warning and reported as [false]; no
    exception reaches the caller. *)
Theorem enableReasoningMode_behaviour (w : W) :
  (reads w (ScAriaChecked REASONING_TOGGLE_SELECTOR)
         (ariaChecked REASONING_TOGGLE_SELECTOR) true ->
   exists j,
     enableReasoningMode w = (Ok true, w, j)
     /\ operations j
        = [Called (Evaluate (ScAriaChecked REASONING_TOGGLE_SELECTOR))])
  /\ (forall i el,
        reads w (ScAriaChecked REASONING_TOGGLE_SELECTOR)
              (ariaChecked REASONING_TOGGLE_SELECTOR) false ->
        rejects w (ClickSelector REASONING_TOGGLE_SELECTOR) = None ->
        querySelector (dom w) REASONING_TOGGLE_SELECTOR = Some (i, el) ->
        rejects (react w (Click i)) (Evaluate (ScTimeout 500)) = None ->
        exists j,
          enableReasoningMode w
          = (Ok true, react (react w (Click i)) (Wait 500), j)
          /\ operations j
             = [Called (Evaluate (ScAriaChecked REASONING_TOGGLE_SELECTOR));
                Called (ClickSelector REASONING_TOGGLE_SELECTOR);
                Did (Click i);
                Called (Evaluate (ScTimeout 500));
                Did (Wait 500)])
  /\ (forall e,
        rejects w (Evaluate (ScAriaChecked REASONING_TOGGLE_SELECTOR))
        = Some e ->
        exists j msg,
          enableReasoningMode w
          = (Ok false, w, j ++ [Logged (mkLog Warn msg (Some e))])
          /\ effects j = [])
  /\ (forall e,
        reads w (ScAriaChecked REASONING_TOGGLE_SELECTOR)
              (ariaChecked REASONING_TOGGLE_SELECTOR) false ->
        rejects w (ClickSelector REASONING_TOGGLE_SELECTOR) = Some e ->
        exists j msg,
          enableReasoningMode w
          = (Ok false, w, j ++ [Logged (mkLog Warn msg (Some e))])
          /\ effects j = [])
  /\ (reads w (ScAriaChecked REASONING_TOGGLE_SELECTOR)
            (ariaChecked REASONING_TOGGLE_SELECTOR) false ->
      rejects w (ClickSelector REASONING_TOGGLE_SELECTOR) = None ->
      querySelector (dom w) REASONING_TOGGLE_SELECTOR = None ->
      exists j msg e,
        enableReasoningMode w
        = (Ok false, w, j ++ [Logged (mkLog Warn msg (Some e))])
        /\ effects j = [])
  /\ (forall i el e,
        reads w (ScAriaChecked REASONING_TOGGLE_SELECTOR)
              (ariaChecked REASONING_TOGGLE_SELECTOR) false ->
        rejects w (ClickSelector REASONING_TOGGLE_SELECTOR) = None ->
        querySelector (dom w) REASONING_TOGGLE_SELECTOR = Some (i, el) ->
        rejects (react w (Click i)) (Evaluate (ScTimeout 500)) = Some e ->
        exists j msg,
          enableReasoningMode w
          = (Ok false, react w (Click i),
             j ++ [Logged (mkLog Warn msg (Some e))])
          /\ effects j = [Click i])
  /\ (forall e w1 j1,
        enableReasoningMode_try w = (Throw e, w1, j1) ->
        exists msg,
          enableReasoningMode w
          = (Ok false, w1, j1 ++ [Logged (mkLog Warn msg (Some e))]))
  /\ safe (enableReasoningMode (W := W)).
Proof.
  unfold reads.
  repeat match goal with |- _ /\ _ => split end;
    try exact safe_enableReasoningMode;
    try (intros; eapply enableReasoningMode_caught; eassumption).
  - intros [Hr Hv].
    unfold enableReasoningMode, try_catch, enableReasoningMode_try, bind,
      logInfo, evaluate.
    rewrite Hr. destruct (ariaChecked _ _) as [b k] eqn:E.
    unfold ariaChecked in E. injection E as <- <-.
    unfold ariaChecked in Hv. cbn [fst] in Hv. rewrite Hv.
    eexists. split; reflexivity.
  - intros i el [Hr Hv] Hc Hq Hs.
    unfold enableReasoningMode, try_catch, enableReasoningMode_try, bind,
      logInfo, evaluate, click, sleep.
    rewrite Hr. destruct (ariaChecked _ _) as [b k] eqn:E.
    unfold ariaChecked in E. injection E as <- <-.
    unfold ariaChecked in Hv. cbn [fst] in Hv. rewrite Hv.
    cbn [fold_left]. rewrite Hc, Hq, Hs.
    eexists. split; reflexivity.
  - intros e Hr.
    unfold enableReasoningMode, try_catch, enableReasoningMode_try, bind,
      logInfo, evaluate.
    rewrite Hr. eexists. eexists. split; [reflexivity|reflexivity].
  - intros e [Hr Hv] Hc.
    unfold enableReasoningMode, try_catch, enableReasoningMode_try, bind,
      logInfo, evaluate, click.
    rewrite Hr. destruct (ariaChecked _ _) as [b k] eqn:E.
    unfold ariaChecked in E. injection E as <- <-.
    unfold ariaChecked in Hv. cbn [fst] in Hv. rewrite Hv.
    cbn [fold_left]. rewrite Hc.
    eexists. eexists. split; reflexivity.
  - intros [Hr Hv] Hc Hq.
    unfold enableReasoningMode, try_catch, enableReasoningMode_try, bind,
      logInfo, evaluate, click.
    rewrite Hr. destruct (ariaChecked _ _) as [b k] eqn:E.
    unfold ariaChecked in E. injection E as <- <-.
    unfold ariaChecked in Hv. cbn [fst] in Hv. rewrite Hv.
    cbn [fold_left]. rewrite Hc, Hq.
    eexists. eexists. eexists. split; reflexivity.
  - intros i el e [Hr Hv] Hc Hq Hs.
    unfold enableReasoningMode, try_catch, enableReasoningMode_try, bind,
      logInfo, evaluate, click, sleep.
    rewrite Hr. destruct (ariaChecked _ _) as [b k] eqn:E.
    unfold ariaChecked in E. injection E as <- <-.
    unfold ariaChecked in Hv. cbn [fst] in Hv. rewrite Hv.
    cbn [fold_left]. rewrite Hc, Hq, Hs.
    eexists. eexists. split; reflexivity.
Qed.

End ToggleFacts.

Lemma enableReasoningMode_behaviour_witness :
  (exists j,
      ReasoningToggle.enableReasoningMode Sim.toggleOn
      = (Ok true, Sim.toggleOn, j)
      /\ operations j
         = [Called (Evaluate
                      (ScAriaChecked ReasoningToggle.REASONING_TOGGLE_SELECTOR))])
  /\ (exists j,
         ReasoningToggle.enableReasoningMode Sim.toggleOff
         = (Ok true, react (react Sim.toggleOff (Click 1)) (Wait 500), j)
         /\ operations j
            = [Called (Evaluate
                         (ScAriaChecked
                            ReasoningToggle.REASONING_TOGGLE_SELECTOR));
               Called (ClickSelector ReasoningToggle.REASONING_TOGGLE_SELECTOR);
               Did (Click 1);
               Called (Evaluate (ScTimeout 500));
               Did (Wait 500)])
  /\ (exists j msg e,
         ReasoningToggle.enableReasoningMode Sim.noToggle
         = (Ok false, Sim.noToggle, j ++ [Logged (mkLog Warn msg (Some e))])
         /\ effects j = [])
  /\ (exists j msg,
         ReasoningToggle.enableReasoningMode Sim.toggleOffNoWait
         = (Ok false, react Sim.toggleOffNoWait (Click 1),
            j ++ [Logged (mkLog Warn msg (Some (JsError (js "detached"))))])
         /\ effects j = [Click 1%nat]).
Proof.
  split; [|split; [|split]].
  - apply (proj1 (enableReasoningMode_behaviour Sim.toggleOn)).
    split; reflexivity.
  - destruct (enableReasoningMode_behaviour Sim.toggleOff)
      as (_ & Hclick & _).
    apply (Hclick 1%nat
                  (Sim.el "BUTTON" [] (Some 0%nat)
                          [("value"%string, js "on");
                           ("role"%string, js "switch");
                           ("aria-checked"%string, js "false")]));
      try reflexivity.
    split; reflexivity.
  - destruct (enableReasoningMode_behaviour Sim.noToggle)
      as (_ & _ & _ & _ & Hnone & _).
    apply Hnone; try reflexivity. split; reflexivity.
  - destruct (enableReasoningMode_behaviour Sim.toggleOffNoWait)
      as (_ & _ & _ & _ & _ & Hwait & _).
    apply (Hwait 1%nat
                 (Sim.el "BUTTON" [] (Some 0%nat)
                         [("value"%string, js "on");
                          ("role"%string, js "switch");
                          ("aria-checked"%string, js "false")]));
      try reflexivity.
    split; reflexivity.
Defined.

(* ================================================================== *)
(** ** Containment of exceptions *)

Section Containment.
Context {W : Type} {B : Browser W}.

Lemma safe_warn_then {A} (msg : jsstring) (ctx : option Exn) (a : A) :
  safe (W := W) (logWarn msg ctx ;; ret a).
Proof. apply safe_bind; [apply safe_logWarn|intros _; apply safe_ret]. Qed.



Lemma safe_getCurrentlySelectedModel :
  safe (Enhanced.getCurrentlySelectedModel (W := W)).
Proof. apply safe_try. intros e. apply safe_warn_then. Qed.





Lemma lift_validated (m : jsstring) (v : jsstring) (w : W) :
  fst (getValidatedModel (Some m)) = Ok v ->
  lift (getValidatedModel (Some m)) w
  = (Ok v, w, List.map Logged (snd (getValidatedModel (Some m)))).
Proof. intros H. unfold lift. rewrite H. reflexivity. Qed.




End Containment.




(* ================================================================== *)
(** ** The selection engine *)

Section EngineFacts.
Context {W : Type} {B : Browser W}.

Lemma currentModel_loop_truthy buttons t :
  Enhanced.currentModel_loop buttons = Some t -> truthy t = true.
Proof.
  induction buttons as [|[i btn] rest IH]; simpl; [discriminate|].
  destruct (truthy (trim (textContent btn))) eqn:T; simpl.
  - destruct (RegExp.test MODEL_FAMILY (trim (textContent btn))
              && negb (str_eqb (trim (textContent btn)) (js "More"))).
    + intros E. injection E as <-. exact T.
    + exact IH.
  - exact IH.
Qed.

(** Detection by [getCurrentlySelectedModel] reads and changes nothing. *)
Lemma getCurrentlySelectedModel_reads (w : W) t :
  reads w ScCurrentModel Enhanced.currentModel (Some t) ->
  truthy t = true
  /\ exists j,
      Enhanced.getCurrentlySelectedModel w = (Ok (Some t), w, j)
      /\ operations j = [Called (Evaluate ScCurrentModel)].
Proof.
  intros [Hr Hv].
  assert (T : truthy t = true).
  { unfold Enhanced.currentModel in Hv. cbn [fst] in Hv.
    exact (currentModel_loop_truthy _ Hv). }
  split; [exact T|].
  unfold Enhanced.getCurrentlySelectedModel, try_catch,
    Enhanced.getCurrentlySelectedModel_try, bind, evaluate.
  rewrite Hr. destruct (Enhanced.currentModel (dom w)) as [r k] eqn:E.
  unfold Enhanced.currentModel in E. injection E as <- <-.
  unfold Enhanced.currentModel in Hv. cbn [fst] in Hv. rewrite Hv, T.
  eexists. split; reflexivity.
Qed.

Lemma operations_app (a b : list Event) :
  operations (a ++ b) = operations a ++ operations b.
Proof.
  induction a as [|ev a IH]; [reflexivity|].
  destruct ev; cbn [app operations]; rewrite IH; reflexivity.
Qed.

Lemma effects_app (a b : list Event) :
  effects (a ++ b) = effects a ++ effects b.
Proof.
  induction a as [|ev a IH]; [reflexivity|].
  destruct ev; cbn [app effects]; rewrite IH; reflexivity.
Qed.

Lemma setModel_already_selected (label : jsstring) (w : W) t :
  reads w ScCurrentModel Enhanced.currentModel (Some t) ->
  includes t label = true ->
  exists j,
    Enhanced.setModel label w = (Ok true, w, j)
    /\ operations j = [Called (Evaluate ScCurrentModel)].
Proof.
  intros Hr Hi.
  destruct (getCurrentlySelectedModel_reads Hr) as (T & j & E & Hj).
  unfold Enhanced.setModel, Enhanced.setModel_try.
  erewrite try_catch_ok.
  2:{ erewrite bind_ok by reflexivity.
      erewrite bind_ok by exact E.
      unfold Enhanced.alreadySelected. rewrite T, Hi. cbn [andb].
      erewrite bind_ok by reflexivity.
      reflexivity. }
  eexists. split; [reflexivity|].
  rewrite !operations_app, Hj. reflexivity.
Qed.

Lemma setModelFinal_already_selected (label : jsstring) (w : W) t :
  reads w ScCurrentText Final.currentText (Some t) ->
  includes t label = true ->
  exists j,
    Final.setModelFinal label w = (Ok true, w, j)
    /\ operations j = [Called (Evaluate ScCurrentText)].
Proof.
  intros [Hr Hv] Hi.
  unfold Final.setModelFinal, try_catch, Final.setModelFinal_try, bind,
    logInfo, evaluate.
  rewrite Hr. destruct (Final.currentText (dom w)) as [r k] eqn:E.
  unfold Final.currentText in E. injection E as <- <-.
  unfold Final.currentText in Hv. cbn [fst] in Hv. rewrite Hv.
  unfold Final.alreadySelected. rewrite Hi.
  eexists. split; reflexivity.
Qed.

Lemma operations_no_effects j ops :
  operations j = ops -> effects j = effects ops.
Proof.
  intros <-. induction j as [|ev j IH]; [reflexivity|].
  destruct ev; cbn [operations effects]; rewrite ?IH; reflexivity.
Qed.

(** Without a "More" control as the detected text, and with another
    text than the target, the final version gives up right after the
    detection. *)
Lemma setModelFinal_gives_up (label : jsstring) (w : W) current :
  reads w ScCurrentText Final.currentText current ->
  Final.alreadySelected current label = false ->
  opt_str_eqb current (js "More") = false ->
  exists j,
    Final.setModelFinal label w = (Ok false, w, j)
    /\ operations j = [Called (Evaluate ScCurrentText)].
Proof.
  intros [Hr Hv] Ha Hm.
  unfold Final.setModelFinal, try_catch, Final.setModelFinal_try, bind,
    logInfo, evaluate.
  rewrite Hr. destruct (Final.currentText (dom w)) as [r k] eqn:E.
  unfold Final.currentText in E. injection E as <- <-.
  unfold Final.currentText in Hv. cbn [fst] in Hv. rewrite Hv.
  rewrite Ha, Hm.
  eexists. split; reflexivity.
Qed.

(** C6, as amended.  When the detected text of the active model
    already contains the target label, [setModel] and [setModelFinal]
    return [true] after the detection alone: no click, no wait, the
    page unchanged.  Hence a second invocation with the same target
    makes no click and leaves the page unchanged after a first call
    that matched, and after any first call once the detected text of
    the resulting page contains the label. *)
Theorem already_matches_is_a_no_op (label : jsstring) (w : W) :
  (forall t,
      reads w ScCurrentModel Enhanced.currentModel (Some t) ->
      includes t label = true ->
      exists j,
        Enhanced.setModel label w = (Ok true, w, j)
        /\ operations j = [Called (Evaluate ScCurrentModel)]
        /\ effects j = [])
  /\ (forall t,
         reads w ScCurrentText Final.currentText (Some t) ->
         includes t label = true ->
         exists j,
           Final.setModelFinal label w = (Ok true, w, j)
           /\ operations j = [Called (Evaluate ScCurrentText)]
           /\ effects j = [])
  /\ (forall t,
         reads w ScCurrentModel Enhanced.currentModel (Some t) ->
         includes t label = true ->
         exists j,
           (Enhanced.setModel label ;; Enhanced.setModel label) w
           = (Ok true, w, j)
           /\ effects j = [])
  /\ (forall t,
         reads w ScCurrentText Final.currentText (Some t) ->
         includes t label = true ->
         exists j,
           (Final.setModelFinal label ;; Final.setModelFinal label) w
           = (Ok true, w, j)
           /\ effects j = [])
  /\ (forall t r w1 j1,
         Enhanced.setModel label w = (Ok r, w1, j1) ->
         reads w1 ScCurrentModel Enhanced.currentModel (Some t) ->
         includes t label = true ->
         exists j2,
           (Enhanced.setModel label ;; Enhanced.setModel label) w
           = (Ok true, w1, j1 ++ j2)
           /\ effects j2 = [])
  /\ (forall t r w1 j1,
         Final.setModelFinal label w = (Ok r, w1, j1) ->
         reads w1 ScCurrentText Final.currentText (Some t) ->
         includes t label = true ->
         exists j2,
           (Final.setModelFinal label ;; Final.setModelFinal label) w
           = (Ok true, w1, j1 ++ j2)
           /\ effects j2 = []).
Proof.
  repeat match goal with |- _ /\ _ => split end.
  - intros t Hr Hi.
    destruct (setModel_already_selected label Hr Hi) as (j & E & Hj).
    exists j. repeat split; try assumption.
    rewrite (operations_no_effects j Hj). reflexivity.
  - intros t Hr Hi.
    destruct (setModelFinal_already_selected label Hr Hi) as (j & E & Hj).
    exists j. repeat split; try assumption.
    rewrite (operations_no_effects j Hj). reflexivity.
  - intros t Hr Hi.
    destruct (setModel_already_selected label Hr Hi) as (j & E & Hj).
    exists (j ++ j). split.
    + erewrite bind_ok by exact E. rewrite E. reflexivity.
    + apply operations_no_effects in Hj. cbn in Hj.
      rewrite effects_app, Hj. reflexivity.
  - intros t Hr Hi.
    destruct (setModelFinal_already_selected label Hr Hi) as (j & E & Hj).
    exists (j ++ j). split.
    + erewrite bind_ok by exact E. rewrite E. reflexivity.
    + apply operations_no_effects in Hj. cbn in Hj.
      rewrite effects_app, Hj. reflexivity.
  - intros t r w1 j1 E1 Hr Hi.
    destruct (setModel_already_selected label Hr Hi) as (j & E & Hj).
    exists j. split.
    + erewrite bind_ok by exact E1. rewrite E. reflexivity.
    + rewrite (operations_no_effects j Hj). reflexivity.
  - intros t r w1 j1 E1 Hr Hi.
    destruct (setModelFinal_already_selected label Hr Hi) as (j & E & Hj).
    exists j. split.
    + erewrite bind_ok by exact E1. rewrite E. reflexivity.
    + rewrite (operations_no_effects j Hj). reflexivity.
Qed.

End EngineFacts.

Lemma already_matches_is_a_no_op_witness :
  (exists j,
      Final.setModelFinal (js "Gemini 3.1 Pro") Sim.geminiPage
      = (Ok true, Sim.geminiPage, j)
      /\ operations j = [Called (Evaluate ScCurrentText)]
      /\ effects j = [])
  /\ (exists j,
         (Enhanced.setModel (js "Gemini 3.1 Pro") ;;
          Enhanced.setModel (js "Gemini 3.1 Pro")) Sim.geminiPage
         = (Ok true, Sim.geminiPage, j)
         /\ effects j = [])
  /\ (exists j1 j2,
         (Enhanced.setModel (js "Gemini 3.1 Pro") ;;
          Enhanced.setModel (js "Gemini 3.1 Pro")) Sim.livePage
         = (Ok true, react (react Sim.livePage (Click 4)) (Wait 1000),
            j1 ++ j2)
         /\ effects j1 = [Click 4%nat; Wait 1000]
         /\ effects j2 = []).
Proof.
  split; [|split].
  - destruct (already_matches_is_a_no_op (js "Gemini 3.1 Pro") Sim.geminiPage)
      as (_ & Hfinal & _).
    apply (Hfinal (js "Gemini 3.1 Pro")); [split; reflexivity|reflexivity].
  - destruct (already_matches_is_a_no_op (js "Gemini 3.1 Pro") Sim.geminiPage)
      as (_ & _ & Htwice & _).
    apply (Htwice (js "Gemini 3.1 Pro")); [split; reflexivity|reflexivity].
  - destruct (already_matches_is_a_no_op (js "Gemini 3.1 Pro") Sim.livePage)
      as (_ & _ & _ & _ & Hafter & _).
    assert (E : exists j1,
               Enhanced.setModel (js "Gemini 3.1 Pro") Sim.livePage
               = (Ok true, react (react Sim.livePage (Click 4)) (Wait 1000), j1)
               /\ effects j1 = [Click 4%nat; Wait 1000]).
    { eexists. split; vm_compute; reflexivity. }
    destruct E as (j1 & E & He).
    destruct (Hafter (js "Gemini 3.1 Pro") true _ j1 E)
      as (j2 & E2 & H2); [split; reflexivity|reflexivity|].
    exists j1, j2. split; [exact E2|]. split; [exact He|exact H2].
Defined.

(** C6, counterexample.  A first call that succeeded does not make the
    second call a no-op.  On the page with the collapsed list the final
    version clicks "More" and then the first element that contains the
    label, reports success, and does the same clicks again when invoked
    a second time; on a page whose option does not respond, [setModel]
    clicks the option and reports success at each invocation. *)
Lemma second_call_clicks_again :
  (exists w1 j1 w2 j2,
      Final.setModelFinal (js "Gemini 3.1 Pro") Sim.morePage = (Ok true, w1, j1)
      /\ Final.setModelFinal (js "Gemini 3.1 Pro") w1 = (Ok true, w2, j2)
      /\ clicks j2 = [2%nat; 0%nat])
  /\ (exists w1 j1 w2 j2,
         Enhanced.setModel (js "Gemini 3.1 Pro") Sim.inertPage
         = (Ok true, w1, j1)
         /\ Enhanced.setModel (js "Gemini 3.1 Pro") w1 = (Ok true, w2, j2)
         /\ clicks j2 = [4%nat]).
Proof.
  split.
  - do 4 eexists. split; [vm_compute; reflexivity|].
    split; vm_compute; reflexivity.
  - do 4 eexists. split; [vm_compute; reflexivity|].
    split; vm_compute; reflexivity.
Qed.

Section SearchStep.
Context {W : Type} {B : Browser W}.

Lemma emitted_try {A} (m : M W A) h (w : W) ev :
  In ev (operations (snd (m w))) ->
  In ev (operations (snd (try_catch m h w))).
Proof.
  unfold try_catch. destruct (m w) as [[[a|e] w1] j1]; [auto|].
  destruct (h e w1) as [[r w2] j2]. cbn [snd]. intros H.
  rewrite operations_app. apply in_or_app. left. exact H.
Qed.

Lemma emitted_bind_first {A C} (m : M W A) (f : A -> M W C) (w : W) ev :
  In ev (operations (snd (m w))) ->
  In ev (operations (snd (bind m f w))).
Proof.
  unfold bind. destruct (m w) as [[[a|e] w1] j1]; [|auto].
  destruct (f a w1) as [[r w2] j2]. cbn [snd]. intros H.
  rewrite operations_app. apply in_or_app. left. exact H.
Qed.

Lemma emitted_bind_then {A C} (m : M W A) (f : A -> M W C) (w : W)
      a w1 j1 ev :
  m w = (Ok a, w1, j1) ->
  In ev (operations (snd (f a w1))) ->
  In ev (operations (snd (bind m f w))).
Proof.
  intros E. unfold bind. rewrite E.
  destruct (f a w1) as [[r w2] j2]. cbn [snd]. intros H.
  rewrite operations_app. apply in_or_app. right. exact H.
Qed.

Lemma emitted_evaluate {A} (s : Script) (f : list Element -> A * list nat)
      (w : W) :
  In (Called (Evaluate s)) (operations (snd (evaluate s f w))).
Proof.
  unfold evaluate. destruct (rejects w (Evaluate s)).
  - left. reflexivity.
  - destruct (f (dom w)) as [a k]. left. reflexivity.
Qed.

(** Detection by [getCurrentlySelectedModel] never changes the page
    and returns what the script read, or [null]. *)
Lemma getCurrentlySelectedModel_frame (w : W) cur w1 j1 :
  Enhanced.getCurrentlySelectedModel w = (Ok cur, w1, j1) ->
  w1 = w
  /\ (cur = None
      \/ exists t, cur = Some t
                   /\ reads w ScCurrentModel Enhanced.currentModel (Some t)).
Proof.
  unfold Enhanced.getCurrentlySelectedModel, try_catch,
    Enhanced.getCurrentlySelectedModel_try, bind, evaluate, reads.
  destruct (rejects w (Evaluate ScCurrentModel)) eqn:Hr.
  - unfold logWarn, ret. intros E. injection E as <- <- _. auto.
  - destruct (Enhanced.currentModel (dom w)) as [c k] eqn:Ec.
    unfold Enhanced.currentModel in Ec. injection Ec as <- <-.
    unfold Enhanced.currentModel. cbn [fst fold_left].
    destruct (Enhanced.currentModel_loop _) as [t|] eqn:El.
    + destruct (truthy t); unfold logInfo, ret;
        intros E; injection E as <- <- _; split; eauto.
    + unfold ret. intros E. injection E as <- <- _. auto.
Qed.

(** In [setModel] the search for the model button is reached whenever
    the target is not already selected and there is no "More" button,
    that is, when Expand is skipped. *)
Lemma setModel_reaches_search (label : jsstring) (w : W) :
  reads w ScHasMore Enhanced.hasMoreButton false ->
  (forall t, reads w ScCurrentModel Enhanced.currentModel (Some t) ->
             includes t label = false) ->
  In (Called (Evaluate (ScClickButton label)))
     (operations (snd (Enhanced.setModel label w))).
Proof.
  intros [Hm Hv] Hn.
  destruct (safe_getCurrentlySelectedModel w) as (cur & w1 & j1 & E1).
  destruct (getCurrentlySelectedModel_frame _ E1) as [-> Hcur].
  assert (Ha : Enhanced.alreadySelected cur label = false).
  { destruct Hcur as [-> | (t & -> & Hr)]; [reflexivity|].
    unfold Enhanced.alreadySelected. rewrite (Hn t Hr).
    apply andb_false_r. }
  unfold Enhanced.setModel, Enhanced.setModel_try.
  apply emitted_try.
  eapply emitted_bind_then; [reflexivity|].
  eapply emitted_bind_then; [exact E1|].
  rewrite Ha.
  assert (Em : evaluate ScHasMore Enhanced.hasMoreButton w
               = (Ok false, w, [Called (Evaluate ScHasMore)])).
  { unfold evaluate. rewrite Hm.
    unfold Enhanced.hasMoreButton in *. cbn [fst] in Hv. rewrite Hv.
    reflexivity. }
  eapply emitted_bind_then; [exact Em|].
  eapply emitted_bind_then; [reflexivity|].
  apply emitted_bind_first. apply emitted_evaluate.
Qed.

End SearchStep.

(* ================================================================== *)
(** ** The order of the steps *)






Lemma querySelectorAll_from_in k d sel i e :
  In (i, e) (querySelectorAll_from k d sel) -> matches sel e = true.
Proof.
  revert k. induction d as [|x d IH]; intros k; simpl; [contradiction|].
  destruct (matches sel x) eqn:M.
  - intros [E | H]; [injection E as <- <-; exact M|exact (IH _ H)].
  - exact (IH _).
Qed.




Lemma clickButton_shape (label : jsstring) (d : list Element) :
  Enhanced.clickButton label d = (false, [])
  \/ exists i, Enhanced.clickButton label d = (true, [i]).
Proof.
  unfold Enhanced.clickButton.
  induction (querySelectorAll d BUTTON) as [|[i btn] rest IH];
    cbn [Enhanced.clickButton_loop]; [left; reflexivity|].
  destruct (truthy (trim (textContent btn))
            && includes (trim (textContent btn)) label); [|exact IH].
  right. exists i. reflexivity.
Qed.

Lemma searchAll_shape (label : jsstring) (d : list Element) :
  Final.searchAll label d = (false, [])
  \/ exists k, Final.searchAll label d = (true, [k]).
Proof.
  unfold Final.searchAll.
  induction (filter _ (querySelectorAll d ANY)) as [|[i e] rest IH];
    cbn [Final.searchAll_loop]; [left; reflexivity|].
  destruct (includes (trim (textContent e)) label); [|exact IH].
  right. eexists. reflexivity.
Qed.

Section Runs.
Context {W : Type} {B : Browser W}.



Lemma evaluate_run {A} (s : Script) (f : list Element -> A * list nat)
      (w : W) a ks :
  rejects w (Evaluate s) = None -> f (dom w) = (a, ks) ->
  evaluate s f w
  = (Ok a, fold_left (fun w' i => react w' (Click i)) ks w,
     Called (Evaluate s) :: List.map (fun i => Did (Click i)) ks).
Proof. intros Hr Hf. unfold evaluate. rewrite Hr, Hf. reflexivity. Qed.



End Runs.

Section Order.
Context {W : Type} {B : Browser W}.

Lemma getCurrentlySelectedModel_run (w : W) :
  rejects w (Evaluate ScCurrentModel) = None ->
  exists j,
    Enhanced.getCurrentlySelectedModel w
    = (Ok (fst (Enhanced.currentModel (dom w))), w, j)
    /\ operations j = [Called (Evaluate ScCurrentModel)].
Proof.
  intros Hr.
  unfold Enhanced.getCurrentlySelectedModel,
    Enhanced.getCurrentlySelectedModel_try.
  destruct (fst (Enhanced.currentModel (dom w))) as [t|] eqn:Ec.
  - destruct (getCurrentlySelectedModel_reads (conj Hr Ec)) as (_ & j & E & Hj).
    exists j. split; [exact E|exact Hj].
  - eexists. split.
    + erewrite try_catch_ok; [reflexivity|].
      erewrite bind_ok by (apply evaluate_run; [exact Hr|reflexivity]).
      unfold Enhanced.currentModel in *. cbn [fst] in Ec. rewrite Ec.
      reflexivity.
    + reflexivity.
Qed.






End Order.





(* ================================================================== *)
(** ** Looking models up *)

Lemma toLowerCase_app (a b : jsstring) :
  toLowerCase (a ++ b) = toLowerCase a ++ toLowerCase b.
Proof. unfold toLowerCase. apply flat_map_app. Qed.

Lemma isWhiteSpace_bounds (c : Z) :
  isWhiteSpace c = true ->
  c = 9 \/ c = 10 \/ c = 11 \/ c = 12 \/ c = 13 \/ c = 32 \/ c = 160
  \/ c = 5760 \/ 8192 <= c <= 8202 \/ c = 8232 \/ c = 8233 \/ c = 8239
  \/ c = 8287 \/ c = 12288 \/ c = 65279.
Proof.
  unfold isWhiteSpace. intros H.
  repeat (apply orb_true_iff in H; destruct H as [H | H]);
    try (apply Z.eqb_eq in H);
    try (apply andb_true_iff in H; destruct H as [H1 H2];
         apply Z.leb_le in H1; apply Z.leb_le in H2);
    lia.
Qed.

Lemma toLowerCaseUnit_blank (c : Z) :
  isWhiteSpace c = true -> toLowerCaseUnit c = [c].
Proof.
  intros H. apply isWhiteSpace_bounds in H.
  unfold toLowerCaseUnit.
  repeat (destruct H as [H | H]); settle_comparisons; reflexivity.
Qed.

Lemma toLowerCase_blank (l : jsstring) : blank l -> toLowerCase l = l.
Proof.
  unfold toLowerCase. induction 1 as [|c l Hc _ IH]; simpl; [reflexivity|].
  rewrite (toLowerCaseUnit_blank c Hc), IH. reflexivity.
Qed.

Lemma trimStart_app (v r : jsstring) :
  trimStart (v ++ r)
  = if forallb isWhiteSpace v then trimStart r else trimStart v ++ r.
Proof.
  induction v as [|c v IH]; simpl; [reflexivity|].
  destruct (isWhiteSpace c); simpl; [exact IH|reflexivity].
Qed.

Lemma trimStart_forallb (v : jsstring) :
  forallb isWhiteSpace v = true -> trimStart v = [].
Proof.
  induction v as [|c v IH]; simpl; [reflexivity|].
  destruct (isWhiteSpace c); simpl; [exact IH|discriminate].
Qed.

(** White space around a string does not change its trimmed form. *)
Lemma trim_padded (l v r : jsstring) :
  blank l -> blank r -> trim (l ++ v ++ r) = trim v.
Proof.
  intros Hl Hr. unfold trim, trimEnd.
  rewrite trimStart_blank by assumption.
  rewrite trimStart_app.
  destruct (forallb isWhiteSpace v) eqn:E.
  - rewrite (trimStart_all_blank Hr), (trimStart_forallb v E). reflexivity.
  - rewrite rev_app_distr.
    rewrite trimStart_blank by (apply blank_rev; assumption). reflexivity.
Qed.

Lemma getModelConfig_norm (a b : jsstring) :
  trim (toLowerCase a) = trim (toLowerCase b) ->
  getModelConfig a = getModelConfig b.
Proof. intros H. unfold getModelConfig. rewrite H. reflexivity. Qed.

Lemma normalized_variant (l v r x : jsstring) :
  blank l -> blank r -> Forall2 sameLetter v x ->
  trim (toLowerCase (l ++ v ++ r)) = trim (toLowerCase x).
Proof.
  intros Hl Hr Hv.
  rewrite !toLowerCase_app, (toLowerCase_blank Hl), (toLowerCase_blank Hr).
  rewrite (sameLetters_lower Hv). apply trim_padded; assumption.
Qed.

(** X1.  Every entry of the catalogue is found by its canonical name,
    by its display label and by its selector text, written in any case
    of the ASCII letters and surrounded by any white space. *)
Theorem getModelConfig_round_trip (m : ModelConfig) (l v r : jsstring) :
  In m AVAILABLE_MODELS -> blank l -> blank r ->
  Forall2 sameLetter v (name m)
  \/ Forall2 sameLetter v (displayName m)
  \/ Forall2 sameLetter v (selectorText m) ->
  getModelConfig (l ++ v ++ r) = Some m.
Proof.
  intros Hm Hl Hr Hv.
  assert (E : exists x, getModelConfig (l ++ v ++ r) = getModelConfig x
                        /\ (x = name m \/ x = displayName m
                            \/ x = selectorText m)).
  { destruct Hv as [Hv | [Hv | Hv]]; eexists;
      (split; [apply getModelConfig_norm;
               apply (normalized_variant Hl Hr Hv)|]); auto. }
  destruct E as (x & -> & Hx).
  simpl in Hm.
  repeat (destruct Hm as [<- | Hm];
          [destruct Hx as [-> | [-> | ->]]; reflexivity|]).
  contradiction.
Qed.

Lemma getModelConfig_round_trip_witness :
  getModelConfig (js "  kimi k2.5 ")
  = Some (mkModel (js "kimi-k2.5") (js "Kimi K2.5") (js "Kimi K2.5") None).
Proof.
  apply (@getModelConfig_round_trip
           (mkModel (js "kimi-k2.5") (js "Kimi K2.5") (js "Kimi K2.5") None)
           (js "  ") (js "kimi k2.5") (js " ")).
  - do 5 right. left. reflexivity.
  - repeat constructor.
  - repeat constructor.
  - right. left. cbn.
    repeat (apply Forall2_cons; [unfold sameLetter; lia|]).
    apply Forall2_nil.
Defined.




(* ================================================================== *)
(** ** What the scripts find *)

Lemma eat_startsWith (w s : jsstring) :
  match RegExp.eat false w s with Some _ => true | None => false end
  = startsWith s w.
Proof.
  revert s. induction w as [|p w IH]; intros s.
  - destruct s; reflexivity.
  - destruct s as [|x s]; [reflexivity|].
    cbn [RegExp.eat startsWith]. unfold RegExp.chr_eqb. cbn [RegExp.Canonicalize].
    destruct (p =? x); [apply IH|reflexivity].
Qed.

Lemma matchHere_group (ws : list jsstring) (bos : bool) (s : jsstring) :
  RegExp.matchHere false [RegExp.Group ws] bos s = existsb (startsWith s) ws.
Proof.
  cbn [RegExp.matchHere]. induction ws as [|w ws IH]; [reflexivity|].
  cbn [existsb]. rewrite IH, <- eat_startsWith.
  destruct (RegExp.eat false w s); reflexivity.
Qed.

Lemma existsb_orb {A} (f g : A -> bool) (l : list A) :
  existsb (fun x => f x || g x) l = existsb f l || existsb g l.
Proof.
  induction l as [|x l IH]; [reflexivity|]. cbn [existsb]. rewrite IH.
  destruct (f x), (g x), (existsb f l), (existsb g l); reflexivity.
Qed.

Lemma existsb_same {A} (f g : A -> bool) (l : list A) :
  (forall x, f x = g x) -> existsb f l = existsb g l.
Proof.
  intros H. induction l as [|x l IH]; [reflexivity|].
  cbn [existsb]. rewrite H, IH. reflexivity.
Qed.

Lemma scan_group (ws : list jsstring) (bos : bool) (s : jsstring) :
  RegExp.scan false [RegExp.Group ws] bos s = includesAny ws s.
Proof.
  unfold includesAny. revert bos. induction s as [|c s IH]; intros bos.
  - cbn [RegExp.scan includes]. rewrite matchHere_group, orb_false_r.
    apply existsb_same. intros w. rewrite orb_false_r. reflexivity.
  - cbn [RegExp.scan]. rewrite matchHere_group, IH.
    rewrite <- existsb_orb. apply existsb_same. intros w. reflexivity.
Qed.

(** A group of literal alternatives, unanchored and case sensitive,
    matches the texts that include one of the words. *)
Lemma test_anyOf (ws : list jsstring) (t : jsstring) :
  RegExp.test (RegExp.anyOf ws) t = includesAny ws t.
Proof. apply scan_group. Qed.

Lemma family_never_more (t : jsstring) :
  includesAny MODEL_FAMILY_WORDS t = true -> str_eqb t (js "More") = false.
Proof.
  intros H. destruct (str_eqb t (js "More")) eqn:E; [|reflexivity].
  apply str_eqb_eq in E. subst t. vm_compute in H. discriminate.
Qed.

Lemma querySelectorAll_from_nth k d sel i e :
  In (i, e) (querySelectorAll_from k d sel) ->
  (k <= i)%nat /\ nth_error d (i - k) = Some e.
Proof.
  revert k. induction d as [|x d IH]; intros k; simpl; [contradiction|].
  assert (Step : In (i, e) (querySelectorAll_from (S k) d sel) ->
                 (k <= i)%nat /\ nth_error (x :: d) (i - k) = Some e).
  { intros H. destruct (IH _ H) as [Hk Hn]. split; [lia|].
    replace (i - k)%nat with (S (i - S k)) by lia. exact Hn. }
  destruct (matches sel x) eqn:M; [|exact Step].
  intros [E | H]; [|exact (Step H)].
  injection E as <- <-. split; [lia|]. rewrite Nat.sub_diag. reflexivity.
Qed.

Lemma querySelectorAll_nth d sel i e :
  In (i, e) (querySelectorAll d sel) -> nth_error d i = Some e.
Proof.
  intros H. destruct (querySelectorAll_from_nth _ _ _ _ _ H) as [_ Hn].
  rewrite Nat.sub_0_r in Hn. exact Hn.
Qed.

Lemma find_first_or_none {A} (p : A -> bool) (l : list A) :
  (exists x, find p l = Some x /\ firstSuch p l x)
  \/ (find p l = None /\ forall y, In y l -> p y = false).
Proof.
  destruct (find p l) as [x|] eqn:E.
  - left. exists x. split; [reflexivity|].
    destruct (find_first _ _ E) as (b & a & H1 & H2 & H3).
    exists b, a. auto.
  - right. split; [reflexivity|]. exact (find_none _ _ E).
Qed.

Lemma currentModel_loop_find (buttons : list (nat * Element)) :
  Enhanced.currentModel_loop buttons
  = option_map (fun b => trim (textContent (snd b)))
               (find (buttonShows MODEL_FAMILY_WORDS) buttons).
Proof.
  induction buttons as [|[i btn] rest IH]; [reflexivity|].
  cbn [Enhanced.currentModel_loop find]. unfold buttonShows at 1. cbn [snd].
  change MODEL_FAMILY with (RegExp.anyOf MODEL_FAMILY_WORDS).
  rewrite test_anyOf.
  destruct (truthy (trim (textContent btn))); cbn [andb]; [|exact IH].
  destruct (includesAny MODEL_FAMILY_WORDS (trim (textContent btn))) eqn:F;
    cbn [andb]; [|exact IH].
  rewrite (family_never_more _ F). reflexivity.
Qed.

Lemma clickButton_loop_find (label : jsstring) (buttons : list (nat * Element)) :
  Enhanced.clickButton_loop label buttons
  = match find (fun b => truthy (trim (textContent (snd b)))
                         && includes (trim (textContent (snd b))) label)
               buttons with
    | Some (i, _) => (true, [i])
    | None => (false, [])
    end.
Proof.
  induction buttons as [|[i btn] rest IH]; [reflexivity|].
  cbn [Enhanced.clickButton_loop find snd].
  destruct (truthy (trim (textContent btn))
            && includes (trim (textContent btn)) label); [reflexivity|exact IH].
Qed.

(** X5.  The search of [setModel] clicks the first button, in document
    order, whose trimmed text is not empty and includes the name, and
    nothing else; it reports [false], and clicks nothing, exactly when
    no button is such. *)
Theorem clickButton_first_match (label : jsstring) (d : list Element) :
  let wanted b := truthy (trim (textContent (snd b)))
                  && includes (trim (textContent (snd b))) label in
  (exists i e,
      Enhanced.clickButton label d = (true, [i])
      /\ firstSuch wanted (querySelectorAll d BUTTON) (i, e)
      /\ nth_error d i = Some e
      /\ tagName e = "BUTTON"%string)
  \/ (Enhanced.clickButton label d = (false, [])
      /\ forall b, In b (querySelectorAll d BUTTON) -> wanted b = false).
Proof.
  intros wanted. unfold Enhanced.clickButton. rewrite clickButton_loop_find.
  fold wanted.
  destruct (find_first_or_none wanted (querySelectorAll d BUTTON))
    as [([i e] & E & F) | [E N]]; rewrite E.
  - left. exists i, e. split; [reflexivity|]. split; [exact F|].
    destruct F as (b & a & Hl & _).
    assert (Hin : In (i, e) (querySelectorAll d BUTTON)).
    { rewrite Hl. apply in_or_app. right. left. reflexivity. }
    split; [exact (querySelectorAll_nth _ _ _ _ Hin)|].
    pose proof (querySelectorAll_from_in _ _ _ _ _ Hin) as M.
    unfold matches in M. cbn in M.
    rewrite !andb_true_r in M. apply String.eqb_eq in M. exact M.
  - right. split; [reflexivity|exact N].
Qed.

Lemma clickButton_first_match_witness :
  Enhanced.clickButton (js "Gemini") Sim.showingClaude = (true, [4%nat]).
Proof.
  destruct (clickButton_first_match (js "Gemini") Sim.showingClaude)
    as [(i & e & E & _) | [E N]].
  - rewrite E. vm_compute in E. injection E as <-. reflexivity.
  - exfalso.
    assert (H := N (4%nat, Sim.el "BUTTON" (js "Gemini 3.1 Pro") (Some 3%nat)
                                  Sim.menuitem)).
    cbv beta in H. vm_compute in H.
    assert (F : true = false) by (apply H; do 1 right; left; reflexivity).
    discriminate F.
Defined.

Section Detection.
Context {W : Type} {B : Browser W}.

Lemma trimmedText_of (d : list Element) i e :
  nth_error d i = Some e ->
  trimmedText i d = (Some (trim (textContent e)), []).
Proof. intros H. unfold trimmedText. rewrite H. reflexivity. Qed.

Lemma textMatches_buttonShows i e :
  textMatches MODEL_OR_MORE (Some (trim (textContent e)))
  = buttonShows MODEL_OR_MORE_WORDS (i, e).
Proof.
  unfold textMatches, buttonShows. cbn [snd].
  change MODEL_OR_MORE with (RegExp.anyOf MODEL_OR_MORE_WORDS).
  rewrite test_anyOf. reflexivity.
Qed.

Lemma Enhanced_loop_spec (w : W) (L : list (nat * Element)) :
  (forall h, rejects w (Evaluate (ScTextContent h)) = None) ->
  (forall i e, In (i, e) L -> nth_error (dom w) i = Some e) ->
  exists j,
    Enhanced.isModelSelectionAvailable_loop (List.map fst L) w
    = (Ok (existsb (buttonShows MODEL_OR_MORE_WORDS) L), w, j).
Proof.
  intros Hr. induction L as [|[i e] L IH]; intros Hn.
  - eexists. reflexivity.
  - cbn [List.map fst Enhanced.isModelSelectionAvailable_loop existsb].
    erewrite bind_ok
      by (apply evaluate_run;
          [apply Hr|apply trimmedText_of; apply Hn; left; reflexivity]).
    rewrite (textMatches_buttonShows i e).
    destruct (buttonShows MODEL_OR_MORE_WORDS (i, e)).
    + eexists. reflexivity.
    + destruct IH as [j E]; [intros; apply Hn; right; assumption|].
      cbn [fold_left orb]. rewrite E. eexists. reflexivity.
Qed.

Lemma Final_loop_spec (w : W) (L : list (nat * Element)) :
  (forall h, rejects w (Evaluate (ScTextContent h)) = None) ->
  (forall i e, In (i, e) L -> nth_error (dom w) i = Some e) ->
  exists j,
    Final.isModelSelectionAvailable_loop (List.map fst L) w
    = (Ok (existsb (buttonShows MODEL_OR_MORE_WORDS) L), w, j).
Proof.
  intros Hr. induction L as [|[i e] L IH]; intros Hn.
  - eexists. reflexivity.
  - cbn [List.map fst Final.isModelSelectionAvailable_loop existsb].
    erewrite bind_ok
      by (apply evaluate_run;
          [apply Hr|apply trimmedText_of; apply Hn; left; reflexivity]).
    rewrite (textMatches_buttonShows i e).
    destruct (buttonShows MODEL_OR_MORE_WORDS (i, e)).
    + eexists. reflexivity.
    + destruct IH as [j E]; [intros; apply Hn; right; assumption|].
      cbn [fold_left orb]. rewrite E. eexists. reflexivity.
Qed.

Lemma queryAll_run (sel : Selector) (w : W) :
  rejects w (QueryAll sel) = None ->
  queryAll sel w
  = (Ok (List.map fst (querySelectorAll (dom w) sel)), w,
     [Called (QueryAll sel)]).
Proof. intros H. unfold queryAll. rewrite H. reflexivity. Qed.

(** X3.  When the controller answers its queries, both versions of
    [isModelSelectionAvailable] return [true] exactly when some button
    has a non-empty trimmed text that includes one of "Claude",
    "Gemini", "Sonar", "GPT", "Grok" or "More" (case sensitive), and
    they leave the page as it is.  A page whose only buttons read
    "Kimi K2.5" or "Reasoning" is reported as unavailable. *)
Theorem isModelSelectionAvailable_spec (w : W) :
  rejects w (QueryAll BUTTON) = None ->
  (forall h, rejects w (Evaluate (ScTextContent h)) = None) ->
  (exists j,
      Enhanced.isModelSelectionAvailable w
      = (Ok (existsb (buttonShows MODEL_OR_MORE_WORDS)
                     (querySelectorAll (dom w) BUTTON)), w, j))
  /\ (exists j,
         Final.isModelSelectionAvailable w
         = (Ok (existsb (buttonShows MODEL_OR_MORE_WORDS)
                        (querySelectorAll (dom w) BUTTON)), w, j)).
Proof.
  intros Hq Hr.
  assert (Hn : forall i e, In (i, e) (querySelectorAll (dom w) BUTTON) ->
                           nth_error (dom w) i = Some e)
    by (intros i e; apply querySelectorAll_nth).
  split.
  - destruct (Enhanced_loop_spec w _ Hr Hn) as [j E].
    eexists. unfold Enhanced.isModelSelectionAvailable,
               Enhanced.isModelSelectionAvailable_try.
    erewrite try_catch_ok; [reflexivity|].
    erewrite bind_ok by (apply queryAll_run; exact Hq).
    rewrite E. reflexivity.
  - destruct (Final_loop_spec w _ Hr Hn) as [j E].
    eexists. unfold Final.isModelSelectionAvailable,
               Final.isModelSelectionAvailable_try.
    erewrite try_catch_ok; [reflexivity|].
    erewrite bind_ok by (apply queryAll_run; exact Hq).
    rewrite E. reflexivity.
Qed.

(** X4.  When its script runs, [getCurrentlySelectedModel] returns the
    trimmed text of the first button, in document order, whose trimmed
    text is not empty and includes one of "Claude", "Gemini", "Sonar",
    "GPT", "Grok" or "Kimi", and [null] when there is no such button;
    the page is left as it is.  The test that excludes the text "More"
    never decides anything. *)
Theorem getCurrentlySelectedModel_spec (w : W) :
  rejects w (Evaluate ScCurrentModel) = None ->
  exists r j,
    Enhanced.getCurrentlySelectedModel w = (Ok r, w, j)
    /\ operations j = [Called (Evaluate ScCurrentModel)]
    /\ ((exists b,
            firstSuch (buttonShows MODEL_FAMILY_WORDS)
                      (querySelectorAll (dom w) BUTTON) b
            /\ r = Some (trim (textContent (snd b))))
        \/ (r = None
            /\ forall b, In b (querySelectorAll (dom w) BUTTON) ->
                         buttonShows MODEL_FAMILY_WORDS b = false)).
Proof.
  intros Hr. destruct (getCurrentlySelectedModel_run w Hr) as (j & E & Hj).
  exists (fst (Enhanced.currentModel (dom w))), j.
  split; [exact E|]. split; [exact Hj|].
  unfold Enhanced.currentModel. cbn [fst]. rewrite currentModel_loop_find.
  destruct (find_first_or_none (buttonShows MODEL_FAMILY_WORDS)
                               (querySelectorAll (dom w) BUTTON))
    as [(b & Eb & F) | [Eb N]]; rewrite Eb.
  - left. exists b. split; [exact F|reflexivity].
  - right. split; [reflexivity|exact N].
Qed.

End Detection.

Lemma isModelSelectionAvailable_spec_witness :
  (exists j,
      Final.isModelSelectionAvailable Sim.morePage = (Ok true, Sim.morePage, j))
  /\ (exists j,
         Enhanced.isModelSelectionAvailable
           (Sim.mkPage [Sim.el "HTML" (js "Kimi K2.5Reasoning") None [];
                        Sim.el "BUTTON" (js "Kimi K2.5") (Some 0%nat) [];
                        Sim.el "BUTTON" (js "Reasoning") (Some 0%nat) []]
                       [] Sim.healthy)
         = (Ok false,
            Sim.mkPage [Sim.el "HTML" (js "Kimi K2.5Reasoning") None [];
                        Sim.el "BUTTON" (js "Kimi K2.5") (Some 0%nat) [];
                        Sim.el "BUTTON" (js "Reasoning") (Some 0%nat) []]
                       [] Sim.healthy, j)).
Proof.
  split.
  - destruct (isModelSelectionAvailable_spec Sim.morePage) as [_ H];
      [reflexivity|intros h; reflexivity|exact H].
  - destruct (isModelSelectionAvailable_spec
                (Sim.mkPage
                   [Sim.el "HTML" (js "Kimi K2.5Reasoning") None [];
                    Sim.el "BUTTON" (js "Kimi K2.5") (Some 0%nat) [];
                    Sim.el "BUTTON" (js "Reasoning") (Some 0%nat) []]
                   [] Sim.healthy)) as [H _];
      [reflexivity|intros h; reflexivity|exact H].
Defined.

Lemma getCurrentlySelectedModel_spec_witness :
  exists r j,
    Enhanced.getCurrentlySelectedModel Sim.mixedPage = (Ok r, Sim.mixedPage, j)
    /\ operations j = [Called (Evaluate ScCurrentModel)].
Proof.
  destruct (getCurrentlySelectedModel_spec Sim.mixedPage)
    as (r & j & E & Hj & _); [reflexivity|].
  exists r, j. split; assumption.
Defined.

(* ================================================================== *)
(** ** The element that is activated *)

Lemma closest_fuel_sound fuel d sel i k :
  closest_fuel fuel d sel i = Some k -> Nearest d sel i k.
Proof.
  revert i. induction fuel as [|fuel IH]; intros i; simpl; [discriminate|].
  destruct (nth_error d i) as [e|] eqn:En; [|discriminate].
  destruct (matches sel e) eqn:M.
  - intros E. injection E as <-. eapply NearestHere; eassumption.
  - destruct (parent e) as [p|] eqn:Ep; [|discriminate].
    intros E. eapply NearestUp; try eassumption. apply IH. exact E.
Qed.

Lemma closest_fuel_complete d sel i k :
  parentsFirst d -> Nearest d sel i k ->
  forall fuel, (i < fuel)%nat -> closest_fuel fuel d sel i = Some k.
Proof.
  intros Hp. induction 1 as [i e En M | i e p k En M Ep _ IH];
    intros fuel Hf; (destruct fuel as [|fuel]; [lia|]); simpl;
    rewrite En, M; [reflexivity|].
  rewrite Ep. apply IH. pose proof (Hp _ _ _ En Ep). lia.
Qed.

Lemma Nearest_in_range d sel i k :
  Nearest d sel i k -> (i < List.length d)%nat.
Proof.
  destruct 1 as [i e En _ | i e p k En _ _ _];
    apply nth_error_Some; rewrite En; discriminate.
Qed.

Lemma Nearest_above d sel i k :
  parentsFirst d -> Nearest d sel i k -> (k <= i)%nat.
Proof.
  intros Hp. induction 1 as [i e En M | i e p k En M Ep _ IH]; [lia|].
  pose proof (Hp _ _ _ En Ep). lia.
Qed.

(** X7.  In a document where parents come before their children,
    [closest] returns the element itself or its nearest ancestor that
    matches the selector, and [null] when there is none: the fuel of
    the walk to the root, the length of the document, is always
    enough.  The result never lies after the element. *)
Theorem closest_nearest (d : list Element) (sel : Selector) (i k : nat) :
  parentsFirst d ->
  (closest d sel i = Some k <-> Nearest d sel i k)
  /\ (closest d sel i = Some k -> (k <= i)%nat).
Proof.
  intros Hp.
  assert (S : closest d sel i = Some k -> Nearest d sel i k)
    by apply closest_fuel_sound.
  split; [split; [exact S|]|].
  - intros N. apply (closest_fuel_complete Hp N).
    exact (Nearest_in_range N).
  - intros E. exact (Nearest_above Hp (S E)).
Qed.

Lemma expanded_parentsFirst : parentsFirst Sim.expanded.
Proof.
  intros i e p Hn Hp.
  do 6 (destruct i as [|i];
        [injection Hn as <-; simpl in Hp; try discriminate;
         injection Hp as <-; lia|]).
  destruct i; discriminate.
Qed.

Lemma closest_nearest_witness :
  Nearest Sim.expanded
          (mkSelector None [("role"%string, js "menu")] None) 5 3.
Proof.
  apply (proj1 (@closest_nearest Sim.expanded
                  (mkSelector None [("role"%string, js "menu")] None)
                  5 3 expanded_parentsFirst)).
  reflexivity.
Defined.

Lemma searchAll_loop_find (d : list Element) (label : jsstring)
      (f : nat * Element -> bool) (L : list (nat * Element)) :
  Final.searchAll_loop d label (filter f L)
  = match find (fun ie => f ie && includes (trim (textContent (snd ie))) label)
               L with
    | Some (i, _) =>
        (true, [match closest d MENUITEM i with Some m => m | None => i end])
    | None => (false, [])
    end.
Proof.
  induction L as [|[i e] L IH]; [reflexivity|].
  cbn [filter find]. destruct (f (i, e)); cbn [andb]; [|exact IH].
  cbn [Final.searchAll_loop snd].
  destruct (includes (trim (textContent e)) label); [reflexivity|exact IH].
Qed.

Lemma searchAll_find (label : jsstring) (d : list Element) :
  Final.searchAll label d
  = match find (searchHit label) (querySelectorAll d ANY) with
    | Some (i, _) =>
        (true, [match closest d MENUITEM i with Some m => m | None => i end])
    | None => (false, [])
    end.
Proof. unfold Final.searchAll. cbv zeta. apply searchAll_loop_find. Qed.

(** X6.  The search of [setModelFinal] takes the first element of the
    document, scripts and style sheets apart, whose text includes the
    label before and after trimming, and clicks its nearest ancestor
    (or itself) with the role "menuitem", or the element itself when
    there is none; it clicks nothing and reports [false] exactly when
    no element is such. *)
Theorem searchAll_target (label : jsstring) (d : list Element) :
  (exists i e k,
      Final.searchAll label d = (true, [k])
      /\ firstSuch (searchHit label) (querySelectorAll d ANY) (i, e)
      /\ nth_error d i = Some e
      /\ (Nearest d MENUITEM i k
          \/ (closest d MENUITEM i = None /\ k = i)))
  \/ (Final.searchAll label d = (false, [])
      /\ forall ie, In ie (querySelectorAll d ANY) ->
                    searchHit label ie = false).
Proof.
  rewrite searchAll_find.
  destruct (find_first_or_none (searchHit label) (querySelectorAll d ANY))
    as [([i e] & E & F) | [E N]]; rewrite E.
  - left. exists i, e. eexists. split; [reflexivity|]. split; [exact F|].
    split.
    + destruct F as (b & a & Hl & _). apply (querySelectorAll_nth d ANY).
      rewrite Hl. apply in_or_app. right. left. reflexivity.
    + destruct (closest d MENUITEM i) as [m|] eqn:C.
      * left. exact (closest_fuel_sound _ _ _ _ C).
      * right. split; reflexivity.
  - right. split; [reflexivity|exact N].
Qed.

Lemma searchAll_target_witness :
  Final.searchAll (js "Sonar") Sim.expanded = (false, []).
Proof.
  destruct (searchAll_target (js "Sonar") Sim.expanded)
    as [(i & e & k & _ & F & _) | [E _]]; [exfalso|exact E].
  destruct F as (b & a & Hl & Hp & _).
  assert (Hin : In (i, e) (querySelectorAll Sim.expanded ANY)).
  { rewrite Hl. apply in_or_app. right. left. reflexivity. }
  vm_compute in Hin.
  repeat (destruct Hin as [Hin | Hin];
          [injection Hin as <- <-; vm_compute in Hp; discriminate Hp|]).
  contradiction.
Defined.

(** X8.  When the first element of the document has no parent, is not
    a script or a style sheet, and includes the label in its text
    before and after trimming -- as the root of a document does
    whenever the label is shown anywhere in it -- the search of
    [setModelFinal] clicks that first element, whatever else the
    document holds. *)
Theorem searchAll_clicks_root (label : jsstring) (root : Element)
        (rest : list Element) :
  parent root = None ->
  searchHit label (0%nat, root) = true ->
  Final.searchAll label (root :: rest) = (true, [0%nat]).
Proof.
  intros Hp Hh. rewrite searchAll_find.
  unfold querySelectorAll. cbn [querySelectorAll_from].
  replace (matches ANY root) with true by reflexivity.
  cbn [find]. rewrite Hh.
  unfold closest. cbn [List.length closest_fuel nth_error].
  destruct (matches MENUITEM root); [reflexivity|].
  rewrite Hp. reflexivity.
Qed.

Lemma searchAll_clicks_root_witness :
  Final.searchAll (js "Gemini 3.1 Pro") Sim.expanded = (true, [0%nat]).
Proof.
  apply (@searchAll_clicks_root (js "Gemini 3.1 Pro")
           (Sim.el "HTML" (js "MoreClaude Sonnet 4.6Gemini 3.1 Pro") None [])).
  - reflexivity.
  - vm_compute. reflexivity.
Defined.

(* ================================================================== *)
(** ** What an invocation does to the page *)

Lemma clicks_app (a b : list Event) : clicks (a ++ b) = clicks a ++ clicks b.
Proof.
  induction a as [|ev a IH]; [reflexivity|].
  destruct ev as [l|c|[i|ms]]; cbn [app clicks]; rewrite IH; reflexivity.
Qed.

Lemma waited_app (a b : list Event) : waited (a ++ b) = waited a + waited b.
Proof.
  induction a as [|ev a IH]; [reflexivity|].
  destruct ev as [l|c|[i|ms]]; cbn [app waited]; rewrite IH; lia.
Qed.

Lemma clicks_of_script (c : Call) (ks : list nat) :
  clicks (Called c :: List.map (fun i => Did (Click i)) ks) = ks.
Proof.
  cbn [clicks]. induction ks as [|k ks IH]; [reflexivity|].
  cbn [List.map clicks]. rewrite IH. reflexivity.
Qed.

Lemma waited_of_script (c : Call) (ks : list nat) :
  waited (Called c :: List.map (fun i => Did (Click i)) ks) = 0.
Proof.
  cbn [waited]. induction ks as [|k ks IH]; [reflexivity|].
  cbn [List.map waited]. exact IH.
Qed.

Lemma effects_of_logs (l : list LogEntry) : effects (List.map Logged l) = [].
Proof. induction l as [|x l IH]; [reflexivity|exact IH]. Qed.

Lemma no_effects_no_clicks (j : list Event) :
  effects j = [] -> clicks j = [] /\ waited j = 0.
Proof.
  induction j as [|ev j IH]; [auto|].
  destruct ev as [l|c|[i|ms]]; cbn [effects clicks waited];
    try discriminate; exact IH.
Qed.

Section Frames.
Context {W : Type} {B : Browser W}.

Lemma readOnly_ret {A} (a : A) : readOnly (ret (W := W) a).
Proof. intros w. split; reflexivity. Qed.

Lemma readOnly_bind {A C} (m : M W A) (f : A -> M W C) :
  readOnly m -> (forall a, readOnly (f a)) -> readOnly (bind m f).
Proof.
  intros Hm Hf w. unfold bind. destruct (Hm w) as [Hw Hj].
  destruct (m w) as [[[a|e] w1] j1]; cbn [fst snd] in *; [|auto].
  subst w1. destruct (Hf a w) as [Hw2 Hj2].
  destruct (f a w) as [[r w2] j2]; cbn [fst snd] in *.
  split; [exact Hw2|]. rewrite effects_app, Hj, Hj2. reflexivity.
Qed.

Lemma readOnly_try {A} (m : M W A) (h : Exn -> M W A) :
  readOnly m -> (forall e, readOnly (h e)) -> readOnly (try_catch m h).
Proof.
  intros Hm Hh w. unfold try_catch. destruct (Hm w) as [Hw Hj].
  destruct (m w) as [[[a|e] w1] j1]; cbn [fst snd] in *; [auto|].
  subst w1. destruct (Hh e w) as [Hw2 Hj2].
  destruct (h e w) as [[r w2] j2]; cbn [fst snd] in *.
  split; [exact Hw2|]. rewrite effects_app, Hj, Hj2. reflexivity.
Qed.

Lemma readOnly_logInfo msg : readOnly (logInfo (W := W) msg).
Proof. intros w. split; reflexivity. Qed.

Lemma readOnly_logWarn msg ctx : readOnly (logWarn (W := W) msg ctx).
Proof. intros w. split; reflexivity. Qed.

Lemma readOnly_lift {A} (p : Res A * list LogEntry) :
  readOnly (lift (W := W) p).
Proof. intros w. split; [reflexivity|]. apply effects_of_logs. Qed.

Lemma readOnly_evaluate {A} (s : Script) (f : list Element -> A * list nat) :
  (forall d, snd (f d) = []) -> readOnly (evaluate (W := W) s f).
Proof.
  intros Hf w. unfold evaluate. destruct (rejects w (Evaluate s)).
  - split; reflexivity.
  - specialize (Hf (dom w)). destruct (f (dom w)) as [a ks].
    cbn [snd] in Hf. subst ks. split; reflexivity.
Qed.

Lemma readOnly_queryAll sel : readOnly (queryAll (W := W) sel).
Proof.
  intros w. unfold queryAll. destruct (rejects w (QueryAll sel));
    split; reflexivity.
Qed.

Lemma readOnly_queryOne sel : readOnly (queryOne (W := W) sel).
Proof.
  intros w. unfold queryOne. destruct (rejects w (QueryOne sel));
    split; reflexivity.
Qed.

Lemma readOnly_Enhanced_loop (buttons : list nat) :
  readOnly (Enhanced.isModelSelectionAvailable_loop (W := W) buttons).
Proof.
  induction buttons as [|b rest IH]; cbn [Enhanced.isModelSelectionAvailable_loop].
  - apply readOnly_bind; [apply readOnly_logWarn|intros; apply readOnly_ret].
  - apply readOnly_bind; [apply readOnly_evaluate; reflexivity|].
    intros text. destruct (textMatches MODEL_OR_MORE text); [|exact IH].
    apply readOnly_bind; [apply readOnly_logInfo|intros; apply readOnly_ret].
Qed.

Lemma readOnly_Final_loop (buttons : list nat) :
  readOnly (Final.isModelSelectionAvailable_loop (W := W) buttons).
Proof.
  induction buttons as [|b rest IH]; cbn [Final.isModelSelectionAvailable_loop].
  - apply readOnly_ret.
  - apply readOnly_bind; [apply readOnly_evaluate; reflexivity|].
    intros text. destruct (textMatches MODEL_OR_MORE text); [|exact IH].
    apply readOnly_ret.
Qed.

Lemma readOnly_Enhanced_available :
  readOnly (Enhanced.isModelSelectionAvailable (W := W)).
Proof.
  apply readOnly_try.
  - apply readOnly_bind; [apply readOnly_queryAll|].
    intros buttons. apply readOnly_Enhanced_loop.
  - intros e. apply readOnly_bind; [apply readOnly_logWarn|].
    intros; apply readOnly_ret.
Qed.

Lemma readOnly_Final_available :
  readOnly (Final.isModelSelectionAvailable (W := W)).
Proof.
  apply readOnly_try.
  - apply readOnly_bind; [apply readOnly_queryAll|].
    intros buttons. apply readOnly_Final_loop.
  - intros e. apply readOnly_ret.
Qed.

Lemma readOnly_getCurrentlySelectedModel :
  readOnly (Enhanced.getCurrentlySelectedModel (W := W)).
Proof.
  apply readOnly_try.
  - apply readOnly_bind; [apply readOnly_evaluate; reflexivity|].
    intros r. apply readOnly_bind; [|intros; apply readOnly_ret].
    destruct r as [n|]; [|apply readOnly_ret].
    destruct (truthy n); [apply readOnly_logInfo|apply readOnly_ret].
  - intros e. apply readOnly_bind; [apply readOnly_logWarn|].
    intros; apply readOnly_ret.
Qed.

Lemma readOnly_isReasoningToggleAvailable :
  readOnly (ReasoningToggle.isReasoningToggleAvailable (W := W)).
Proof.
  apply readOnly_try.
  - apply readOnly_bind; [apply readOnly_queryOne|].
    intros; apply readOnly_ret.
  - intros e. apply readOnly_bind; [apply readOnly_logWarn|].
    intros; apply readOnly_ret.
Qed.

(** X9.  The probes of the UI only read: on every page, rejecting or
    not, both versions of [isModelSelectionAvailable],
    [getCurrentlySelectedModel] and [isReasoningToggleAvailable] leave
    the page as it is and perform no click and no wait. *)
Theorem probes_are_read_only :
  readOnly (Enhanced.isModelSelectionAvailable (W := W))
  /\ readOnly (Final.isModelSelectionAvailable (W := W))
  /\ readOnly (Enhanced.getCurrentlySelectedModel (W := W))
  /\ readOnly (ReasoningToggle.isReasoningToggleAvailable (W := W)).
Proof.
  split; [apply readOnly_Enhanced_available|].
  split; [apply readOnly_Final_available|].
  split; [apply readOnly_getCurrentlySelectedModel|].
  apply readOnly_isReasoningToggleAvailable.
Qed.

Lemma spends_weaken {A} (m : M W A) a x a' x' :
  spends m a x -> (a <= a')%nat -> x <= x' -> spends m a' x'.
Proof. intros H Ha Hx w. destruct (H w). split; lia. Qed.

Lemma spends_readOnly {A} (m : M W A) : readOnly m -> spends m 0 0.
Proof.
  intros H w. destruct (H w) as [_ He].
  destruct (no_effects_no_clicks _ He) as [-> ->]. split; simpl; lia.
Qed.

Lemma spends_ret {A} (a : A) : spends (ret (W := W) a) 0 0.
Proof. apply spends_readOnly, readOnly_ret. Qed.

Lemma spends_bind {A C} (m : M W A) (f : A -> M W C) a x b y n ms :
  spends m a x -> (forall v, spends (f v) b y) ->
  (a + b <= n)%nat -> x + y <= ms -> 0 <= y ->
  spends (bind m f) n ms.
Proof.
  intros Hm Hf Hn Hms Hy w. unfold bind. destruct (Hm w) as [Hc Hw].
  destruct (m w) as [[[v|e] w1] j1]; cbn [fst snd] in *; [|split; lia].
  destruct (Hf v w1) as [Hc2 Hw2].
  destruct (f v w1) as [[r w2] j2]; cbn [fst snd] in *.
  rewrite clicks_app, length_app, waited_app. split; lia.
Qed.

Lemma spends_try {A} (m : M W A) (h : Exn -> M W A) n ms :
  spends m n ms -> (forall e, spends (h e) 0 0) ->
  spends (try_catch m h) n ms.
Proof.
  intros Hm Hh w. unfold try_catch. destruct (Hm w) as [Hc Hw].
  destruct (m w) as [[[v|e] w1] j1]; cbn [fst snd] in *; [split; lia|].
  destruct (Hh e w1) as [Hc2 Hw2].
  destruct (h e w1) as [[r w2] j2]; cbn [fst snd] in *.
  rewrite clicks_app, length_app, waited_app. split; lia.
Qed.

Lemma spends_warn_then {A} msg ctx (a : A) :
  spends (W := W) (logWarn msg ctx ;; ret a) 0 0.
Proof.
  apply spends_readOnly. apply readOnly_bind; [apply readOnly_logWarn|].
  intros; apply readOnly_ret.
Qed.

Lemma spends_logInfo msg : spends (logInfo (W := W) msg) 0 0.
Proof. apply spends_readOnly, readOnly_logInfo. Qed.

Lemma spends_evaluate {A} (s : Script) (f : list Element -> A * list nat) n :
  (forall d, (List.length (snd (f d)) <= n)%nat) ->
  spends (evaluate (W := W) s f) n 0.
Proof.
  intros Hf w. unfold evaluate. destruct (rejects w (Evaluate s)).
  - split; simpl; lia.
  - specialize (Hf (dom w)). destruct (f (dom w)) as [a ks].
    cbn [fst snd] in *. rewrite clicks_of_script, waited_of_script.
    split; lia.
Qed.

Lemma spends_sleep ms : 0 <= ms -> spends (sleep (W := W) ms) 0 ms.
Proof.
  intros H w. unfold sleep. destruct (rejects w (Evaluate (ScTimeout ms)));
    split; simpl; lia.
Qed.

Lemma spends_click sel : spends (click (W := W) sel) 1 0.
Proof.
  intros w. unfold click. destruct (rejects w (ClickSelector sel)).
  - split; simpl; lia.
  - destruct (querySelector (dom w) sel) as [[i e]|]; split; simpl; lia.
Qed.

Lemma clickButton_one label d :
  (List.length (snd (Enhanced.clickButton label d)) <= 1)%nat.
Proof.
  destruct (clickButton_shape label d) as [-> | [i ->]]; simpl; lia.
Qed.

Lemma searchAll_one label d :
  (List.length (snd (Final.searchAll label d)) <= 1)%nat.
Proof.
  destruct (searchAll_shape label d) as [-> | [i ->]]; simpl; lia.
Qed.

Lemma clickMore_one d : (List.length (snd (Final.clickMore d)) <= 1)%nat.
Proof.
  unfold Final.clickMore. destruct (find _ _) as [[i e]|]; simpl; lia.
Qed.

Lemma spends_enableReasoningMode :
  spends (ReasoningToggle.enableReasoningMode (W := W)) 1 500.
Proof.
  apply spends_try; [|intros e; apply spends_warn_then].
  apply (@spends_bind _ _ _ _ 0 0 1 500); try lia; [apply spends_logInfo|].
  intros _.
  apply (@spends_bind _ _ _ _ 0 0 1 500); try lia;
    [apply spends_evaluate; reflexivity|].
  intros isEnabled. destruct isEnabled.
  - apply (@spends_bind _ _ _ _ 0 0 0 0); try lia;
      [apply spends_logInfo|intros; apply spends_ret].
  - apply (@spends_bind _ _ _ _ 1 0 0 500); try lia; [apply spends_click|].
    intros _.
    apply (@spends_bind _ _ _ _ 0 0 0 500); try lia; [apply spends_logInfo|].
    intros _.
    apply (@spends_bind _ _ _ _ 0 500 0 0); try lia;
      [apply spends_sleep; lia|intros; apply spends_ret].
Qed.

Lemma spends_setModel label :
  spends (Enhanced.setModel (W := W) label) 2 2000.
Proof.
  apply spends_try; [|intros e; apply spends_warn_then].
  apply (@spends_bind _ _ _ _ 0 0 2 2000); try lia; [apply spends_logInfo|].
  intros _.
  apply (@spends_bind _ _ _ _ 0 0 2 2000); try lia;
    [apply spends_readOnly, readOnly_getCurrentlySelectedModel|].
  intros current. destruct (Enhanced.alreadySelected current label).
  - apply (@spends_bind _ _ _ _ 0 0 0 0); try lia;
      [apply spends_logInfo|intros; apply spends_ret].
  - apply (@spends_bind _ _ _ _ 0 0 2 2000); try lia;
      [apply spends_evaluate; reflexivity|].
    intros hasMore.
    apply (@spends_bind _ _ _ _ 1 1000 1 1000); try lia.
    + destruct hasMore; [|eapply spends_weaken; [apply spends_ret|lia|lia]].
      apply (@spends_bind _ _ _ _ 0 0 1 1000); try lia;
        [apply spends_logInfo|]. intros _.
      apply (@spends_bind _ _ _ _ 1 0 0 1000); try lia; [apply spends_click|].
      intros _. apply spends_sleep. lia.
    + intros _.
      apply (@spends_bind _ _ _ _ 1 0 0 1000); try lia;
        [apply spends_evaluate; apply clickButton_one|].
      intros found. destruct found.
      * apply (@spends_bind _ _ _ _ 0 0 0 1000); try lia;
          [apply spends_logInfo|]. intros _.
        apply (@spends_bind _ _ _ _ 0 1000 0 0); try lia;
          [apply spends_sleep; lia|intros; apply spends_ret].
      * eapply spends_weaken; [apply spends_warn_then|lia|lia].
Qed.

Lemma spends_setModelFinal label :
  spends (Final.setModelFinal (W := W) label) 3 3000.
Proof.
  assert (N : spends (Final.notSelected (W := W) label) 3 3000)
    by (eapply spends_weaken; [apply spends_warn_then|lia|lia]).
  apply spends_try; [|intros e; apply spends_warn_then].
  apply (@spends_bind _ _ _ _ 0 0 3 3000); try lia; [apply spends_logInfo|].
  intros _.
  apply (@spends_bind _ _ _ _ 0 0 3 3000); try lia;
    [apply spends_evaluate; reflexivity|].
  intros current.
  apply (@spends_bind _ _ _ _ 0 0 3 3000); try lia; [apply spends_logInfo|].
  intros _. destruct (Final.alreadySelected current label).
  { apply (@spends_bind _ _ _ _ 0 0 0 0); try lia;
      [apply spends_logInfo|intros; apply spends_ret]. }
  destruct (opt_str_eqb current (js "More")); [|exact N].
  apply (@spends_bind _ _ _ _ 0 0 3 3000); try lia; [apply spends_logInfo|].
  intros _.
  apply (@spends_bind _ _ _ _ 1 0 2 3000); try lia;
    [apply spends_evaluate; apply clickMore_one|].
  intros _.
  apply (@spends_bind _ _ _ _ 0 1500 2 1500); try lia;
    [apply spends_sleep; lia|].
  intros _.
  apply (@spends_bind _ _ _ _ 1 0 1 1500); try lia;
    [apply spends_evaluate; apply searchAll_one|].
  intros found. destruct found;
    [|eapply spends_weaken; [apply spends_warn_then|lia|lia]].
  apply (@spends_bind _ _ _ _ 0 0 1 1500); try lia; [apply spends_logInfo|].
  intros _.
  apply (@spends_bind _ _ _ _ 0 1000 1 500); try lia;
    [apply spends_sleep; lia|].
  intros _.
  apply (@spends_bind _ _ _ _ 1 500 0 0); try lia;
    [|intros; apply spends_ret].
  destruct (includes label (js "Claude") || includes label REASONING_LABEL);
    [|eapply spends_weaken; [apply spends_ret|lia|lia]].
  apply (@spends_bind _ _ _ _ 0 0 1 500); try lia; [apply spends_logInfo|].
  intros _.
  apply (@spends_bind _ _ _ _ 0 0 1 500); try lia;
    [apply spends_readOnly, readOnly_isReasoningToggleAvailable|].
  intros available. destruct available;
    [|eapply spends_weaken; [apply spends_ret|lia|lia]].
  apply (@spends_bind _ _ _ _ 0 0 1 500); try lia; [apply spends_logInfo|].
  intros _.
  apply (@spends_bind _ _ _ _ 1 500 0 0); try lia;
    [apply spends_enableReasoningMode|intros; apply spends_ret].
Qed.

(** X10.  One invocation is bounded on every page, whatever rejects:
    [enableReasoningMode] performs at most one click and waits at most
    500 ms; [setModel] and [selectModel] perform at most two clicks
    (the "More" button and the model button) and wait at most 2000 ms;
    [setModelFinal] and [selectModelFinal] perform at most three clicks
    ("More", the element found, the reasoning toggle) and wait at most
    3000 ms. *)
Theorem invocation_budget (label model : jsstring) :
  spends (ReasoningToggle.enableReasoningMode (W := W)) 1 500
  /\ spends (Enhanced.setModel (W := W) label) 2 2000
  /\ spends (Final.setModelFinal (W := W) label) 3 3000
  /\ spends (Enhanced.selectModel (W := W) model) 2 2000
  /\ spends (Final.selectModelFinal (W := W) model) 3 3000.
Proof.
  split; [apply spends_enableReasoningMode|].
  split; [apply spends_setModel|].
  split; [apply spends_setModelFinal|].
  split.
  - apply (@spends_bind _ _ _ _ 0 0 2 2000); try lia;
      [apply spends_readOnly, readOnly_lift|].
    intros v.
    apply (@spends_bind _ _ _ _ 0 0 2 2000); try lia;
      [apply spends_readOnly, readOnly_Enhanced_available|].
    intros available. destruct available; cbn [negb].
    + apply (@spends_bind _ _ _ _ 2 2000 0 0); try lia;
        [apply spends_setModel|].
      intros modelSet.
      apply (@spends_bind _ _ _ _ 0 0 0 0); try lia;
        [|intros; apply spends_ret].
      destruct modelSet; cbn [negb];
        [apply spends_ret|apply spends_readOnly, readOnly_logWarn].
    + eapply spends_weaken; [apply spends_warn_then|lia|lia].
  - apply (@spends_bind _ _ _ _ 0 0 3 3000); try lia;
      [apply spends_readOnly, readOnly_lift|].
    intros v. cbv zeta.
    apply (@spends_bind _ _ _ _ 0 0 3 3000); try lia;
      [apply spends_readOnly, readOnly_Final_available|].
    intros available. destruct available; cbn [negb].
    + apply (@spends_bind _ _ _ _ 3 3000 0 0); try lia;
        [apply spends_setModelFinal|intros; apply spends_ret].
    + eapply spends_weaken; [apply spends_warn_then|lia|lia].
Qed.

End Frames.

(* ================================================================== *)
(** ** How the entry points compose the steps *)


Section Composition.
Context {W : Type} {B : Browser W}.
Import ReasoningToggle.



(** X13.  When the controller rejects none of the toggle's calls,
    [isReasoningToggleAvailable] and [enableReasoningMode] agree: both
    return [true] when the document has a button with [value="on"] and
    [role="switch"], and both return [false] when it has none.  Hence
    the click that follows a positive probe finds its element. *)
Theorem toggle_probe_agrees_with_enabling (w : W) :
  rejects w (QueryOne REASONING_TOGGLE_SELECTOR) = None ->
  rejects w (Evaluate (ScAriaChecked REASONING_TOGGLE_SELECTOR)) = None ->
  rejects w (ClickSelector REASONING_TOGGLE_SELECTOR) = None ->
  (forall i, rejects (react w (Click i)) (Evaluate (ScTimeout 500)) = None) ->
  exists b j1 w2 j2,
    isReasoningToggleAvailable w = (Ok b, w, j1)
    /\ enableReasoningMode w = (Ok b, w2, j2)
    /\ (b = true <->
        exists i e,
          querySelector (dom w) REASONING_TOGGLE_SELECTOR = Some (i, e)).
Proof.
  intros Hq Ha Hc Hs.
  unfold isReasoningToggleAvailable, isReasoningToggleAvailable_try,
    enableReasoningMode, enableReasoningMode_try, try_catch, bind, queryOne,
    logInfo, evaluate, ariaChecked, click, sleep, ret,
    enableReasoningMode_catch, logWarn.
  rewrite Hq, Ha.
  destruct (querySelector (dom w) REASONING_TOGGLE_SELECTOR)
    as [[i e]|] eqn:Q; cbn [option_map fst fold_left].
  - destruct (opt_str_eqb (getAttribute e "aria-checked") (js "true")).
    + do 4 eexists. split; [reflexivity|]. split; [reflexivity|].
      split; [intros _; eauto|reflexivity].
    + cbn [List.map fold_left]. rewrite Hc, Q, Hs.
      do 4 eexists. split; [reflexivity|]. split; [reflexivity|].
      split; [intros _; eauto|reflexivity].
  - cbn [List.map fold_left]. rewrite Hc, Q.
    do 4 eexists. split; [reflexivity|]. split; [reflexivity|].
    split; [discriminate|]. intros (i & e & H). discriminate.
Qed.

End Composition.



Lemma toggle_probe_agrees_with_enabling_witness :
  exists w2 j1 j2,
    ReasoningToggle.isReasoningToggleAvailable Sim.toggleOff
    = (Ok true, Sim.toggleOff, j1)
    /\ ReasoningToggle.enableReasoningMode Sim.toggleOff = (Ok true, w2, j2).
Proof.
  destruct (@toggle_probe_agrees_with_enabling _ _ Sim.toggleOff)
    as (b & j1 & w2 & j2 & E1 & E2 & Hb);
    [reflexivity|reflexivity|reflexivity| |].
  - intros i. cbn [rejects react Sim.browser Sim.onEffect].
    destruct (find _ _); reflexivity.
  - assert (b = true) as ->.
    { apply Hb. do 2 eexists. vm_compute. reflexivity. }
    exists w2, j1, j2. split; [exact E1|exact E2].
Defined.

(* ================================================================== *)
(** ** Calls an invocation never makes *)

Lemma not_called_in_logs (c : Call) (l : list LogEntry) :
  ~ In (Called c) (List.map Logged l).
Proof.
  induction l as [|x l IH]; cbn [List.map In]; [tauto|].
  intros [H | H]; [discriminate|exact (IH H)].
Qed.

Lemma not_called_in_clicks (c : Call) (ks : list nat) :
  ~ In (Called c) (List.map (fun i => Did (Click i)) ks).
Proof.
  induction ks as [|k ks IH]; cbn [List.map In]; [tauto|].
  intros [H | H]; [discriminate|exact (IH H)].
Qed.

Section Never.
Context {W : Type} {B : Browser W}.
Import ReasoningToggle.

Lemma avoids_ret {A} (a : A) c : avoids (ret (W := W) a) c.
Proof. intros w H. exact H. Qed.

Lemma avoids_bind {A C} (m : M W A) (f : A -> M W C) c :
  avoids m c -> (forall a, avoids (f a) c) -> avoids (bind m f) c.
Proof.
  intros Hm Hf w. unfold bind. specialize (Hm w).
  destruct (m w) as [[[a|e] w1] j1]; cbn [snd] in *; [|exact Hm].
  specialize (Hf a w1). destruct (f a w1) as [[r w2] j2]; cbn [snd] in *.
  intros H. apply in_app_or in H. tauto.
Qed.

Lemma avoids_bind_ok {A C} (m : M W A) (f : A -> M W C) c w a w1 j1 :
  m w = (Ok a, w1, j1) -> ~ In (Called c) j1 -> avoids (f a) c ->
  ~ In (Called c) (snd (bind m f w)).
Proof.
  intros E Hj Hf. unfold bind. rewrite E.
  specialize (Hf w1). destruct (f a w1) as [[r w2] j2]; cbn [snd] in *.
  intros H. apply in_app_or in H. tauto.
Qed.

Lemma avoids_try {A} (m : M W A) (h : Exn -> M W A) c :
  avoids m c -> (forall e, avoids (h e) c) -> avoids (try_catch m h) c.
Proof.
  intros Hm Hh w. unfold try_catch. specialize (Hm w).
  destruct (m w) as [[[a|e] w1] j1]; cbn [snd] in *; [exact Hm|].
  specialize (Hh e w1). destruct (h e w1) as [[r w2] j2]; cbn [snd] in *.
  intros H. apply in_app_or in H. tauto.
Qed.

Lemma avoids_logInfo msg c : avoids (logInfo (W := W) msg) c.
Proof. intros w [H | H]; [discriminate|exact H]. Qed.

Lemma avoids_logWarn msg ctx c : avoids (logWarn (W := W) msg ctx) c.
Proof. intros w [H | H]; [discriminate|exact H]. Qed.

Lemma avoids_lift {A} (p : Res A * list LogEntry) c :
  avoids (lift (W := W) p) c.
Proof. intros w. apply not_called_in_logs. Qed.

Lemma avoids_evaluate {A} (s : Script) (f : list Element -> A * list nat) c :
  c <> Evaluate s -> avoids (evaluate (W := W) s f) c.
Proof.
  intros Hc w. unfold evaluate. destruct (rejects w (Evaluate s)).
  - intros [H | H]; [congruence|exact H].
  - destruct (f (dom w)) as [a ks]. intros [H | H]; [congruence|].
    exact (not_called_in_clicks _ _ H).
Qed.

Lemma avoids_sleep ms c :
  c <> Evaluate (ScTimeout ms) -> avoids (sleep (W := W) ms) c.
Proof.
  intros Hc w. unfold sleep. destruct (rejects w (Evaluate (ScTimeout ms))).
  - intros [H | H]; [congruence|exact H].
  - intros [H | [H | H]]; [congruence|discriminate|exact H].
Qed.

Lemma avoids_click sel c :
  c <> ClickSelector sel -> avoids (click (W := W) sel) c.
Proof.
  intros Hc w. unfold click. destruct (rejects w (ClickSelector sel)).
  - intros [H | H]; [congruence|exact H].
  - destruct (querySelector (dom w) sel) as [[i e]|].
    + intros [H | [H | H]]; [congruence|discriminate|exact H].
    + intros [H | H]; [congruence|exact H].
Qed.

Lemma avoids_queryAll sel c :
  c <> QueryAll sel -> avoids (queryAll (W := W) sel) c.
Proof.
  intros Hc w. unfold queryAll. destruct (rejects w (QueryAll sel));
    intros [H | H]; congruence || exact H.
Qed.

Lemma avoids_queryOne sel c :
  c <> QueryOne sel -> avoids (queryOne (W := W) sel) c.
Proof.
  intros Hc w. unfold queryOne. destruct (rejects w (QueryOne sel));
    intros [H | H]; congruence || exact H.
Qed.

End Never.

Ltac other_call :=
  let H := fresh in intros H; vm_compute in H; discriminate H.

Ltac avoid_step :=
  first
    [ apply avoids_ret | apply avoids_logInfo | apply avoids_logWarn
    | apply avoids_lift
    | apply avoids_evaluate; other_call
    | apply avoids_sleep; other_call
    | apply avoids_click; other_call
    | apply avoids_queryAll; other_call
    | apply avoids_queryOne; other_call
    | apply avoids_bind; [|intros ?]
    | apply avoids_try; [|intros ?]
    | match goal with
      | |- avoids (if ?b then _ else _) _ => destruct b
      | |- avoids (match ?o with Some _ => _ | None => _ end) _ => destruct o
      end ].

Section NeverToggle.
Context {W : Type} {B : Browser W}.
Import ReasoningToggle.

Lemma avoids_Enhanced_loop (buttons : list nat) c :
  In c toggleCalls ->
  avoids (Enhanced.isModelSelectionAvailable_loop (W := W) buttons) c.
Proof.
  intros Hc. cbn [toggleCalls In] in Hc.
  induction buttons as [|b rest IH];
    cbn [Enhanced.isModelSelectionAvailable_loop].
  - repeat avoid_step.
  - apply avoids_bind.
    + destruct Hc as [<- | [<- | [<- | []]]];
        apply avoids_evaluate; discriminate.
    + intros text. destruct (textMatches MODEL_OR_MORE text); [|exact IH].
      repeat avoid_step.
Qed.

Lemma avoids_Final_loop (buttons : list nat) c :
  In c toggleCalls ->
  avoids (Final.isModelSelectionAvailable_loop (W := W) buttons) c.
Proof.
  intros Hc. cbn [toggleCalls In] in Hc.
  induction buttons as [|b rest IH];
    cbn [Final.isModelSelectionAvailable_loop].
  - repeat avoid_step.
  - apply avoids_bind.
    + destruct Hc as [<- | [<- | [<- | []]]];
        apply avoids_evaluate; discriminate.
    + intros text. destruct (textMatches MODEL_OR_MORE text); [|exact IH].
      repeat avoid_step.
Qed.

Lemma avoids_Enhanced_available c :
  In c toggleCalls ->
  avoids (Enhanced.isModelSelectionAvailable (W := W)) c.
Proof.
  intros Hc. apply avoids_try.
  - apply avoids_bind.
    + cbn [toggleCalls In] in Hc.
      destruct Hc as [<- | [<- | [<- | []]]];
        apply avoids_queryAll; discriminate.
    + intros buttons. apply avoids_Enhanced_loop. exact Hc.
  - intros e. unfold Enhanced.isModelSelectionAvailable_catch.
    repeat avoid_step.
Qed.

Lemma avoids_Final_available c :
  In c toggleCalls ->
  avoids (Final.isModelSelectionAvailable (W := W)) c.
Proof.
  intros Hc. apply avoids_try.
  - apply avoids_bind.
    + cbn [toggleCalls In] in Hc.
      destruct Hc as [<- | [<- | [<- | []]]];
        apply avoids_queryAll; discriminate.
    + intros buttons. apply avoids_Final_loop. exact Hc.
  - intros e. unfold Final.isModelSelectionAvailable_catch.
    repeat avoid_step.
Qed.

Lemma avoids_setModel (label : jsstring) c :
  In c toggleCalls -> avoids (Enhanced.setModel (W := W) label) c.
Proof.
  intros Hc. cbn [toggleCalls In] in Hc.
  unfold Enhanced.setModel, Enhanced.setModel_try, Enhanced.setModel_catch,
    Enhanced.getCurrentlySelectedModel, Enhanced.getCurrentlySelectedModel_try,
    Enhanced.getCurrentlySelectedModel_catch.
  destruct Hc as [<- | [<- | [<- | []]]]; repeat avoid_step.
Qed.

Lemma avoids_setModelFinal (label : jsstring) c :
  In c toggleCalls ->
  includes label (js "Claude") = false ->
  includes label REASONING_LABEL = false ->
  avoids (Final.setModelFinal (W := W) label) c.
Proof.
  intros Hc H1 H2. cbn [toggleCalls In] in Hc.
  unfold Final.setModelFinal, Final.setModelFinal_try,
    Final.setModelFinal_catch, Final.notSelected.
  rewrite H1, H2. cbn [orb].
  destruct Hc as [<- | [<- | [<- | []]]]; repeat avoid_step.
Qed.

(** X14.  The reasoning toggle is reached for Claude only.  The
    enhanced version never queries, reads or clicks the toggle.  The
    final version does not either when the label contains neither
    "Claude" nor the Russian name of the reasoning mode; so
    [selectModelFinal] leaves the toggle alone for every request whose
    validated name does not start with "claude", the entry named
    "reasoning" included. *)
Theorem reasoning_toggle_only_for_claude (c : Call) :
  In c toggleCalls ->
  (forall label, avoids (Enhanced.setModel (W := W) label) c)
  /\ (forall m, avoids (Enhanced.selectModel (W := W) m) c)
  /\ (forall label,
        includes label (js "Claude") = false ->
        includes label REASONING_LABEL = false ->
        avoids (Final.setModelFinal (W := W) label) c)
  /\ (forall m v,
        fst (getValidatedModel (Some m)) = Ok v ->
        startsWith v (js "claude") = false ->
        avoids (Final.selectModelFinal (W := W) m) c).
Proof.
  intros Hc.
  split; [intros label; apply avoids_setModel; exact Hc|].
  split; [|split].
  - intros m. unfold Enhanced.selectModel.
    apply avoids_bind; [apply avoids_lift|]. intros v.
    apply avoids_bind; [apply avoids_Enhanced_available; exact Hc|].
    intros available. destruct available; cbn [negb].
    + apply avoids_bind; [apply avoids_setModel; exact Hc|].
      intros modelSet. repeat avoid_step.
    + repeat avoid_step.
  - intros label H1 H2. apply avoids_setModelFinal; assumption.
  - intros m v Hv Hs.
    destruct (getValidatedModel_range (Some m)) as (v' & Hv' & Hin & Hok).
    rewrite Hv in Hv'. injection Hv' as <-.
    intros w. unfold Final.selectModelFinal.
    eapply avoids_bind_ok;
      [apply lift_validated; exact Hv|apply not_called_in_logs|].
    cbv zeta.
    apply avoids_bind; [apply avoids_Final_available; exact Hc|].
    intros available. destruct available; cbn [negb];
      [|repeat avoid_step].
    apply avoids_bind; [|intros; apply avoids_ret].
    apply catalogNames_values in Hin. cbn [In] in Hin.
    repeat (destruct Hin as [Hin | Hin]); try contradiction; subst v;
      try (vm_compute in Hs; discriminate Hs);
      try (vm_compute in Hok; discriminate Hok);
      (apply avoids_setModelFinal;
       [exact Hc|vm_compute; reflexivity|vm_compute; reflexivity]).
Qed.

End NeverToggle.

Lemma reasoning_toggle_only_for_claude_witness :
  ~ In (Called (ClickSelector ReasoningToggle.REASONING_TOGGLE_SELECTOR))
       (snd (Final.selectModelFinal (js "Gemini 3.1 Pro") Sim.morePage)).
Proof.
  destruct (@reasoning_toggle_only_for_claude _ Sim.browser
              (ClickSelector ReasoningToggle.REASONING_TOGGLE_SELECTOR))
    as (_ & _ & _ & H); [right; right; left; reflexivity|].
  apply (H (js "Gemini 3.1 Pro") (js "gemini-3.1-pro"));
    vm_compute; reflexivity.
Defined.

(* ================================================================== *)
(** ** The dropdown version *)

Lemma legacy_effects_app (a b : list Legacy.Event) :
  Legacy.effects (a ++ b) = Legacy.effects a ++ Legacy.effects b.
Proof.
  induction a as [|ev a IH]; [reflexivity|].
  destruct ev; cbn [app Legacy.effects]; rewrite IH; reflexivity.
Qed.

Lemma legacy_calls_app (a b : list Legacy.Event) :
  Legacy.calls (a ++ b) = Legacy.calls a ++ Legacy.calls b.
Proof.
  induction a as [|ev a IH]; [reflexivity|].
  destruct ev; cbn [app Legacy.calls]; rewrite IH; reflexivity.
Qed.

Section LegacySteps.
Context {W : Type} {C : Legacy.Controller W}.

Lemma legacy_try_ok {A} (m : Legacy.M W A) h w a w1 j1 :
  m w = (Ok a, w1, j1) -> Legacy.try_catch m h w = (Ok a, w1, j1).
Proof. intros H. unfold Legacy.try_catch. rewrite H. reflexivity. Qed.

Lemma legacy_try_throw {A} (m : Legacy.M W A) h w e w1 j1 :
  m w = (Throw e, w1, j1) ->
  Legacy.try_catch m h w
  = match h e w1 with (r, w2, j2) => (r, w2, j1 ++ j2) end.
Proof. intros H. unfold Legacy.try_catch. rewrite H. reflexivity. Qed.

Lemma legacy_bind_ok {A D} (m : Legacy.M W A) (f : A -> Legacy.M W D)
      w a w1 j1 :
  m w = (Ok a, w1, j1) ->
  Legacy.bind m f w
  = match f a w1 with (r, w2, j2) => (r, w2, j1 ++ j2) end.
Proof. intros H. unfold Legacy.bind. rewrite H. reflexivity. Qed.

Lemma legacy_bind_throw {A D} (m : Legacy.M W A) (f : A -> Legacy.M W D)
      w e w1 j1 :
  m w = (Throw e, w1, j1) -> Legacy.bind m f w = (Throw e, w1, j1).
Proof. intros H. unfold Legacy.bind. rewrite H. reflexivity. Qed.

Lemma contained_try {A} (m : Legacy.M W A) h :
  (forall e, contained (h e)) -> contained (Legacy.try_catch m h).
Proof.
  intros Hh w. unfold Legacy.try_catch.
  destruct (m w) as [[[a|e] w1] j1]; [eauto|].
  destruct (Hh e w1) as (a & w2 & j2 & E). rewrite E. eauto.
Qed.

Lemma contained_handler {A} l msg ctx (a : A) :
  contained (Legacy.bind (Legacy.log (W := W) l msg ctx)
                         (fun _ => Legacy.ret a)).
Proof. intros w. do 3 eexists. reflexivity. Qed.

Lemma contained_isModelSelectionAvailable :
  contained (Legacy.isModelSelectionAvailable (W := W)).
Proof. apply contained_try. intros e. apply contained_handler. Qed.

Lemma contained_getCurrentlySelectedModel :
  contained (Legacy.getCurrentlySelectedModel (W := W)).
Proof. apply contained_try. intros e. apply contained_handler. Qed.

Lemma contained_openModelDropdown :
  contained (Legacy.openModelDropdown (W := W)).
Proof. apply contained_try. intros e. apply contained_handler. Qed.

Lemma contained_closeModelDropdown :
  contained (Legacy.closeModelDropdown (W := W)).
Proof. apply contained_try. intros e. apply contained_handler. Qed.

Lemma contained_selectModelFromDropdown c :
  contained (Legacy.selectModelFromDropdown (W := W) c).
Proof. apply contained_try. intros e. apply contained_handler. Qed.

Lemma contained_getAvailableModelsFromDropdown :
  contained (Legacy.getAvailableModelsFromDropdown (W := W)).
Proof. apply contained_try. intros e. apply contained_handler. Qed.

Lemma contained_setModel n : contained (Legacy.setModel (W := W) n).
Proof. apply contained_try. intros e. apply contained_handler. Qed.

Lemma legacy_closed_getCurrentlySelectedModel (w : W) :
  (forall c, Legacy.rejects w c <> None) ->
  exists j, Legacy.getCurrentlySelectedModel w = (Ok None, w, j)
            /\ Legacy.effects j = [].
Proof.
  intros H.
  unfold Legacy.getCurrentlySelectedModel, Legacy.try_catch,
    Legacy.getCurrentlySelectedModel_try, Legacy.bind, Legacy.evaluate.
  destruct (Legacy.rejects w _) as [e|] eqn:E; [|elim (H _ E)].
  eexists. split; reflexivity.
Qed.

Lemma legacy_closed_openModelDropdown (w : W) :
  (forall c, Legacy.rejects w c <> None) ->
  exists j, Legacy.openModelDropdown w = (Ok false, w, j)
            /\ Legacy.effects j = [].
Proof.
  intros H.
  unfold Legacy.openModelDropdown, Legacy.try_catch,
    Legacy.openModelDropdown_try, Legacy.bind, Legacy.logInfo, Legacy.log,
    Legacy.waitForSelector.
  destruct (Legacy.rejects w _) as [e|] eqn:E; [|elim (H _ E)].
  eexists. split; reflexivity.
Qed.

(** X15.  The dropdown version contains its errors.  None of its seven
    operations ever throws, on any page; and on a page where every
    primitive rejects, each reports failure ([false], [null], the empty
    list) and leaves the page as it is, without any effect. *)
Theorem dropdown_version_contains_errors :
  (contained (Legacy.isModelSelectionAvailable (W := W))
   /\ contained (Legacy.getCurrentlySelectedModel (W := W))
   /\ contained (Legacy.openModelDropdown (W := W))
   /\ contained (Legacy.closeModelDropdown (W := W))
   /\ (forall c, contained (Legacy.selectModelFromDropdown (W := W) c))
   /\ contained (Legacy.getAvailableModelsFromDropdown (W := W))
   /\ (forall n, contained (Legacy.setModel (W := W) n)))
  /\ (forall w,
        (forall c, Legacy.rejects w c <> None) ->
        (exists j, Legacy.isModelSelectionAvailable w = (Ok false, w, j)
                   /\ Legacy.effects j = [])
        /\ (exists j, Legacy.getCurrentlySelectedModel w = (Ok None, w, j)
                      /\ Legacy.effects j = [])
        /\ (exists j, Legacy.openModelDropdown w = (Ok false, w, j)
                      /\ Legacy.effects j = [])
        /\ (exists j, Legacy.closeModelDropdown w = (Ok false, w, j)
                      /\ Legacy.effects j = [])
        /\ (forall c,
              exists j, Legacy.selectModelFromDropdown c w = (Ok false, w, j)
                        /\ Legacy.effects j = [])
        /\ (exists j, Legacy.getAvailableModelsFromDropdown w = (Ok [], w, j)
                      /\ Legacy.effects j = [])
        /\ (forall n,
              exists j, Legacy.setModel n w = (Ok false, w, j)
                        /\ Legacy.effects j = [])).
Proof.
  split.
  { split; [apply contained_isModelSelectionAvailable|].
    split; [apply contained_getCurrentlySelectedModel|].
    split; [apply contained_openModelDropdown|].
    split; [apply contained_closeModelDropdown|].
    split; [apply contained_selectModelFromDropdown|].
    split; [apply contained_getAvailableModelsFromDropdown|].
    apply contained_setModel. }
  intros w H.
  split.
  { unfold Legacy.isModelSelectionAvailable, Legacy.try_catch,
      Legacy.isModelSelectionAvailable_try, Legacy.bind, Legacy.queryOne.
    destruct (Legacy.rejects w _) as [e|] eqn:E; [|elim (H _ E)].
    eexists. split; reflexivity. }
  split; [apply legacy_closed_getCurrentlySelectedModel; exact H|].
  split; [apply legacy_closed_openModelDropdown; exact H|].
  split.
  { unfold Legacy.closeModelDropdown, Legacy.try_catch,
      Legacy.closeModelDropdown_try, Legacy.bind, Legacy.keyboardPress.
    destruct (Legacy.rejects w _) as [e|] eqn:E; [|elim (H _ E)].
    eexists. split; reflexivity. }
  split.
  { intros c.
    unfold Legacy.selectModelFromDropdown, Legacy.try_catch,
      Legacy.selectModelFromDropdown_try, Legacy.bind, Legacy.logInfo,
      Legacy.log, Legacy.waitForSelector.
    destruct (Legacy.rejects w _) as [e|] eqn:E; [|elim (H _ E)].
    eexists. split; reflexivity. }
  split.
  { unfold Legacy.getAvailableModelsFromDropdown, Legacy.try_catch,
      Legacy.getAvailableModelsFromDropdown_try, Legacy.bind, Legacy.queryOne.
    destruct (Legacy.rejects w _) as [e|] eqn:E; [|elim (H _ E)].
    eexists. split; reflexivity. }
  intros n.
  destruct (legacy_closed_getCurrentlySelectedModel w H) as (j1 & E1 & H1).
  destruct (legacy_closed_openModelDropdown w H) as (j2 & E2 & H2).
  unfold Legacy.setModel, Legacy.setModel_try.
  destruct (getModelConfig n) as [c|].
  - erewrite legacy_try_ok.
    2:{ erewrite legacy_bind_ok by reflexivity.
        erewrite legacy_bind_ok by exact E1.
        cbn [Legacy.alreadySelected].
        erewrite legacy_bind_ok by exact E2.
        cbn [negb]. reflexivity. }
    eexists. split; [reflexivity|].
    rewrite !legacy_effects_app, H1, H2. reflexivity.
  - eexists. split; reflexivity.
Qed.

End LegacySteps.

Lemma trimStart_snoc (x : jsstring) (c : Z) :
  isWhiteSpace c = false -> trimStart (x ++ [c]) = trimStart x ++ [c].
Proof.
  intros Hc. rewrite trimStart_app.
  destruct (forallb isWhiteSpace x) eqn:E.
  - rewrite (trimStart_forallb _ E). cbn [trimStart app]. rewrite Hc.
    reflexivity.
  - reflexivity.
Qed.

Lemma trimStart_head (s : jsstring) :
  trimStart s = []
  \/ exists c r, trimStart s = c :: r /\ isWhiteSpace c = false.
Proof.
  induction s as [|c s IH]; cbn [trimStart]; [left; reflexivity|].
  destruct (isWhiteSpace c) eqn:E; [exact IH|].
  right. exists c, s. split; [reflexivity|exact E].
Qed.

Lemma trimStart_fixed (c : Z) (r : jsstring) :
  isWhiteSpace c = false -> trimStart (c :: r) = c :: r.
Proof. intros H. cbn [trimStart]. rewrite H. reflexivity. Qed.

(** Trimming a trimmed string changes nothing. *)
Lemma trim_idempotent (s : jsstring) : trim (trim s) = trim s.
Proof.
  unfold trim, trimEnd.
  destruct (trimStart_head s) as [-> | (c & t & -> & Hc)]; [reflexivity|].
  assert (E : trimStart (rev (c :: t)) = trimStart (rev t) ++ [c])
    by (cbn [rev]; apply trimStart_snoc; exact Hc).
  rewrite E.
  assert (E2 : trimStart (rev (trimStart (rev t) ++ [c]))
               = rev (trimStart (rev t) ++ [c])).
  { rewrite rev_app_distr. cbn [rev app]. apply trimStart_fixed. exact Hc. }
  rewrite E2, rev_involutive. f_equal.
  rewrite trimStart_snoc by exact Hc. f_equal.
  destruct (trimStart_head (rev t)) as [-> | (a & u & -> & Ha)];
    [reflexivity|apply trimStart_fixed; exact Ha].
Qed.

Lemma optionTexts_tidy (sel : Legacy.Selector) (d : list Element) :
  Forall tidy (fst (Legacy.optionTexts sel d)).
Proof.
  unfold Legacy.optionTexts. cbn [fst]. apply Forall_forall.
  intros t Ht. apply filter_In in Ht as [Hin Hp].
  apply in_map_iff in Hin as (o & <- & _).
  split.
  - intros E. rewrite E in Hp. discriminate.
  - apply trim_idempotent.
Qed.

Lemma find_same {A} (p q : A -> bool) (l : list A) :
  (forall x, p x = q x) -> find p l = find q l.
Proof.
  intros H. induction l as [|x l IH]; [reflexivity|].
  cbn [find]. rewrite H, IH. reflexivity.
Qed.

Lemma clickOption_find (sel : Legacy.Selector) (target : jsstring)
      (d : list Element) :
  Legacy.clickOption sel target d
  = match find (optionShows target) (Legacy.querySelectorAll d sel) with
    | Some (i, _) => (true, [i])
    | None => (false, [])
    end.
Proof.
  unfold Legacy.clickOption.
  erewrite find_same; [reflexivity|].
  intros o. unfold optionShows. cbv zeta.
  destruct (trim (textContent (snd o))); reflexivity.
Qed.

Ltac legacy_journal :=
  repeat first
    [ progress cbn [app Legacy.calls Legacy.effects]
    | rewrite legacy_calls_app
    | rewrite legacy_effects_app
    | rewrite app_nil_r ].

Section LegacyEngine.
Context {W : Type} {C : Legacy.Controller W}.

Lemma legacy_bind_inv {A D} (m : Legacy.M W A) (f : A -> Legacy.M W D)
      w r w' j :
  Legacy.bind m f w = (Ok r, w', j) ->
  exists a w1 j1 j2,
    m w = (Ok a, w1, j1) /\ f a w1 = (Ok r, w', j2) /\ j = j1 ++ j2.
Proof.
  unfold Legacy.bind. destruct (m w) as [[[a|e] w1] j1]; [|discriminate].
  destruct (f a w1) as [[r2 w2] j2] eqn:F. intros H.
  injection H as -> -> <-.
  exists a, w1, j1, j2. split; [reflexivity|]. split; [exact F|reflexivity].
Qed.

Lemma closeModelDropdown_presses (w : W) b w' j :
  Legacy.closeModelDropdown w = (Ok b, w', j) ->
  hd_error (Legacy.calls j) = Some (Legacy.KeyboardPress (js "Escape")).
Proof.
  unfold Legacy.closeModelDropdown, Legacy.try_catch,
    Legacy.closeModelDropdown_try, Legacy.bind, Legacy.keyboardPress,
    Legacy.waitForSelector, Legacy.closeModelDropdown_catch, Legacy.logWarn,
    Legacy.log, Legacy.ret, Legacy.try_catch, Legacy.bind.
  destruct (Legacy.rejects w _);
    [intros H; injection H as <- <- <-; reflexivity|].
  destruct (Legacy.rejects
              (Legacy.react w (Legacy.Press (js "Escape")))
              (Legacy.WaitForSelector Legacy.MODEL_DROPDOWN_SELECTOR true
                                      2000));
    intros H; cbn [app] in H; injection H as <- <- <-; reflexivity.
Qed.

(** X16.  The four outcomes of [setModel] of the dropdown version.  An
    unknown name is refused without any call to the page.  When the
    text of the closed model button contains the display label of the
    entry, the answer is [true] with nothing done beyond reading it.
    When opening the dropdown fails, the answer is [false] and nothing
    follows.  Once the dropdown is open, the selection is attempted,
    Escape is pressed whatever the selection did, and the answer is
    the verdict of the selection, whatever the closing did. *)
Theorem dropdown_setModel_outcomes (n : jsstring) (w : W) :
  (getModelConfig n = None ->
   exists m1 m2,
     Legacy.setModel n w
     = (Ok false, w, [Legacy.Logged m1; Legacy.Logged m2])
     /\ Legacy.level m2 = Legacy.Error)
  /\ (forall c current w0 j0,
        getModelConfig n = Some c ->
        Legacy.getCurrentlySelectedModel w = (Ok current, w0, j0) ->
        (Legacy.alreadySelected current (displayName c) = true ->
         exists j,
           Legacy.setModel n w = (Ok true, w0, j)
           /\ Legacy.calls j = Legacy.calls j0
           /\ Legacy.effects j = Legacy.effects j0)
        /\ (Legacy.alreadySelected current (displayName c) = false ->
            forall w1 j1,
              (Legacy.openModelDropdown w0 = (Ok false, w1, j1) ->
               exists j,
                 Legacy.setModel n w = (Ok false, w1, j)
                 /\ Legacy.calls j = Legacy.calls j0 ++ Legacy.calls j1)
              /\ (Legacy.openModelDropdown w0 = (Ok true, w1, j1) ->
                  exists r w2 j2 b w3 j3 j,
                    Legacy.selectModelFromDropdown c w1 = (Ok r, w2, j2)
                    /\ Legacy.closeModelDropdown w2 = (Ok b, w3, j3)
                    /\ Legacy.setModel n w = (Ok r, w3, j)
                    /\ Legacy.calls j
                       = Legacy.calls j0 ++ Legacy.calls j1
                         ++ Legacy.calls j2 ++ Legacy.calls j3
                    /\ hd_error (Legacy.calls j3)
                       = Some (Legacy.KeyboardPress (js "Escape"))))).
Proof.
  split.
  - intros E. unfold Legacy.setModel, Legacy.setModel_try. rewrite E.
    do 2 eexists. split; reflexivity.
  - intros c current w0 j0 Ec E0. split.
    + intros Ha. unfold Legacy.setModel, Legacy.setModel_try. rewrite Ec.
      erewrite legacy_try_ok.
      2:{ erewrite legacy_bind_ok by reflexivity.
          erewrite legacy_bind_ok by exact E0.
          rewrite Ha. reflexivity. }
      eexists. split; [reflexivity|].
      split; legacy_journal; reflexivity.
    + intros Ha w1 j1. split.
      * intros E1. unfold Legacy.setModel, Legacy.setModel_try. rewrite Ec.
        erewrite legacy_try_ok.
        2:{ erewrite legacy_bind_ok by reflexivity.
            erewrite legacy_bind_ok by exact E0.
            rewrite Ha.
            erewrite legacy_bind_ok by exact E1.
            cbn [negb]. reflexivity. }
        eexists. split; [reflexivity|].
        legacy_journal. reflexivity.
      * intros E1.
        destruct (contained_selectModelFromDropdown c w1)
          as (r & w2 & j2 & E2).
        destruct (contained_closeModelDropdown w2) as (b & w3 & j3 & E3).
        exists r, w2, j2, b, w3, j3.
        unfold Legacy.setModel, Legacy.setModel_try. rewrite Ec.
        erewrite legacy_try_ok.
        2:{ erewrite legacy_bind_ok by reflexivity.
            erewrite legacy_bind_ok by exact E0.
            rewrite Ha.
            erewrite legacy_bind_ok by exact E1.
            cbn [negb].
            erewrite legacy_bind_ok by exact E2.
            erewrite legacy_bind_ok by exact E3.
            reflexivity. }
        eexists. split; [exact E2|]. split; [exact E3|].
        split; [reflexivity|]. split.
        -- legacy_journal. reflexivity.
        -- exact (closeModelDropdown_presses _ E3).
Qed.

(** X17.  [closeModelDropdown] reports the key press only.  When the
    press of Escape is rejected it logs a warning and returns [false],
    the page untouched.  When the press is accepted it returns [true]
    whether the wait for the dropdown to disappear is fulfilled or
    times out; a time out leaves no line in the log. *)
Theorem dropdown_close_reports_the_key_press (w : W) :
  let escape := Legacy.KeyboardPress (js "Escape") in
  let gone := Legacy.WaitForSelector Legacy.MODEL_DROPDOWN_SELECTOR true 2000 in
  let w1 := Legacy.react w (Legacy.Press (js "Escape")) in
  (forall e,
      Legacy.rejects w escape = Some e ->
      Legacy.closeModelDropdown w
      = (Ok false, w,
         [Legacy.Called escape;
          Legacy.Logged
            (Legacy.mkLog Legacy.Warn (js "Error closing model dropdown:")
                          (Some (Legacy.errorText e)))]))
  /\ (Legacy.rejects w escape = None ->
      Legacy.rejects w1 gone = None ->
      Legacy.closeModelDropdown w
      = (Ok true,
         Legacy.react w1 (Legacy.Await Legacy.MODEL_DROPDOWN_SELECTOR true),
         [Legacy.Called escape; Legacy.Did (Legacy.Press (js "Escape"));
          Legacy.Called gone;
          Legacy.Did (Legacy.Await Legacy.MODEL_DROPDOWN_SELECTOR true)]))
  /\ (forall e,
        Legacy.rejects w escape = None ->
        Legacy.rejects w1 gone = Some e ->
        Legacy.closeModelDropdown w
        = (Ok true, w1,
           [Legacy.Called escape; Legacy.Did (Legacy.Press (js "Escape"));
            Legacy.Called gone])).
Proof.
  cbv zeta.
  unfold Legacy.closeModelDropdown, Legacy.try_catch,
    Legacy.closeModelDropdown_try, Legacy.bind, Legacy.keyboardPress,
    Legacy.waitForSelector, Legacy.closeModelDropdown_catch, Legacy.logWarn,
    Legacy.log, Legacy.ret, Legacy.try_catch, Legacy.bind.
  split; [|split].
  - intros e E. rewrite E. reflexivity.
  - intros E1 E2. rewrite E1, E2. reflexivity.
  - intros e E1 E2. rewrite E1, E2. reflexivity.
Qed.

(** X18.  [openModelDropdown] returns [true] exactly when the wait for
    the closed model button is fulfilled, the click is accepted and
    finds such a button, and the wait for the dropdown is fulfilled;
    it has then clicked the first such button and nothing else.  When
    it returns [false], either nothing was clicked or the dropdown did
    not show after the click. *)
Theorem dropdown_open_spec (w : W) :
  let button := Legacy.MODEL_BUTTON_SELECTOR in
  let menu := Legacy.MODEL_DROPDOWN_SELECTOR in
  let w1 := Legacy.react w (Legacy.Await button false) in
  let fulfilled i e :=
    Legacy.rejects w (Legacy.WaitForSelector button false 10000) = None
    /\ Legacy.rejects w1 (Legacy.ClickSelector button) = None
    /\ Legacy.querySelector (Legacy.dom w1) button = Some (i, e)
    /\ Legacy.rejects (Legacy.react w1 (Legacy.Click i))
                      (Legacy.WaitForSelector menu false 2000) = None in
  exists b w' j,
    Legacy.openModelDropdown w = (Ok b, w', j)
    /\ (b = true <-> exists i e, fulfilled i e)
    /\ (forall i e,
          fulfilled i e ->
          w' = Legacy.react (Legacy.react w1 (Legacy.Click i))
                            (Legacy.Await menu false)
          /\ Legacy.effects j
             = [Legacy.Await button false; Legacy.Click i;
                Legacy.Await menu false])
    /\ (b = false ->
        forall i, ~ In (Legacy.Click i) (Legacy.effects j)
                  \/ Legacy.rejects (Legacy.react w1 (Legacy.Click i))
                                    (Legacy.WaitForSelector menu false 2000)
                     <> None).
Proof.
  cbv zeta.
  unfold Legacy.openModelDropdown, Legacy.try_catch,
    Legacy.openModelDropdown_try, Legacy.bind, Legacy.logInfo, Legacy.log,
    Legacy.waitForSelector, Legacy.click, Legacy.openModelDropdown_catch,
    Legacy.logError, Legacy.ret, Legacy.MODEL_SELECTION_TIMEOUT.
  destruct (Legacy.rejects w
              (Legacy.WaitForSelector Legacy.MODEL_BUTTON_SELECTOR false
                                      10000)) as [e|] eqn:E1.
  { do 3 eexists. split; [reflexivity|]. split; [|split].
    - split; [discriminate|]. intros (i & x & H & _). discriminate.
    - intros i x (H & _). discriminate.
    - intros _ i. left. cbn. tauto. }
  set (w1 := Legacy.react w (Legacy.Await Legacy.MODEL_BUTTON_SELECTOR false)).
  destruct (Legacy.rejects w1
              (Legacy.ClickSelector Legacy.MODEL_BUTTON_SELECTOR))
    as [e|] eqn:E2.
  { do 3 eexists. split; [reflexivity|]. split; [|split].
    - split; [discriminate|]. intros (i & x & _ & H & _). discriminate.
    - intros i x (_ & H & _). discriminate.
    - intros _ i. left. cbn. intuition discriminate. }
  destruct (Legacy.querySelector (Legacy.dom w1) Legacy.MODEL_BUTTON_SELECTOR)
    as [[i e]|] eqn:Q.
  2:{ do 3 eexists. split; [reflexivity|]. split; [|split].
      - split; [discriminate|]. intros (i & x & _ & _ & H & _). discriminate.
      - intros i x (_ & _ & H & _). discriminate.
      - intros _ i. left. cbn. intuition discriminate. }
  destruct (Legacy.rejects
              (Legacy.react w1 (Legacy.Click i))
              (Legacy.WaitForSelector Legacy.MODEL_DROPDOWN_SELECTOR false
                                      2000)) as [e'|] eqn:E3.
  { do 3 eexists. split; [reflexivity|]. split; [|split].
    - split; [discriminate|]. intros (k & x & _ & _ & H & H').
      injection H as -> ->. rewrite E3 in H'. discriminate.
    - intros k x (_ & _ & H & H').
      injection H as -> ->. rewrite E3 in H'. discriminate.
    - intros _ k. cbn.
      destruct (Nat.eq_dec k i) as [->|N].
      + right. rewrite E3. discriminate.
      + left. intros [H | [H | H]]; try discriminate; [|exact H].
        injection H as H. congruence. }
  do 3 eexists. split; [reflexivity|]. split; [|split].
  - split; [|reflexivity]. intros _. exists i, e. auto.
  - intros k x (_ & _ & H & _). injection H as -> ->.
    split; reflexivity.
  - discriminate.
Qed.

End LegacyEngine.

Lemma legacy_querySelectorAll_in d sel i e :
  In (i, e) (Legacy.querySelectorAll d sel) ->
  nth_error d i = Some e /\ Legacy.matches sel e = true.
Proof.
  unfold Legacy.querySelectorAll. intros H.
  apply filter_In in H as [H M]. split; [|exact M].
  exact (querySelectorAll_nth _ _ _ _ H).
Qed.

Lemma firstSuch_in {A} (p : A -> bool) (l : list A) (x : A) :
  firstSuch p l x -> In x l.
Proof.
  intros (b & a & -> & _). apply in_or_app. right. left. reflexivity.
Qed.

Section LegacyReads.
Context {W : Type} {C : Legacy.Controller W}.

(** X19.  [getAvailableModelsFromDropdown] returns only strings that
    are not empty and carry no white space at either end.  When it
    finds the dropdown open it reads the options and touches nothing.
    When it does not, it tries to open it, waits 500 ms, reads the
    options, and then presses Escape -- whether or not the opening
    succeeded. *)
Theorem dropdown_listing_spec (w : W) :
  let menu := Legacy.MODEL_DROPDOWN_SELECTOR in
  let read :=
    Legacy.Evaluate (Legacy.ScOptionTexts Legacy.MODEL_OPTION_SELECTOR) in
  let texts w' :=
    fst (Legacy.optionTexts Legacy.MODEL_OPTION_SELECTOR (Legacy.dom w')) in
  (forall models w' j,
      Legacy.getAvailableModelsFromDropdown w = (Ok models, w', j) ->
      Forall tidy models)
  /\ (forall i e,
        Legacy.rejects w (Legacy.QueryOne menu) = None ->
        Legacy.querySelector (Legacy.dom w) menu = Some (i, e) ->
        Legacy.rejects w read = None ->
        Legacy.getAvailableModelsFromDropdown w
        = (Ok (texts w), w,
           [Legacy.Called (Legacy.QueryOne menu); Legacy.Called read]))
  /\ (forall b w1 j1,
        Legacy.rejects w (Legacy.QueryOne menu) = None ->
        Legacy.querySelector (Legacy.dom w) menu = None ->
        Legacy.openModelDropdown w = (Ok b, w1, j1) ->
        Legacy.rejects w1 (Legacy.WaitForTimeout 500) = None ->
        Legacy.rejects (Legacy.react w1 (Legacy.Wait 500)) read = None ->
        exists b3 w3 j3,
          Legacy.closeModelDropdown (Legacy.react w1 (Legacy.Wait 500))
          = (Ok b3, w3, j3)
          /\ hd_error (Legacy.calls j3)
             = Some (Legacy.KeyboardPress (js "Escape"))
          /\ Legacy.getAvailableModelsFromDropdown w
             = (Ok (texts (Legacy.react w1 (Legacy.Wait 500))), w3,
                Legacy.Called (Legacy.QueryOne menu)
                :: j1
                ++ [Legacy.Called (Legacy.WaitForTimeout 500);
                    Legacy.Did (Legacy.Wait 500);
                    Legacy.Called read]
                ++ j3)).
Proof.
  cbv zeta. split; [|split].
  - intros models w' j.
    unfold Legacy.getAvailableModelsFromDropdown, Legacy.try_catch.
    destruct (Legacy.getAvailableModelsFromDropdown_try w)
      as [[[a|e] w1] j1] eqn:T.
    + intros H. injection H as <- _ _.
      unfold Legacy.getAvailableModelsFromDropdown_try in T.
      apply legacy_bind_inv in T as (h & wa & ja & jb & _ & T & _).
      cbv zeta in T.
      apply legacy_bind_inv in T as (u & wb & jc & jd & _ & T & _).
      apply legacy_bind_inv in T as (ms & wc & je & jf & Ev & T & _).
      apply legacy_bind_inv in T as (u2 & wd & jg & jh & _ & T & _).
      unfold Legacy.ret in T. injection T as <- _ _.
      unfold Legacy.evaluate in Ev.
      destruct (Legacy.rejects wb _); [discriminate|].
      pose proof (optionTexts_tidy Legacy.MODEL_OPTION_SELECTOR
                                   (Legacy.dom wb)) as Ht.
      destruct (Legacy.optionTexts _ _) as [x ks].
      injection Ev as <- _ _. exact Ht.
    + unfold Legacy.getAvailableModelsFromDropdown_catch, Legacy.bind,
        Legacy.logWarn, Legacy.log, Legacy.ret.
      intros H. injection H as <- _ _. constructor.
  - intros i e Hq Q Hr.
    unfold Legacy.getAvailableModelsFromDropdown,
      Legacy.getAvailableModelsFromDropdown_try.
    erewrite legacy_try_ok; [reflexivity|].
    unfold Legacy.bind at 1. unfold Legacy.queryOne. rewrite Hq, Q.
    cbn [option_map negb]. cbv zeta.
    unfold Legacy.bind, Legacy.ret, Legacy.evaluate. rewrite Hr.
    unfold Legacy.optionTexts. reflexivity.
  - intros b w1 j1 Hq Q Ho Hw Hr.
    destruct (contained_closeModelDropdown (Legacy.react w1 (Legacy.Wait 500)))
      as (b3 & w3 & j3 & E3).
    exists b3, w3, j3. split; [exact E3|].
    split; [exact (closeModelDropdown_presses _ E3)|].
    unfold Legacy.getAvailableModelsFromDropdown,
      Legacy.getAvailableModelsFromDropdown_try.
    erewrite legacy_try_ok; [reflexivity|].
    unfold Legacy.bind at 1. unfold Legacy.queryOne. rewrite Hq, Q.
    cbn [option_map negb]. cbv zeta.
    erewrite legacy_bind_ok.
    2:{ erewrite legacy_bind_ok by exact Ho.
        unfold Legacy.waitForTimeout. rewrite Hw. reflexivity. }
    erewrite legacy_bind_ok.
    2:{ unfold Legacy.evaluate. rewrite Hr. unfold Legacy.optionTexts.
        reflexivity. }
    cbn [fold_left List.map].
    erewrite legacy_bind_ok.
    2:{ erewrite legacy_bind_ok by exact E3. reflexivity. }
    unfold Legacy.ret. cbn [app fst].
    rewrite !app_nil_r, <- !app_assoc. reflexivity.
Qed.

(** X20.  When its script runs, [getCurrentlySelectedModel] of the
    dropdown version leaves the page as it is and never returns the
    empty string: it returns the trimmed text of the closed model
    button, the [aria-label] of that button when the text is blank and
    the label is not empty, and [null] when there is no such button or
    neither text.  [isModelSelectionAvailable] reports the presence of
    the same button, so without it the model is [null]. *)
Theorem dropdown_current_model_spec (w : W) :
  let button := Legacy.MODEL_BUTTON_SELECTOR in
  let read := Legacy.Evaluate (Legacy.ScButtonText button) in
  Legacy.rejects w read = None ->
  exists r,
    Legacy.getCurrentlySelectedModel w = (Ok r, w, [Legacy.Called read])
    /\ r <> Some []
    /\ (Legacy.querySelector (Legacy.dom w) button = None -> r = None)
    /\ (forall i e,
          Legacy.querySelector (Legacy.dom w) button = Some (i, e) ->
          (trim (textContent e) <> [] -> r = Some (trim (textContent e)))
          /\ (trim (textContent e) = [] ->
              r = match getAttribute e "aria-label" with
                  | Some (c :: a) => Some (c :: a)
                  | _ => None
                  end))
    /\ (Legacy.rejects w (Legacy.QueryOne button) = None ->
        exists j,
          Legacy.isModelSelectionAvailable w
          = (Ok (match Legacy.querySelector (Legacy.dom w) button with
                 | Some _ => true
                 | None => false
                 end), w, j)).
Proof.
  cbv zeta. intros Hr.
  unfold Legacy.getCurrentlySelectedModel, Legacy.try_catch,
    Legacy.getCurrentlySelectedModel_try, Legacy.bind, Legacy.evaluate,
    Legacy.ret, Legacy.buttonText.
  rewrite Hr. cbn [fold_left List.map app].
  eexists. split; [reflexivity|].
  split; [|split; [|split]].
  - destruct (Legacy.querySelector _ _) as [[i e]|]; [|discriminate].
    cbv zeta.
    destruct (trim (textContent e)) as [|c t]; cbn [truthy];
      [|discriminate].
    destruct (getAttribute e "aria-label") as [[|c a]|]; cbn [truthy];
      discriminate.
  - intros Q. rewrite Q. reflexivity.
  - intros i e Q. rewrite Q. cbv zeta. split.
    + intros N. destruct (trim (textContent e)); [contradiction|reflexivity].
    + intros E. rewrite E. cbn [truthy].
      destruct (getAttribute e "aria-label") as [[|c a]|]; reflexivity.
  - intros Hq.
    unfold Legacy.isModelSelectionAvailable, Legacy.try_catch,
      Legacy.isModelSelectionAvailable_try, Legacy.bind, Legacy.queryOne,
      Legacy.ret.
    rewrite Hq.
    destruct (Legacy.querySelector _ _) as [[i e]|];
      eexists; reflexivity.
Qed.

(** X21.  When the dropdown shows and the calls are accepted,
    [selectModelFromDropdown] clicks the first option (an element with
    the role "menuitem"), in document order, whose trimmed text
    includes the selector label of the entry, waits 500 ms and returns
    [true]; when no option is such it clicks nothing, does not wait and
    returns [false]. *)
Theorem dropdown_select_first_option (c : ModelConfig) (w : W) :
  let menu := Legacy.MODEL_DROPDOWN_SELECTOR in
  let w1 := Legacy.react w (Legacy.Await menu false) in
  let options :=
    Legacy.querySelectorAll (Legacy.dom w1) Legacy.MODEL_OPTION_SELECTOR in
  Legacy.rejects w (Legacy.WaitForSelector menu false 10000) = None ->
  Legacy.rejects w1
    (Legacy.Evaluate
       (Legacy.ScClickOption Legacy.MODEL_OPTION_SELECTOR (selectorText c)))
  = None ->
  (forall i,
      Legacy.rejects (Legacy.react w1 (Legacy.Click i))
                     (Legacy.WaitForTimeout 500) = None) ->
  (exists i e j,
      firstSuch (optionShows (selectorText c)) options (i, e)
      /\ nth_error (Legacy.dom w1) i = Some e
      /\ getAttribute e "role" = Some (js "menuitem")
      /\ Legacy.selectModelFromDropdown c w
         = (Ok true,
            Legacy.react (Legacy.react w1 (Legacy.Click i)) (Legacy.Wait 500),
            j)
      /\ Legacy.effects j
         = [Legacy.Await menu false; Legacy.Click i; Legacy.Wait 500])
  \/ ((forall o, In o options -> optionShows (selectorText c) o = false)
      /\ exists j,
           Legacy.selectModelFromDropdown c w = (Ok false, w1, j)
           /\ Legacy.effects j = [Legacy.Await menu false]).
Proof.
  cbv zeta. intros H1 H2 H3.
  unfold Legacy.selectModelFromDropdown, Legacy.try_catch,
    Legacy.selectModelFromDropdown_try, Legacy.bind, Legacy.logInfo,
    Legacy.log, Legacy.waitForSelector, Legacy.evaluate,
    Legacy.waitForTimeout, Legacy.logError, Legacy.ret,
    Legacy.MODEL_SELECTION_TIMEOUT.
  rewrite H1, H2. rewrite clickOption_find.
  destruct (find_first_or_none
              (optionShows (selectorText c))
              (Legacy.querySelectorAll
                 (Legacy.dom
                    (Legacy.react w
                       (Legacy.Await Legacy.MODEL_DROPDOWN_SELECTOR false)))
                 Legacy.MODEL_OPTION_SELECTOR))
    as [([i e] & F & Hf) | [F Hn]]; rewrite F.
  - left. cbn [fold_left negb List.map]. rewrite H3.
    destruct (legacy_querySelectorAll_in _ _ _ _ (firstSuch_in Hf))
      as [Hn Hm].
    exists i, e. eexists.
    split; [exact Hf|]. split; [exact Hn|]. split.
    + unfold Legacy.matches, Legacy.MODEL_OPTION_SELECTOR in Hm.
      cbn [Legacy.sel_tag Legacy.sel_attrs Legacy.sel_present forallb
           fst snd andb] in Hm.
      destruct (getAttribute e "role") as [r|]; cbn [opt_str_eqb] in Hm;
        [|discriminate].
      rewrite !andb_true_r in Hm. apply str_eqb_eq in Hm. congruence.
    + split; reflexivity.
  - right. split; [exact Hn|]. cbn [fold_left negb List.map].
    eexists. split; reflexivity.
Qed.

End LegacyReads.

Lemma dropdown_version_contains_errors_witness :
  exists j,
    Legacy.setModel (js "Gemini 3.1 Pro") SimLegacy.closedPage
    = (Ok false, SimLegacy.closedPage, j)
    /\ Legacy.effects j = [].
Proof.
  destruct (@dropdown_version_contains_errors _ SimLegacy.controller)
    as [_ H].
  destruct (H SimLegacy.closedPage) as (_ & _ & _ & _ & _ & _ & Hs).
  - intros c. discriminate.
  - exact (Hs (js "Gemini 3.1 Pro")).
Defined.

Lemma dropdown_setModel_outcomes_witness :
  (exists m1 m2,
      Legacy.setModel (js "gpt-4") SimLegacy.claudePage
      = (Ok false, SimLegacy.claudePage,
         [Legacy.Logged m1; Legacy.Logged m2])
      /\ Legacy.level m2 = Legacy.Error)
  /\ (exists r w3 j,
         Legacy.setModel (js "gemini-3.1-pro") SimLegacy.claudePage
         = (Ok r, w3, j)
         /\ In (Legacy.KeyboardPress (js "Escape")) (Legacy.calls j)).
Proof.
  split.
  - destruct (dropdown_setModel_outcomes (js "gpt-4") SimLegacy.claudePage)
      as [H _].
    apply H. reflexivity.
  - destruct (dropdown_setModel_outcomes (js "gemini-3.1-pro")
                                         SimLegacy.claudePage) as [_ H].
    edestruct H as [_ Hn];
      [vm_compute; reflexivity|vm_compute; reflexivity|].
    edestruct Hn as [_ Ho]; [vm_compute; reflexivity|].
    edestruct Ho as (r & w2 & j2 & b & w3 & j3 & j & _ & _ & E & Hc & Hh);
      [vm_compute; reflexivity|].
    exists r, w3, j. split; [exact E|].
    rewrite Hc. apply in_or_app. right. apply in_or_app. right.
    apply in_or_app. right.
    destruct (Legacy.calls j3) as [|x l]; [discriminate|].
    injection Hh as ->. left. reflexivity.
Defined.

Lemma dropdown_close_reports_the_key_press_witness :
  exists w' j,
    Legacy.closeModelDropdown SimLegacy.stickyPage = (Ok true, w', j)
    /\ Legacy.dom w' = SimLegacy.opened.
Proof.
  destruct (dropdown_close_reports_the_key_press SimLegacy.stickyPage)
    as (_ & _ & H).
  do 2 eexists. split.
  - apply (H (JsError (js "Waiting for selector failed"))); reflexivity.
  - reflexivity.
Defined.

Lemma dropdown_open_spec_witness :
  exists w' j,
    Legacy.openModelDropdown SimLegacy.claudePage = (Ok true, w', j)
    /\ Legacy.dom w' = SimLegacy.opened
    /\ Legacy.effects j
       = [Legacy.Await Legacy.MODEL_BUTTON_SELECTOR false; Legacy.Click 2;
          Legacy.Await Legacy.MODEL_DROPDOWN_SELECTOR false].
Proof.
  destruct (dropdown_open_spec SimLegacy.claudePage)
    as (b & w' & j & E & Hb & Hf & _).
  assert (F : Legacy.rejects SimLegacy.claudePage
                (Legacy.WaitForSelector Legacy.MODEL_BUTTON_SELECTOR false
                                        10000) = None
              /\ Legacy.rejects
                   (Legacy.react SimLegacy.claudePage
                      (Legacy.Await Legacy.MODEL_BUTTON_SELECTOR false))
                   (Legacy.ClickSelector Legacy.MODEL_BUTTON_SELECTOR) = None
              /\ Legacy.querySelector
                   (Legacy.dom
                      (Legacy.react SimLegacy.claudePage
                         (Legacy.Await Legacy.MODEL_BUTTON_SELECTOR false)))
                   Legacy.MODEL_BUTTON_SELECTOR
                 = Some (2%nat,
                         SimLegacy.modelButton "closed"
                                               (js "Claude Sonnet 4.6"))
              /\ Legacy.rejects
                   (Legacy.react
                      (Legacy.react SimLegacy.claudePage
                         (Legacy.Await Legacy.MODEL_BUTTON_SELECTOR false))
                      (Legacy.Click 2))
                   (Legacy.WaitForSelector Legacy.MODEL_DROPDOWN_SELECTOR
                                           false 2000) = None)
    by (repeat split; reflexivity).
  assert (b = true) as -> by (apply Hb; eauto).
  destruct (Hf _ _ F) as [-> Hj].
  do 2 eexists. split; [exact E|]. split; [reflexivity|exact Hj].
Defined.

Lemma dropdown_listing_spec_witness :
  Legacy.getAvailableModelsFromDropdown SimLegacy.openedPage
  = (Ok [js "Claude Sonnet 4.6"; js "Gemini 3.1 Pro"], SimLegacy.openedPage,
     [Legacy.Called (Legacy.QueryOne Legacy.MODEL_DROPDOWN_SELECTOR);
      Legacy.Called
        (Legacy.Evaluate
           (Legacy.ScOptionTexts Legacy.MODEL_OPTION_SELECTOR))]).
Proof.
  destruct (dropdown_listing_spec SimLegacy.openedPage) as (_ & H & _).
  eapply eq_trans;
    [eapply H; [reflexivity|vm_compute; reflexivity|reflexivity]|].
  vm_compute. reflexivity.
Defined.

Lemma dropdown_current_model_spec_witness :
  Legacy.getCurrentlySelectedModel SimLegacy.labelledPage
  = (Ok (Some (js "Choose a model")), SimLegacy.labelledPage,
     [Legacy.Called
        (Legacy.Evaluate (Legacy.ScButtonText Legacy.MODEL_BUTTON_SELECTOR))]).
Proof.
  destruct (dropdown_current_model_spec SimLegacy.labelledPage)
    as (r & E & _ & _ & H & _); [reflexivity|].
  edestruct H as [_ Hl]; [vm_compute; reflexivity|].
  rewrite E. rewrite Hl by reflexivity. reflexivity.
Defined.

Lemma dropdown_select_first_option_witness :
  exists w' j,
    Legacy.selectModelFromDropdown
      (mkModel (js "gemini-3.1-pro") (js "Gemini 3.1 Pro")
               (js "Gemini 3.1 Pro") None)
      SimLegacy.openedPage
    = (Ok true, w', j)
    /\ Legacy.dom w' = SimLegacy.closedOn (js "Gemini 3.1 Pro")
    /\ Legacy.effects j
       = [Legacy.Await Legacy.MODEL_DROPDOWN_SELECTOR false; Legacy.Click 6;
          Legacy.Wait 500].
Proof.
  destruct (dropdown_select_first_option
              (mkModel (js "gemini-3.1-pro") (js "Gemini 3.1 Pro")
                       (js "Gemini 3.1 Pro") None)
              SimLegacy.openedPage)
    as [(i & e & j & Hf & _ & _ & E & Hj) | [Hn _]];
    [reflexivity|reflexivity| | |].
  - intros i.
    cbn [Legacy.rejects Legacy.react SimLegacy.controller SimLegacy.onEffect].
    destruct (find _ _); reflexivity.
  - assert (i = 6%nat) as ->.
    { destruct Hf as (before & after & Hl & Hp & Hb).
      assert (L : Legacy.querySelectorAll
                    (Legacy.dom
                       (Legacy.react SimLegacy.openedPage
                          (Legacy.Await Legacy.MODEL_DROPDOWN_SELECTOR false)))
                    Legacy.MODEL_OPTION_SELECTOR
                  = [(4%nat, Sim.el "DIV" (js " ") (Some 3%nat) Sim.menuitem);
                     (5%nat, Sim.el "DIV" (js " Claude Sonnet 4.6 ")
                                    (Some 3%nat) Sim.menuitem);
                     (6%nat, Sim.el "DIV" (js "Gemini 3.1 Pro") (Some 3%nat)
                                    Sim.menuitem)])
        by reflexivity.
      rewrite L in Hl. clear L.
      destruct before as [|b1 [|b2 [|b3 before]]]; cbn [app] in Hl;
        inversion Hl; subst; try reflexivity;
        try (vm_compute in Hp; discriminate Hp).
      destruct before; discriminate. }
    do 2 eexists. split; [exact E|]. split; [reflexivity|exact Hj].
  - specialize (Hn (6%nat, Sim.el "DIV" (js "Gemini 3.1 Pro") (Some 3%nat)
                                  Sim.menuitem)).
    cbv zeta in Hn.
    assert (X : false = true); [|discriminate].
    rewrite <- Hn; [reflexivity|]. vm_compute. tauto.
Defined.
